(** * SoRe booking escrow and reputation scoring

    A shallow embedding of the Solidity contracts of the repository

    - [TimeBooking]       (program/contracts/TimeBooking.sol),
    - [ReputationNFT]     (the soulbound reputation token),
    - [ReputationTracker] (the activity tracker that feeds the token),
    - [BookingTicketNFT]  (program/contracts/BookingTicketNFT.sol),

    together with the properties of the booking life cycle, the fee split,
    the replay guard and the weighted reputation score, of whole histories
    of calls, and of the ticket metadata.

    Conventions of the embedding.

    - A [uint256] is an [N] up to [MAX_UINT256]; the arithmetic of
      Solidity 0.8 is checked, so [+], [-] and [*] are the partial operations
      [checked_add], [checked_sub] and [checked_mul], which revert with the
      panic code 0x11 when they leave the range.
    - An [address] is an [N]; [0] is [address(0)].
    - A [mapping] is a [gmap] read with a default value, as in the EVM.
    - An external function is a function from the call environment [Env] and
      the contract state to a [result]: [Ok] with the new state, or [Revert]
      with the reason string.  A reverted call leaves no trace: the caller
      keeps the state it had ([commit]).
    - Calls are atomic: the callbacks a call may trigger in other contracts
      (the payee of a [transfer], [onERC721Received], the reputation hooks)
      are summarised by the answers recorded in [Env]; they cannot re-enter.
      The [nonReentrant] modifier is therefore always passed. *)

From stdpp Require Import gmap strings list fin_maps.
From Stdlib Require Import NArith ZArith Lia.
Local Open Scope N_scope.

(** ** Results of a call *)

Inductive result (A : Type) : Type :=
  | Ok (a : A)
  | Revert (reason : string).
Arguments Ok {A} a.
Arguments Revert {A} reason.

#[global] Instance result_ret : MRet result := fun A a => Ok a.
#[global] Instance result_bind : MBind result := fun A B f m =>
  match m with
  | Ok a => f a
  | Revert r => Revert r
  end.

Definition require (c : bool) (reason : string) : result unit :=
  if c then Ok tt else Revert reason.

Definition is_ok {A} (r : result A) : bool :=
  match r with Ok _ => true | Revert _ => false end.

(** ** Checked [uint256] arithmetic *)

Definition address := N.

Definition MAX_UINT256 : N := 2 ^ 256 - 1.

Definition uint256 (x : N) : Prop := x <= MAX_UINT256.

Definition PANIC_ARITH : string := "Panic(0x11)".

Definition checked_add (a b : N) : result N :=
  if a + b <=? MAX_UINT256 then Ok (a + b) else Revert PANIC_ARITH.

Definition checked_sub (a b : N) : result N :=
  if b <=? a then Ok (a - b) else Revert PANIC_ARITH.

Definition checked_mul (a b : N) : result N :=
  if a * b <=? MAX_UINT256 then Ok (a * b) else Revert PANIC_ARITH.

(** [Counters.increment] is the one unchecked addition of the contracts. *)
Definition increment (c : N) : N := (c + 1) mod (MAX_UINT256 + 1).

(** * The booking escrow: TimeBooking.sol *)

Module TimeBooking.

Inductive BookingStatus : Type :=
  | Pending      (* 0 - waiting for the KOL's response *)
  | Accepted     (* 1 - KOL accepted, session in progress *)
  | Rejected     (* 2 - KOL rejected, refunded *)
  | Completed    (* 3 - session completed successfully *)
  | Cancelled    (* 4 - buyer cancelled *)
  | Disputed     (* 5 - buyer reported an issue *)
  | Expired.     (* 6 - expired after 5 days *)

#[global] Instance BookingStatus_eq_dec : EqDecision BookingStatus.
Proof. solve_decision. Defined.

Record Booking : Type := mkBooking {
  bookingId : N;
  tokenId : N;
  buyer : address;
  kol : address;
  pricePerSlot : N;
  totalSlots : N;
  totalAmount : N;
  fromTime : N;
  toTime : N;
  reason : string;
  status : BookingStatus;
  createdAt : N;
  updatedAt : N;
  sessionEndTime : N;
  disputeReported : bool;
  rating : N;
  ratingSubmitted : bool
}.

(** The value a [mapping(uint256 => Booking)] holds at a key never written. *)
Definition zeroBooking : Booking :=
  mkBooking 0 0 0 0 0 0 0 0 0 "" Pending 0 0 0 false 0 false.

Definition with_status (b : Booking) (st : BookingStatus) : Booking :=
  mkBooking (bookingId b) (tokenId b) (buyer b) (kol b) (pricePerSlot b)
    (totalSlots b) (totalAmount b) (fromTime b) (toTime b) (reason b) st
    (createdAt b) (updatedAt b) (sessionEndTime b) (disputeReported b)
    (rating b) (ratingSubmitted b).

Definition with_updatedAt (b : Booking) (t : N) : Booking :=
  mkBooking (bookingId b) (tokenId b) (buyer b) (kol b) (pricePerSlot b)
    (totalSlots b) (totalAmount b) (fromTime b) (toTime b) (reason b)
    (status b) (createdAt b) t (sessionEndTime b) (disputeReported b)
    (rating b) (ratingSubmitted b).

Definition with_sessionEndTime (b : Booking) (t : N) : Booking :=
  mkBooking (bookingId b) (tokenId b) (buyer b) (kol b) (pricePerSlot b)
    (totalSlots b) (totalAmount b) (fromTime b) (toTime b) (reason b)
    (status b) (createdAt b) (updatedAt b) t (disputeReported b)
    (rating b) (ratingSubmitted b).

Definition with_disputeReported (b : Booking) (d : bool) : Booking :=
  mkBooking (bookingId b) (tokenId b) (buyer b) (kol b) (pricePerSlot b)
    (totalSlots b) (totalAmount b) (fromTime b) (toTime b) (reason b)
    (status b) (createdAt b) (updatedAt b) (sessionEndTime b) d
    (rating b) (ratingSubmitted b).

Definition with_rating (b : Booking) (r : N) : Booking :=
  mkBooking (bookingId b) (tokenId b) (buyer b) (kol b) (pricePerSlot b)
    (totalSlots b) (totalAmount b) (fromTime b) (toTime b) (reason b)
    (status b) (createdAt b) (updatedAt b) (sessionEndTime b)
    (disputeReported b) r true.

(** Contract storage, the ERC721 ledger of the tickets and the balance of the
    contract account. *)
Record State : Type := mkState {
  _bookingIds : N;
  _tokenIds : N;
  bookings : gmap N Booking;
  buyerBookings : gmap N (list N);
  kolBookings : gmap N (list N);
  _owners : gmap N address;
  _balances : gmap N N;
  _tokenURIs : gmap N string;
  platformFeePercent : N;
  feeRecipient : address;
  reputationTracker : address;
  owner : address;
  balance : N
}.

Definition EXPIRY_PERIOD : N := 5 * 86400.
Definition DISPUTE_PERIOD : N := 1 * 86400.
Definition MIN_SLOT_DURATION : N := 30 * 60.

(** The three calls of [IReputationTracker]. *)
Inductive TrackerCall : Type :=
  | TrackBookingCreated (buyer : address) (bookingId : N)
  | TrackBookingAccepted (kol : address) (bookingId : N)
  | TrackBookingCompleted (kol buyer : address) (bookingId rating : N).

(** What a call sees of the chain: [msg.sender], [block.timestamp], and the
    answers of the accounts and contracts it calls out to. *)
Record Env : Type := mkEnv {
  sender : address;
  timestamp : N;
  accepts : address -> bool;        (* the account takes a plain transfer *)
  receivesToken : address -> bool;  (* the account passes onERC721Received *)
  trackerOk : TrackerCall -> bool   (* the reputation hook does not revert *)
}.

(** A value transfer out of the contract: payee and amount. *)
Definition Transfer : Type := address * N.

Definition getBooking (s : State) (_bookingId : N) : Booking :=
  default zeroBooking (bookings s !! _bookingId).

Definition setBooking (s : State) (_bookingId : N) (b : Booking) : State :=
  mkState (_bookingIds s) (_tokenIds s) (<[_bookingId := b]> (bookings s))
    (buyerBookings s) (kolBookings s) (_owners s) (_balances s)
    (_tokenURIs s) (platformFeePercent s) (feeRecipient s)
    (reputationTracker s) (owner s) (balance s).

Definition setBalance (s : State) (v : N) : State :=
  mkState (_bookingIds s) (_tokenIds s) (bookings s) (buyerBookings s)
    (kolBookings s) (_owners s) (_balances s) (_tokenURIs s)
    (platformFeePercent s) (feeRecipient s) (reputationTracker s) (owner s) v.

(** [payable(to).transfer(amount)]: reverts when the contract cannot pay or
    the payee refuses. *)
Definition transfer (e : Env) (s : State) (to : address) (amount : N)
  : result State :=
  require (amount <=? balance s) "insufficient balance";;
  require (accepts e to) "transfer rejected";;
  mret (setBalance s (balance s - amount)).

(** The call into [IReputationTracker], made only when a tracker is set. *)
Definition notifyTracker (e : Env) (s : State) (c : TrackerCall)
  : result unit :=
  if reputationTracker s =? 0 then Ok tt
  else require (trackerOk e c) "reputation tracker reverted".

Definition onlyOwner (e : Env) (s : State) : result unit :=
  require (owner s =? sender e) "Ownable: caller is not the owner".

Definition constructor (e : Env) (_feeRecipient : address) : State :=
  mkState 0 0 ∅ ∅ ∅ ∅ ∅ ∅ 250 _feeRecipient 0 (sender e) 0.

Definition setReputationTracker (e : Env) (s : State)
  (_reputationTracker : address) : result (State * list Transfer) :=
  onlyOwner e s;;
  mret (mkState (_bookingIds s) (_tokenIds s) (bookings s) (buyerBookings s)
          (kolBookings s) (_owners s) (_balances s) (_tokenURIs s)
          (platformFeePercent s) (feeRecipient s) _reputationTracker
          (owner s) (balance s), []).

(** ERC721 [_safeMint] followed by ERC721URIStorage [_setTokenURI]. *)
Definition _safeMint (e : Env) (s : State) (to : address) (tokenId : N)
  : result State :=
  require (negb (to =? 0)) "ERC721: mint to the zero address";;
  require (bool_decide (_owners s !! tokenId = None))
    "ERC721: token already minted";;
  require (receivesToken e to)
    "ERC721: transfer to non ERC721Receiver implementer";;
  mret (mkState (_bookingIds s) (_tokenIds s) (bookings s) (buyerBookings s)
          (kolBookings s) (<[tokenId := to]> (_owners s))
          (<[to := increment (default 0 (_balances s !! to))]> (_balances s))
          (_tokenURIs s) (platformFeePercent s) (feeRecipient s)
          (reputationTracker s) (owner s) (balance s)).

Definition _setTokenURI (s : State) (tokenId : N) (uri : string)
  : result State :=
  require (bool_decide (is_Some (_owners s !! tokenId)))
    "ERC721URIStorage: URI set of nonexistent token";;
  mret (mkState (_bookingIds s) (_tokenIds s) (bookings s) (buyerBookings s)
          (kolBookings s) (_owners s) (_balances s)
          (<[tokenId := uri]> (_tokenURIs s)) (platformFeePercent s)
          (feeRecipient s) (reputationTracker s) (owner s) (balance s)).

(** The storage writes of [createBooking]: both counters, the booking record
    and the two per-party lists. *)
Definition storeBooking (s : State) (b : Booking) : State :=
  mkState (bookingId b) (tokenId b) (<[bookingId b := b]> (bookings s))
    (<[buyer b := default [] (buyerBookings s !! buyer b) ++ [bookingId b]]>
       (buyerBookings s))
    (<[kol b := default [] (kolBookings s !! kol b) ++ [bookingId b]]>
       (kolBookings s))
    (_owners s) (_balances s) (_tokenURIs s) (platformFeePercent s)
    (feeRecipient s) (reputationTracker s) (owner s) (balance s).

(** [createBooking] is payable: [value] is [msg.value], credited to the
    contract before the body runs and returned with everything else when the
    body reverts. *)
Definition createBooking (e : Env) (s : State) (value : N)
  (_kol : address) (_pricePerSlot _totalSlots _fromTime _toTime : N)
  (_reason _tokenURI : string) : result (State * list Transfer) :=
  let s := setBalance s (balance s + value) in
  require (negb (_kol =? 0)) "Invalid KOL address";;
  require (negb (_kol =? sender e)) "Cannot book yourself";;
  require (0 <? _totalSlots) "Invalid slot count";;
  require (timestamp e <? _fromTime) "Invalid start time";;
  require (_fromTime <? _toTime) "Invalid time range";;
  duration ← checked_sub _toTime _fromTime;
  minDuration ← checked_mul MIN_SLOT_DURATION _totalSlots;
  require (minDuration <=? duration) "Duration too short";;
  totalAmount ← checked_mul _pricePerSlot _totalSlots;
  require (value =? totalAmount) "Incorrect payment amount";;
  let newBookingId := increment (_bookingIds s) in
  let newTokenId := increment (_tokenIds s) in
  s ← _safeMint e s (sender e) newTokenId;
  s ← _setTokenURI s newTokenId _tokenURI;
  let s := storeBooking s
    (mkBooking newBookingId newTokenId (sender e) _kol _pricePerSlot
       _totalSlots totalAmount _fromTime _toTime _reason Pending
       (timestamp e) (timestamp e) 0 false 0 false) in
  notifyTracker e s (TrackBookingCreated (sender e) newBookingId);;
  mret (s, []).

Definition acceptBooking (e : Env) (s : State) (_bookingId : N)
  : result (State * list Transfer) :=
  let booking := getBooking s _bookingId in
  require (kol booking =? sender e) "Only KOL can accept";;
  require (bool_decide (status booking = Pending)) "Invalid status";;
  deadline ← checked_add (createdAt booking) EXPIRY_PERIOD;
  require (timestamp e <? deadline) "Booking expired";;
  let booking := with_updatedAt (with_status booking Accepted) (timestamp e) in
  let s := setBooking s _bookingId booking in
  notifyTracker e s (TrackBookingAccepted (sender e) _bookingId);;
  mret (s, []).

(** [_refundBuyer]: the whole escrow of the booking goes back to the buyer. *)
Definition _refundBuyer (e : Env) (s : State) (booking : Booking)
  : result (State * list Transfer) :=
  s ← transfer e s (buyer booking) (totalAmount booking);
  mret (s, [(buyer booking, totalAmount booking)]).

Definition rejectBooking (e : Env) (s : State) (_bookingId : N)
  : result (State * list Transfer) :=
  let booking := getBooking s _bookingId in
  require (kol booking =? sender e) "Only KOL can reject";;
  require (bool_decide (status booking = Pending)) "Invalid status";;
  let booking := with_updatedAt (with_status booking Rejected) (timestamp e) in
  let s := setBooking s _bookingId booking in
  _refundBuyer e s booking.

Definition cancelBooking (e : Env) (s : State) (_bookingId : N)
  : result (State * list Transfer) :=
  let booking := getBooking s _bookingId in
  require (buyer booking =? sender e) "Only buyer can cancel";;
  require (bool_decide (status booking = Pending)) "Invalid status";;
  let booking := with_updatedAt (with_status booking Cancelled) (timestamp e) in
  let s := setBooking s _bookingId booking in
  _refundBuyer e s booking.

Definition completeSession (e : Env) (s : State) (_bookingId : N)
  : result (State * list Transfer) :=
  let booking := getBooking s _bookingId in
  require (kol booking =? sender e) "Only KOL can complete";;
  require (bool_decide (status booking = Accepted)) "Invalid status";;
  require (toTime booking <=? timestamp e) "Session not ended yet";;
  let booking :=
    with_updatedAt (with_sessionEndTime booking (timestamp e)) (timestamp e) in
  mret (setBooking s _bookingId booking, []).

Definition reportDispute (e : Env) (s : State) (_bookingId : N)
  (_reason : string) : result (State * list Transfer) :=
  let booking := getBooking s _bookingId in
  require (buyer booking =? sender e) "Only buyer can report";;
  require (bool_decide (status booking = Accepted)) "Invalid status";;
  require (0 <? sessionEndTime booking) "Session not completed";;
  deadline ← checked_add (sessionEndTime booking) DISPUTE_PERIOD;
  require (timestamp e <=? deadline) "Dispute period expired";;
  require (negb (disputeReported booking)) "Already reported";;
  let booking :=
    with_updatedAt
      (with_status (with_disputeReported booking true) Disputed)
      (timestamp e) in
  mret (setBooking s _bookingId booking, []).

Definition rateSession (e : Env) (s : State) (_bookingId _rating : N)
  : result (State * list Transfer) :=
  let booking := getBooking s _bookingId in
  require (buyer booking =? sender e) "Only buyer can rate";;
  require (bool_decide (status booking = Accepted)
           || bool_decide (status booking = Completed)) "Invalid status";;
  require (0 <? sessionEndTime booking) "Session not completed";;
  require ((0 <=? _rating) && (_rating <=? 50))
    "Rating must be 0-50 (0-5 stars * 10)";;
  require (negb (ratingSubmitted booking)) "Rating already submitted";;
  let booking := with_updatedAt (with_rating booking _rating) (timestamp e) in
  mret (setBooking s _bookingId booking, []).

(** The guard shared by [releasePayment] and [canAutoComplete]; [&&] is
    lazy, so the checked addition runs only when the first two conjuncts
    hold. *)
Definition canRelease (e : Env) (booking : Booking) : result bool :=
  if bool_decide (status booking = Accepted) && (0 <? sessionEndTime booking)
  then
    deadline ← checked_add (sessionEndTime booking) DISPUTE_PERIOD;
    mret ((deadline <? timestamp e) && negb (disputeReported booking))
  else mret false.

(** Lines 321-322: the platform fee and what is left for the KOL. *)
Definition splitPayment (totalAmount platformFeePercent : N)
  : result (N * N) :=
  scaled ← checked_mul totalAmount platformFeePercent;
  let platformFee := scaled / 10000 in
  kolPayment ← checked_sub totalAmount platformFee;
  mret (platformFee, kolPayment).

Definition releasePayment (e : Env) (s : State) (_bookingId : N)
  : result (State * list Transfer) :=
  let booking := getBooking s _bookingId in
  ok ← canRelease e booking;
  require ok "Cannot release payment";;
  let booking := with_updatedAt (with_status booking Completed) (timestamp e) in
  let s := setBooking s _bookingId booking in
  '(platformFee, kolPayment) ← splitPayment (totalAmount booking)
                                  (platformFeePercent s);
  '(s, paidFee) ←
    (if 0 <? platformFee then
       s ← transfer e s (feeRecipient s) platformFee;
       mret (s, [(feeRecipient s, platformFee)])
     else mret (s, []));
  s ← transfer e s (kol booking) kolPayment;
  let rating := if ratingSubmitted booking then rating booking else 25 in
  notifyTracker e s
    (TrackBookingCompleted (kol booking) (buyer booking) _bookingId rating);;
  mret (s, paidFee ++ [(kol booking, kolPayment)]).

Definition handleExpiredBooking (e : Env) (s : State) (_bookingId : N)
  : result (State * list Transfer) :=
  let booking := getBooking s _bookingId in
  require (bool_decide (status booking = Pending)) "Invalid status";;
  deadline ← checked_add (createdAt booking) EXPIRY_PERIOD;
  require (deadline <=? timestamp e) "Not expired yet";;
  let booking := with_updatedAt (with_status booking Expired) (timestamp e) in
  let s := setBooking s _bookingId booking in
  _refundBuyer e s booking.

Definition canAutoComplete (e : Env) (s : State) (_bookingId : N)
  : result bool :=
  canRelease e (getBooking s _bookingId).

Definition setPlatformFee (e : Env) (s : State) (_feePercent : N)
  : result (State * list Transfer) :=
  onlyOwner e s;;
  require (_feePercent <=? 1000) "Fee too high";;
  mret (mkState (_bookingIds s) (_tokenIds s) (bookings s) (buyerBookings s)
          (kolBookings s) (_owners s) (_balances s) (_tokenURIs s)
          _feePercent (feeRecipient s) (reputationTracker s) (owner s)
          (balance s), []).

Definition setFeeRecipient (e : Env) (s : State) (_feeRecipient : address)
  : result (State * list Transfer) :=
  onlyOwner e s;;
  require (negb (_feeRecipient =? 0)) "Invalid address";;
  mret (mkState (_bookingIds s) (_tokenIds s) (bookings s) (buyerBookings s)
          (kolBookings s) (_owners s) (_balances s) (_tokenURIs s)
          (platformFeePercent s) _feeRecipient (reputationTracker s) (owner s)
          (balance s), []).

Definition emergencyWithdraw (e : Env) (s : State)
  : result (State * list Transfer) :=
  onlyOwner e s;;
  let amount := balance s in
  s' ← transfer e s (owner s) amount;
  mret (s', [(owner s, amount)]).

(** A reverted call changes nothing and pays nothing. *)
Definition commit (s : State) (r : result (State * list Transfer))
  : State * list Transfer :=
  match r with
  | Ok (s', paid) => (s', paid)
  | Revert _ => (s, [])
  end.

(** ** Histories of escrow operations

    The eight operations that act on an existing booking, and the run of a
    history of such calls, each in its own environment.  Every transfer a
    call makes is logged under the booking the call was made for. *)

Inductive Call : Type :=
  | AcceptBooking (_bookingId : N)
  | RejectBooking (_bookingId : N)
  | CancelBooking (_bookingId : N)
  | CompleteSession (_bookingId : N)
  | ReportDispute (_bookingId : N) (_reason : string)
  | RateSession (_bookingId : N) (_rating : N)
  | ReleasePayment (_bookingId : N)
  | HandleExpiredBooking (_bookingId : N).

Definition target (c : Call) : N :=
  match c with
  | AcceptBooking i | RejectBooking i | CancelBooking i | CompleteSession i
  | ReportDispute i _ | RateSession i _ | ReleasePayment i
  | HandleExpiredBooking i => i
  end.

Definition dispatch (e : Env) (s : State) (c : Call)
  : result (State * list Transfer) :=
  match c with
  | AcceptBooking i => acceptBooking e s i
  | RejectBooking i => rejectBooking e s i
  | CancelBooking i => cancelBooking e s i
  | CompleteSession i => completeSession e s i
  | ReportDispute i r => reportDispute e s i r
  | RateSession i r => rateSession e s i r
  | ReleasePayment i => releasePayment e s i
  | HandleExpiredBooking i => handleExpiredBooking e s i
  end.

(** The operations that send funds. *)
Definition movesFunds (c : Call) : bool :=
  match c with
  | RejectBooking _ | CancelBooking _ | ReleasePayment _
  | HandleExpiredBooking _ => true
  | _ => false
  end.

Definition step (s : State) (ec : Env * Call) : State * list (N * Transfer) :=
  let '(s', paid) := commit s (dispatch ec.1 s ec.2) in
  (s', map (pair (target ec.2)) paid).

Fixpoint run (s : State) (calls : list (Env * Call))
  : State * list (N * Transfer) :=
  match calls with
  | [] => (s, [])
  | ec :: rest =>
      let '(s1, paid1) := step s ec in
      let '(s2, paid2) := run s1 rest in
      (s2, paid1 ++ paid2)
  end.

(** The transfers of a log made on behalf of booking [id], and their sum. *)
Definition paidFor (id : N) (log : list (N * Transfer)) : list Transfer :=
  map snd (filter (fun p => p.1 = id) log).

Definition total (paid : list Transfer) : N :=
  foldr (fun p acc => p.2 + acc) 0 paid.

Definition terminal (st : BookingStatus) : bool :=
  match st with
  | Rejected | Cancelled | Expired | Completed => true
  | Pending | Accepted | Disputed => false
  end.

(** What has left the escrow of a booking, by the status it is in. *)
Definition settled (s : State) (b : Booking) (paid : list Transfer) : Prop :=
  match status b with
  | Pending | Accepted | Disputed => paid = []
  | Rejected | Cancelled | Expired => paid = [(buyer b, totalAmount b)]
  | Completed =>
      exists platformFee kolPayment,
        splitPayment (totalAmount b) (platformFeePercent s)
          = Ok (platformFee, kolPayment)
        /\ paid = (if 0 <? platformFee
                   then [(feeRecipient s, platformFee)] else [])
                  ++ [(kol b, kolPayment)]
  end.

(** What one successful call does to the booking it is made for, and what
    it leaves alone. *)
Definition effect (s : State) (c : Call) (s' : State) (paid : list Transfer)
  : Prop :=
  let b := getBooking s (target c) in
  let b' := getBooking s' (target c) in
  match c with
  | AcceptBooking _ =>
      status b = Pending /\ status b' = Accepted /\ paid = []
  | RejectBooking _ =>
      status b = Pending /\ status b' = Rejected
      /\ paid = [(buyer b, totalAmount b)]
  | CancelBooking _ =>
      status b = Pending /\ status b' = Cancelled
      /\ paid = [(buyer b, totalAmount b)]
  | HandleExpiredBooking _ =>
      status b = Pending /\ status b' = Expired
      /\ paid = [(buyer b, totalAmount b)]
  | CompleteSession _ =>
      status b = Accepted /\ status b' = Accepted /\ paid = []
  | ReportDispute _ _ =>
      status b = Accepted /\ status b' = Disputed /\ paid = []
  | RateSession _ _ =>
      (status b = Accepted \/ status b = Completed)
      /\ status b' = status b /\ paid = []
  | ReleasePayment _ =>
      status b = Accepted /\ status b' = Completed
      /\ exists platformFee kolPayment,
           splitPayment (totalAmount b) (platformFeePercent s)
             = Ok (platformFee, kolPayment)
           /\ paid = (if 0 <? platformFee
                      then [(feeRecipient s, platformFee)] else [])
                     ++ [(kol b, kolPayment)]
  end.

Definition frame (s : State) (c : Call) (s' : State) : Prop :=
  platformFeePercent s' = platformFeePercent s
  /\ feeRecipient s' = feeRecipient s
  /\ (forall j, j <> target c -> getBooking s' j = getBooking s j)
  /\ buyer (getBooking s' (target c)) = buyer (getBooking s (target c))
  /\ kol (getBooking s' (target c)) = kol (getBooking s (target c))
  /\ totalAmount (getBooking s' (target c))
     = totalAmount (getBooking s (target c)).

Definition createBookingErrors : list string :=
  [ "Invalid KOL address"; "Cannot book yourself"; "Invalid slot count";
    "Invalid start time"; "Invalid time range"; "Duration too short";
    PANIC_ARITH; "Incorrect payment amount" ]%string.

(** The escrow the contract still owes: the amounts of the bookings that have
    not reached a terminal status.  The contract is solvent while its
    balance covers them. *)
Definition owed (b : Booking) : N :=
  if terminal (status b) then 0 else totalAmount b.

Definition owedSum (m : gmap N Booking) : N :=
  map_fold (fun _ b acc => owed b + acc) 0 m.

Definition escrowed (s : State) : N := owedSum (bookings s).

Definition solvent (s : State) : Prop := escrowed s <= balance s.

(** ** A deployment used in the examples

    Account 1 deploys the contract with fee recipient 2; buyer 10 books
    KOL 20 at time 1000 for two slots, one hour ahead. *)

Definition by_ (who : address) (now : N) : Env :=
  mkEnv who now (fun _ => true) (fun _ => true) (fun _ => true).

Definition deployed : State := constructor (by_ 1 0) 2.

Definition book (s : State) (now price : N) : State :=
  (commit s (createBooking (by_ 10 now) s (price * 2) 20 price 2
               (now + 3600) (now + 7200) "consultation" "ipfs://ticket")).1.

Definition call (s : State) (who : address) (now : N) (c : Call) : State :=
  (commit s (dispatch (by_ who now) s c)).1.

(** Booking 1 for 2 x 100, still pending. *)
Definition pending200 : State := book deployed 1000 100.

(** Booking 1 for 2 x 500, accepted and marked complete at time 9000. *)
Definition accepted1000 : State :=
  call (call (book deployed 1000 500) 20 2000 (AcceptBooking 1))
    20 9000 (CompleteSession 1).

(** ** Histories of all calls

    The state-changing external functions that TimeBooking.sol declares
    (those it inherits from ERC721 and Ownable are not part of the model),
    and the replay of a history of such calls, each in its own environment;
    a reverted call changes nothing. *)

Inductive Tx : Type :=
  | CreateBooking (value : N) (_kol : address)
      (_pricePerSlot _totalSlots _fromTime _toTime : N)
      (_reason _tokenURI : string)
  | OnBooking (c : Call)
  | SetReputationTracker (_reputationTracker : address)
  | SetPlatformFee (_feePercent : N)
  | SetFeeRecipient (_feeRecipient : address)
  | EmergencyWithdraw.

Definition perform (e : Env) (s : State) (t : Tx)
  : result (State * list Transfer) :=
  match t with
  | CreateBooking v k p n f t r u => createBooking e s v k p n f t r u
  | OnBooking c => dispatch e s c
  | SetReputationTracker a => setReputationTracker e s a
  | SetPlatformFee p => setPlatformFee e s p
  | SetFeeRecipient a => setFeeRecipient e s a
  | EmergencyWithdraw => emergencyWithdraw e s
  end.

(** The owner's emergency exit. *)
Definition withdraws (t : Tx) : bool :=
  match t with EmergencyWithdraw => true | _ => false end.

Fixpoint replay (s : State) (txs : list (Env * Tx)) : State :=
  match txs with
  | [] => s
  | et :: rest => replay (commit s (perform et.1 s et.2)).1 rest
  end.

(** ** The views *)

Definition getTotalBookings (s : State) : N := _bookingIds s.

Definition getBuyerBookings (s : State) (_buyer : address) : list N :=
  default [] (buyerBookings s !! _buyer).

Definition getKOLBookings (s : State) (_kol : address) : list N :=
  default [] (kolBookings s !! _kol).

(** ERC721 [_ownerOf] on the ledger of the tickets. *)
Definition ownerOfTicket (s : State) (tokenId : N) : option address :=
  _owners s !! tokenId.

(** The record a successful call leaves under the booking it was made for. *)
Definition written (e : Env) (c : Call) (b : Booking) : Booking :=
  match c with
  | AcceptBooking _ => with_updatedAt (with_status b Accepted) (timestamp e)
  | RejectBooking _ => with_updatedAt (with_status b Rejected) (timestamp e)
  | CancelBooking _ => with_updatedAt (with_status b Cancelled) (timestamp e)
  | CompleteSession _ =>
      with_updatedAt (with_sessionEndTime b (timestamp e)) (timestamp e)
  | ReportDispute _ _ =>
      with_updatedAt (with_status (with_disputeReported b true) Disputed)
        (timestamp e)
  | RateSession _ r => with_updatedAt (with_rating b r) (timestamp e)
  | ReleasePayment _ => with_updatedAt (with_status b Completed) (timestamp e)
  | HandleExpiredBooking _ =>
      with_updatedAt (with_status b Expired) (timestamp e)
  end.

(** The statuses no function of the contract leaves again. *)
Definition frozen (st : BookingStatus) : bool :=
  match st with
  | Rejected | Cancelled | Disputed | Expired => true
  | Pending | Accepted | Completed => false
  end.

(** The statuses of a booking the KOL never accepted. *)
Definition neverAccepted (st : BookingStatus) : bool :=
  match st with
  | Pending | Rejected | Cancelled | Expired => true
  | Accepted | Completed | Disputed => false
  end.

(** What the fields of a booking record say about each other. *)
Definition wellFormed (b : Booking) : Prop :=
  totalAmount b = pricePerSlot b * totalSlots b
  /\ rating b <= 50
  /\ (ratingSubmitted b = false -> rating b = 0)
  /\ disputeReported b = bool_decide (status b = Disputed)
  /\ (neverAccepted (status b) = true ->
      sessionEndTime b = 0 /\ ratingSubmitted b = false).


(** The per-party lists against the booking records: the ids in use are
    1 to [_bookingIds]; a booking is listed, once, under its buyer and under
    its KOL and nowhere else; it is stored under its id, which is also the id
    of its ticket. *)
Definition indexed (s : State) : Prop :=
  _tokenIds s = _bookingIds s
  /\ (forall u id,
        id ∈ getBuyerBookings s u
        <-> 1 <= id <= _bookingIds s /\ buyer (getBooking s id) = u)
  /\ (forall u id,
        id ∈ getKOLBookings s u
        <-> 1 <= id <= _bookingIds s /\ kol (getBooking s id) = u)
  /\ (forall u, NoDup (getBuyerBookings s u))
  /\ (forall u, NoDup (getKOLBookings s u))
  /\ (forall id,
        1 <= id <= _bookingIds s ->
        bookingId (getBooking s id) = id /\ tokenId (getBooking s id) = id
        /\ is_Some (ownerOfTicket s id)).


(** ** Further states of the example deployment *)

(** Booking 1 for 2 x 100, cancelled by the buyer. *)
Definition cancelled200 : State := call pending200 10 1500 (CancelBooking 1).

(** Booking 1 for 2 x 500, disputed by the buyer within the window. *)
Definition disputed1000 : State :=
  call accepted1000 10 9500 (ReportDispute 1 "no show").

(** Booking 1 for 2 x 500, rated 4.0 by the buyer. *)
Definition rated1000 : State := call accepted1000 10 9100 (RateSession 1 40).

(** Booking 1 for 2 x 100 pending, with a reputation tracker set at
    address 99. *)
Definition trackedPending : State :=
  (commit pending200 (setReputationTracker (by_ 1 1500) pending200 99)).1.

(** A caller whose reputation hook reverts on every call. *)
Definition hookReverts (who : address) (now : N) : Env :=
  mkEnv who now (fun _ => true) (fun _ => true) (fun _ => false).

(** The history behind [accepted1000], and one of fee changes. *)
Definition history : list (Env * Tx) :=
  [ (by_ 10 1000,
     CreateBooking 1000 20 500 2 4600 8200 "consultation" "ipfs://ticket");
    (by_ 20 2000, OnBooking (AcceptBooking 1));
    (by_ 20 9000, OnBooking (CompleteSession 1)) ].

Definition feeHistory : list (Env * Tx) :=
  [ (by_ 1 10, SetPlatformFee 1000); (by_ 1 11, SetPlatformFee 1001) ].

End TimeBooking.

(** * The reputation token and its tracker *)

Module Reputation.

Inductive ReputationLevel : Type := Bronze | Silver | Gold | Diamond.

Record ReputationData : Type := mkReputationData {
  totalScore : N;
  onchainScore : N;
  socialScore : N;
  tokenHoldingScore : N;
  level : ReputationLevel;
  transactionCount : N;
  volumeTraded : N;
  bookingsCompleted : N;
  averageRating : N;
  lastUpdated : N;
  isKOL : bool
}.

Definition zeroData : ReputationData :=
  mkReputationData 0 0 0 0 Bronze 0 0 0 0 0 false.

Record LevelThresholds : Type := mkLevelThresholds {
  bronze : N;
  silver : N;
  gold : N;
  diamond : N
}.

Definition defaultThresholds : LevelThresholds :=
  mkLevelThresholds 0 1000 3000 5000.

(** Storage of ReputationNFT, with the ERC721 ledger [_owners].  The token
    URI is regenerated from [reputationData] on every write and is not kept;
    of [_generateTokenURI] the model keeps the [ownerOf] lookup, which
    reverts for a token that was never minted. *)
Record NFT : Type := mkNFT {
  _tokenIdCounter : N;
  userToTokenId : gmap N N;
  reputationData : gmap N ReputationData;
  authorizedUpdaters : gmap N bool;
  levelThresholds : LevelThresholds;
  _owners : gmap N address;
  nftOwner : address
}.

Record Env : Type := mkEnv {
  sender : address;
  timestamp : N;
  receivesToken : address -> bool   (* the account passes onERC721Received *)
}.

Definition tokenOf (s : NFT) (user : address) : N :=
  default 0 (userToTokenId s !! user).

Definition dataOf (s : NFT) (tokenId : N) : ReputationData :=
  default zeroData (reputationData s !! tokenId).

Definition isAuthorized (e : Env) (s : NFT) : bool :=
  default false (authorizedUpdaters s !! sender e) || (sender e =? nftOwner s).

Definition setData (s : NFT) (tokenId : N) (d : ReputationData) : NFT :=
  mkNFT (_tokenIdCounter s) (userToTokenId s)
    (<[tokenId := d]> (reputationData s)) (authorizedUpdaters s)
    (levelThresholds s) (_owners s) (nftOwner s).

Definition nftConstructor (e : Env) : NFT :=
  mkNFT 0 ∅ ∅ ∅ defaultThresholds ∅ (sender e).

Definition ownerOf (s : NFT) (tokenId : N) : result address :=
  match _owners s !! tokenId with
  | Some a => Ok a
  | None => Revert "ERC721: invalid token ID"
  end.

(** [_setTokenURI(tokenId, _generateTokenURI(tokenId))] *)
Definition refreshTokenURI (s : NFT) (tokenId : N) : result unit :=
  ownerOf s tokenId;; mret tt.

Definition mintReputationNFT (e : Env) (s : NFT) (to : address)
  : result (NFT * N) :=
  require (tokenOf s to =? 0) "User already has reputation NFT";;
  let tokenId := increment (_tokenIdCounter s) in
  let fresh := mkReputationData 0 0 0 0 Bronze 0 0 0 0 (timestamp e) false in
  require (negb (to =? 0)) "ERC721: mint to the zero address";;
  require (bool_decide (_owners s !! tokenId = None))
    "ERC721: token already minted";;
  require (receivesToken e to)
    "ERC721: transfer to non ERC721Receiver implementer";;
  let s := mkNFT tokenId (<[to := tokenId]> (userToTokenId s))
             (<[tokenId := fresh]> (reputationData s)) (authorizedUpdaters s)
             (levelThresholds s) (<[tokenId := to]> (_owners s))
             (nftOwner s) in
  refreshTokenURI s tokenId;;
  mret (s, tokenId).

Definition _calculateLevel (s : NFT) (score : N) : ReputationLevel :=
  if diamond (levelThresholds s) <=? score then Diamond
  else if gold (levelThresholds s) <=? score then Gold
  else if silver (levelThresholds s) <=? score then Silver
  else Bronze.

(** [(onchainScore * 50 + socialScore * 40 + tokenHoldingScore * 10) / 100]
    in checked arithmetic. *)
Definition weightedScore (onchainScore socialScore tokenHoldingScore : N)
  : result N :=
  a ← checked_mul onchainScore 50;
  b ← checked_mul socialScore 40;
  ab ← checked_add a b;
  c ← checked_mul tokenHoldingScore 10;
  abc ← checked_add ab c;
  mret (abc / 100).

Definition updateReputation (e : Env) (s : NFT) (user : address)
  (onchainScore socialScore tokenHoldingScore transactionCount volumeTraded
   bookingsCompleted averageRating : N) : result NFT :=
  require (isAuthorized e s) "Not authorized to update";;
  let tokenId := tokenOf s user in
  require (negb (tokenId =? 0)) "User doesn't have reputation NFT";;
  let data := dataOf s tokenId in
  total ← weightedScore onchainScore socialScore tokenHoldingScore;
  let newLevel := _calculateLevel s total in
  let s := setData s tokenId
    (mkReputationData total onchainScore socialScore tokenHoldingScore
       newLevel transactionCount volumeTraded bookingsCompleted averageRating
       (timestamp e) (isKOL data)) in
  refreshTokenURI s tokenId;;
  mret s.

Definition setKOLStatus (e : Env) (s : NFT) (user : address) (flag : bool)
  : result NFT :=
  require (isAuthorized e s) "Not authorized";;
  let tokenId := tokenOf s user in
  require (negb (tokenId =? 0)) "User doesn't have reputation NFT";;
  let d := dataOf s tokenId in
  let s := setData s tokenId
    (mkReputationData (totalScore d) (onchainScore d) (socialScore d)
       (tokenHoldingScore d) (level d) (transactionCount d) (volumeTraded d)
       (bookingsCompleted d) (averageRating d) (lastUpdated d) flag) in
  refreshTokenURI s tokenId;;
  mret s.

Definition nftOnlyOwner (e : Env) (s : NFT) : result unit :=
  require (nftOwner s =? sender e) "Ownable: caller is not the owner".

Definition setAuthorizedUpdater (e : Env) (s : NFT) (updater : address)
  (authorized : bool) : result NFT :=
  nftOnlyOwner e s;;
  mret (mkNFT (_tokenIdCounter s) (userToTokenId s) (reputationData s)
          (<[updater := authorized]> (authorizedUpdaters s))
          (levelThresholds s) (_owners s) (nftOwner s)).

Definition updateLevelThresholds (e : Env) (s : NFT)
  (bronze silver gold diamond : N) : result NFT :=
  nftOnlyOwner e s;;
  mret (mkNFT (_tokenIdCounter s) (userToTokenId s) (reputationData s)
          (authorizedUpdaters s)
          (mkLevelThresholds bronze silver gold diamond) (_owners s)
          (nftOwner s)).

Definition getUserReputation (s : NFT) (user : address)
  : result ReputationData :=
  let tokenId := tokenOf s user in
  require (negb (tokenId =? 0)) "User doesn't have reputation NFT";;
  mret (dataOf s tokenId).

(** ** ReputationTracker *)

Record UserActivity : Type := mkUserActivity {
  totalTransactions : N;
  totalVolumeTraded : N;
  totalBookingsAsKOL : N;
  totalBookingsAsBuyer : N;
  totalBookingsCompleted : N;
  totalRatingSum : N;
  totalRatingCount : N;
  lastActivityTime : N;
  hasInteractedWith : gset N
}.

Definition zeroActivity : UserActivity := mkUserActivity 0 0 0 0 0 0 0 0 ∅.

Record PointConfig : Type := mkPointConfig {
  transactionBasePoints : N;
  volumeMultiplier : N;
  bookingCreatedPoints : N;
  bookingAcceptedPoints : N;
  bookingCompletedPoints : N;
  highRatingBonus : N;
  diversityBonus : N;
  activityStreakBonus : N
}.

Definition defaultPointConfig : PointConfig :=
  mkPointConfig 10 1 50 75 100 25 5 10.

Record SocialMetrics : Type := mkSocialMetrics {
  xFollowers : N;
  xEngagement : N;
  discordActivity : N;
  githubContributions : N;
  xConnected : bool;
  discordConnected : bool;
  githubConnected : bool
}.

Definition zeroSocial : SocialMetrics :=
  mkSocialMetrics 0 0 0 0 false false false.

(** Storage of ReputationTracker, its own address [self] (the [msg.sender]
    the token contract sees) and the state of the token contract it calls. *)
Record State : Type := mkState {
  self : address;
  reputationNFT : NFT;
  timeBooking : address;
  userActivities : gmap N UserActivity;
  socialMetrics : gmap N SocialMetrics;
  userTokenHoldings : gmap N N;
  isRegisteredKOL : gmap N bool;
  pointConfig : PointConfig;
  processedTransactions : gset N;
  owner : address
}.

Definition ONE_ETHER : N := 10 ^ 18.

Definition activityOf (s : State) (user : address) : UserActivity :=
  default zeroActivity (userActivities s !! user).

Definition socialOf (s : State) (user : address) : SocialMetrics :=
  default zeroSocial (socialMetrics s !! user).

Definition holdingsOf (s : State) (user : address) : N :=
  default 0 (userTokenHoldings s !! user).

Definition setActivity (s : State) (user : address) (a : UserActivity)
  : State :=
  mkState (self s) (reputationNFT s) (timeBooking s)
    (<[user := a]> (userActivities s)) (socialMetrics s)
    (userTokenHoldings s) (isRegisteredKOL s) (pointConfig s)
    (processedTransactions s) (owner s).

Definition setNFT (s : State) (n : NFT) : State :=
  mkState (self s) n (timeBooking s) (userActivities s) (socialMetrics s)
    (userTokenHoldings s) (isRegisteredKOL s) (pointConfig s)
    (processedTransactions s) (owner s).

(** The environment of a call the tracker makes into the token contract. *)
Definition asTracker (e : Env) (s : State) : Env :=
  mkEnv (self s) (timestamp e) (receivesToken e).

Definition constructor (e : Env) (_self : address) (_reputationNFT : NFT)
  (_timeBooking : address) : State :=
  mkState _self _reputationNFT _timeBooking ∅ ∅ ∅ ∅ defaultPointConfig ∅
    (sender e).

Definition calculateOnchainScore (s : State) (user : address) : result N :=
  let activity := activityOf s user in
  let cfg := pointConfig s in
  let score := 0 in
  t ← checked_mul (totalTransactions activity) (transactionBasePoints cfg);
  score ← checked_add score t;
  v ← checked_mul (totalVolumeTraded activity) (volumeMultiplier cfg);
  score ← checked_add score (v / ONE_ETHER);
  b ← checked_mul (totalBookingsAsBuyer activity) (bookingCreatedPoints cfg);
  score ← checked_add score b;
  k ← checked_mul (totalBookingsAsKOL activity) (bookingAcceptedPoints cfg);
  score ← checked_add score k;
  c ← checked_mul (totalBookingsCompleted activity)
        (bookingCompletedPoints cfg);
  score ← checked_add score c;
  if 0 <? totalRatingCount activity then
    let avgRating := totalRatingSum activity / totalRatingCount activity in
    if 45 <=? avgRating then
      h ← checked_mul (highRatingBonus cfg) (totalBookingsCompleted activity);
      checked_add score h
    else mret score
  else mret score.

Definition calculateSocialScore (s : State) (user : address) : result N :=
  let social := socialOf s user in
  let score := 0 in
  score ←
    (if xConnected social then
       score ← checked_add score (xFollowers social / 10);
       checked_add score (xEngagement social / 5)
     else mret score);
  score ←
    (if discordConnected social
     then checked_add score (discordActivity social)
     else mret score);
  score ←
    (if githubConnected social then
       g ← checked_mul (githubContributions social) 2;
       checked_add score g
     else mret score);
  let connections := 0 in
  let connections := if xConnected social then connections + 1
                     else connections in
  let connections := if discordConnected social then connections + 1
                     else connections in
  let connections := if githubConnected social then connections + 1
                     else connections in
  checked_add score (connections * 100).

Definition calculateTokenHoldingScore (s : State) (user : address)
  : result N :=
  mret (holdingsOf s user / (100 * ONE_ETHER)).

Definition _calculateTotalScore (s : State) (user : address) : result N :=
  onchainScore ← calculateOnchainScore s user;
  socialScore ← calculateSocialScore s user;
  tokenScore ← calculateTokenHoldingScore s user;
  weightedScore onchainScore socialScore tokenScore.

Definition _updateUserReputation (e : Env) (s : State) (user : address)
  (activityType : string) (pointsEarned : N) : result State :=
  let tokenId := tokenOf (reputationNFT s) user in
  if tokenId =? 0 then mret s
  else
    let activity := activityOf s user in
    onchainScore ← calculateOnchainScore s user;
    socialScore ← calculateSocialScore s user;
    tokenHoldingScore ← calculateTokenHoldingScore s user;
    let averageRating :=
      if 0 <? totalRatingCount activity
      then totalRatingSum activity / totalRatingCount activity
      else 0 in
    n ← updateReputation (asTracker e s) (reputationNFT s) user onchainScore
          socialScore tokenHoldingScore (totalTransactions activity)
          (totalVolumeTraded activity) (totalBookingsCompleted activity)
          averageRating;
    mret (setNFT s n).

(** The argument [_calculateTotalScore(user)] of each [ActivityTracked]
    event is evaluated, and can overflow, even though the event is not
    kept. *)
Definition emitActivityTracked (s : State) (user : address) : result unit :=
  _calculateTotalScore s user;; mret tt.

Definition registerUser (e : Env) (s : State) : result State :=
  require (tokenOf (reputationNFT s) (sender e) =? 0)
    "User already registered";;
  '(n, tokenId) ← mintReputationNFT (asTracker e s) (reputationNFT s)
                    (sender e);
  let s := setNFT s n in
  let a := activityOf s (sender e) in
  mret (setActivity s (sender e)
          (mkUserActivity (totalTransactions a) (totalVolumeTraded a)
             (totalBookingsAsKOL a) (totalBookingsAsBuyer a)
             (totalBookingsCompleted a) (totalRatingSum a)
             (totalRatingCount a) (timestamp e) (hasInteractedWith a))).

Definition markProcessed (s : State) (txHash : N) : State :=
  mkState (self s) (reputationNFT s) (timeBooking s) (userActivities s)
    (socialMetrics s) (userTokenHoldings s) (isRegisteredKOL s)
    (pointConfig s) ({[txHash]} ∪ processedTransactions s) (owner s).

Definition trackTransaction (e : Env) (s : State) (user : address)
  (value : N) (interactedWith : address) (txHash : N) : result State :=
  require (negb (bool_decide (txHash ∈ processedTransactions s)))
    "Transaction already processed";;
  let s := markProcessed s txHash in
  let activity := activityOf s user in
  transactions ← checked_add (totalTransactions activity) 1;
  volume ← checked_add (totalVolumeTraded activity) value;
  let points := transactionBasePoints (pointConfig s) in
  scaled ← checked_mul value (volumeMultiplier (pointConfig s));
  points ← checked_add points (scaled / ONE_ETHER);
  let isNew := negb (interactedWith =? 0)
               && negb (bool_decide
                          (interactedWith ∈ hasInteractedWith activity)) in
  points ← (if isNew then checked_add points (diversityBonus (pointConfig s))
            else mret points);
  let interacted := if isNew
                    then {[interactedWith]} ∪ hasInteractedWith activity
                    else hasInteractedWith activity in
  let s := setActivity s user
    (mkUserActivity transactions volume (totalBookingsAsKOL activity)
       (totalBookingsAsBuyer activity) (totalBookingsCompleted activity)
       (totalRatingSum activity) (totalRatingCount activity) (timestamp e)
       interacted) in
  s ← _updateUserReputation e s user "transaction" points;
  emitActivityTracked s user;;
  mret s.

Definition onlyTimeBooking (e : Env) (s : State) : result unit :=
  require (sender e =? timeBooking s) "Only TimeBooking contract".

Definition trackBookingCreated (e : Env) (s : State) (buyer : address)
  (bookingId : N) : result State :=
  onlyTimeBooking e s;;
  let a := activityOf s buyer in
  asBuyer ← checked_add (totalBookingsAsBuyer a) 1;
  let s := setActivity s buyer
    (mkUserActivity (totalTransactions a) (totalVolumeTraded a)
       (totalBookingsAsKOL a) asBuyer (totalBookingsCompleted a)
       (totalRatingSum a) (totalRatingCount a) (timestamp e)
       (hasInteractedWith a)) in
  s ← _updateUserReputation e s buyer "booking_created"
        (bookingCreatedPoints (pointConfig s));
  emitActivityTracked s buyer;;
  mret s.

Definition setRegisteredKOL (s : State) (kol : address) : State :=
  mkState (self s) (reputationNFT s) (timeBooking s) (userActivities s)
    (socialMetrics s) (userTokenHoldings s)
    (<[kol := true]> (isRegisteredKOL s)) (pointConfig s)
    (processedTransactions s) (owner s).

Definition trackBookingAccepted (e : Env) (s : State) (kol : address)
  (bookingId : N) : result State :=
  onlyTimeBooking e s;;
  let a := activityOf s kol in
  asKOL ← checked_add (totalBookingsAsKOL a) 1;
  let s := setActivity s kol
    (mkUserActivity (totalTransactions a) (totalVolumeTraded a) asKOL
       (totalBookingsAsBuyer a) (totalBookingsCompleted a)
       (totalRatingSum a) (totalRatingCount a) (timestamp e)
       (hasInteractedWith a)) in
  s ← _updateUserReputation e s kol "booking_accepted"
        (bookingAcceptedPoints (pointConfig s));
  s ← (if negb (default false (isRegisteredKOL s !! kol)) then
         let s := setRegisteredKOL s kol in
         n ← setKOLStatus (asTracker e s) (reputationNFT s) kol true;
         mret (setNFT s n)
       else mret s);
  emitActivityTracked s kol;;
  mret s.

Definition trackBookingCompleted (e : Env) (s : State) (kol buyer : address)
  (bookingId rating : N) : result State :=
  onlyTimeBooking e s;;
  let a := activityOf s kol in
  completed ← checked_add (totalBookingsCompleted a) 1;
  ratingSum ← checked_add (totalRatingSum a) rating;
  ratingCount ← checked_add (totalRatingCount a) 1;
  let s := setActivity s kol
    (mkUserActivity (totalTransactions a) (totalVolumeTraded a)
       (totalBookingsAsKOL a) (totalBookingsAsBuyer a) completed ratingSum
       ratingCount (timestamp e) (hasInteractedWith a)) in
  let a := activityOf s buyer in
  completed ← checked_add (totalBookingsCompleted a) 1;
  let s := setActivity s buyer
    (mkUserActivity (totalTransactions a) (totalVolumeTraded a)
       (totalBookingsAsKOL a) (totalBookingsAsBuyer a) completed
       (totalRatingSum a) (totalRatingCount a) (timestamp e)
       (hasInteractedWith a)) in
  let kolPoints := bookingCompletedPoints (pointConfig s) in
  let buyerPoints := bookingCompletedPoints (pointConfig s) / 2 in
  kolPoints ← (if 45 <=? rating
               then checked_add kolPoints (highRatingBonus (pointConfig s))
               else mret kolPoints);
  s ← _updateUserReputation e s kol "booking_completed" kolPoints;
  s ← _updateUserReputation e s buyer "booking_participated" buyerPoints;
  emitActivityTracked s kol;;
  emitActivityTracked s buyer;;
  mret s.

Definition ownerOrUser (e : Env) (s : State) (user : address) : result unit :=
  require ((sender e =? owner s) || (sender e =? user)) "Unauthorized".

Definition updateTokenHoldings (e : Env) (s : State) (user : address)
  (balance : N) : result State :=
  ownerOrUser e s user;;
  let s := mkState (self s) (reputationNFT s) (timeBooking s)
             (userActivities s) (socialMetrics s)
             (<[user := balance]> (userTokenHoldings s)) (isRegisteredKOL s)
             (pointConfig s) (processedTransactions s) (owner s) in
  s ← _updateUserReputation e s user "token_holding_update" 0;
  emitActivityTracked s user;;
  mret s.

(** The seven metric arguments of the source arrive packed in [m]. *)
Definition updateSocialMetrics (e : Env) (s : State) (user : address)
  (m : SocialMetrics) : result State :=
  ownerOrUser e s user;;
  let s := mkState (self s) (reputationNFT s) (timeBooking s)
             (userActivities s) (<[user := m]> (socialMetrics s))
             (userTokenHoldings s) (isRegisteredKOL s) (pointConfig s)
             (processedTransactions s) (owner s) in
  s ← _updateUserReputation e s user "social_update" 0;
  emitActivityTracked s user;;
  mret s.

Definition onlyOwner (e : Env) (s : State) : result unit :=
  require (owner s =? sender e) "Ownable: caller is not the owner".

Definition updatePointConfig (e : Env) (s : State) (newConfig : PointConfig)
  : result State :=
  onlyOwner e s;;
  mret (mkState (self s) (reputationNFT s) (timeBooking s) (userActivities s)
          (socialMetrics s) (userTokenHoldings s) (isRegisteredKOL s)
          newConfig (processedTransactions s) (owner s)).

Definition setTimeBookingContract (e : Env) (s : State)
  (newTimeBooking : address) : result State :=
  onlyOwner e s;;
  mret (mkState (self s) (reputationNFT s) newTimeBooking (userActivities s)
          (socialMetrics s) (userTokenHoldings s) (isRegisteredKOL s)
          (pointConfig s) (processedTransactions s) (owner s)).

Fixpoint updateAll (e : Env) (s : State) (users : list address)
  : result State :=
  match users with
  | [] => mret s
  | user :: rest =>
      s ← _updateUserReputation e s user "bulk_update" 0;
      updateAll e s rest
  end.

Definition bulkUpdateReputations (e : Env) (s : State)
  (users : list address) : result State :=
  onlyOwner e s;;
  updateAll e s users.

(** ** Sizes at which no computation overflows

    Counters, configured points and social metrics up to [B]; the theorems
    use [B = LIMIT], far above anything the chain can reach and far below
    the point where the checked arithmetic of the score would revert. *)

Definition LIMIT : N := 2 ^ 64.

Definition activityWithin (B : N) (a : UserActivity) : Prop :=
  totalTransactions a <= B /\ totalVolumeTraded a <= B
  /\ totalBookingsAsKOL a <= B /\ totalBookingsAsBuyer a <= B
  /\ totalBookingsCompleted a <= B /\ totalRatingSum a <= B
  /\ totalRatingCount a <= B.

Definition configWithin (B : N) (c : PointConfig) : Prop :=
  transactionBasePoints c <= B /\ volumeMultiplier c <= B
  /\ bookingCreatedPoints c <= B /\ bookingAcceptedPoints c <= B
  /\ bookingCompletedPoints c <= B /\ highRatingBonus c <= B
  /\ diversityBonus c <= B.

Definition socialWithin (B : N) (m : SocialMetrics) : Prop :=
  xFollowers m <= B /\ xEngagement m <= B /\ discordActivity m <= B
  /\ githubContributions m <= B.

Definition within (B : N) (s : State) (user : address) : Prop :=
  activityWithin B (activityOf s user) /\ configWithin B (pointConfig s)
  /\ socialWithin B (socialOf s user) /\ holdingsOf s user <= B.

(** The token contract lets the tracker write. *)
Definition trackerAuthorized (s : State) : bool :=
  default false (authorizedUpdaters (reputationNFT s) !! self s)
  || (self s =? nftOwner (reputationNFT s)).

(** Every user with a token id holds a minted token. *)
Definition minted (n : NFT) : Prop :=
  forall user, tokenOf n user <> 0 -> is_Some (_owners n !! tokenOf n user).

(** [user] holds the minted token [t], whose record carries the KOL flag. *)
Definition flagged (n : NFT) (user : address) (t : N) : Prop :=
  minted n /\ t <> 0 /\ tokenOf n user = t /\ isKOL (dataOf n t) = true.

(** ** Operations on the reputation components

    Every external function that writes to the tracker or to the token
    contract; the [Nft] ones are calls made to the token contract directly.
    ([setReputationNFTContract], which points the tracker at another token
    contract, is outside the model: it would replace [reputationNFT]
    wholesale.) *)
Inductive Op : Type :=
  | RegisterUser
  | TrackTransaction (user : address) (value : N) (interactedWith : address)
      (txHash : N)
  | TrackBookingCreated (buyer : address) (bookingId : N)
  | TrackBookingAccepted (kol : address) (bookingId : N)
  | TrackBookingCompleted (kol buyer : address) (bookingId rating : N)
  | UpdateTokenHoldings (user : address) (balance : N)
  | UpdateSocialMetrics (user : address) (m : SocialMetrics)
  | UpdatePointConfig (newConfig : PointConfig)
  | SetTimeBookingContract (newTimeBooking : address)
  | BulkUpdateReputations (users : list address)
  | NftMint (to : address)
  | NftUpdateReputation (user : address)
      (onchainScore socialScore tokenHoldingScore transactionCount
       volumeTraded bookingsCompleted averageRating : N)
  | NftSetKOLStatus (user : address) (flag : bool)
  | NftSetAuthorizedUpdater (updater : address) (authorized : bool)
  | NftUpdateLevelThresholds (bronze silver gold diamond : N).

Definition onNFT (s : State) (r : result NFT) : result State :=
  n ← r; mret (setNFT s n).

Definition exec (e : Env) (s : State) (op : Op) : result State :=
  match op with
  | RegisterUser => registerUser e s
  | TrackTransaction u v w h => trackTransaction e s u v w h
  | TrackBookingCreated b i => trackBookingCreated e s b i
  | TrackBookingAccepted k i => trackBookingAccepted e s k i
  | TrackBookingCompleted k b i r => trackBookingCompleted e s k b i r
  | UpdateTokenHoldings u b => updateTokenHoldings e s u b
  | UpdateSocialMetrics u m => updateSocialMetrics e s u m
  | UpdatePointConfig c => updatePointConfig e s c
  | SetTimeBookingContract t => setTimeBookingContract e s t
  | BulkUpdateReputations us => bulkUpdateReputations e s us
  | NftMint to =>
      r ← mintReputationNFT e (reputationNFT s) to; mret (setNFT s r.1)
  | NftUpdateReputation u a b c d f g h =>
      onNFT s (updateReputation e (reputationNFT s) u a b c d f g h)
  | NftSetKOLStatus u k => onNFT s (setKOLStatus e (reputationNFT s) u k)
  | NftSetAuthorizedUpdater u a =>
      onNFT s (setAuthorizedUpdater e (reputationNFT s) u a)
  | NftUpdateLevelThresholds b sv g d =>
      onNFT s (updateLevelThresholds e (reputationNFT s) b sv g d)
  end.

(** The operations that reach the token contract through the tracker. *)
Definition viaTracker (op : Op) : bool :=
  match op with
  | NftMint _ | NftUpdateReputation _ _ _ _ _ _ _ _ | NftSetKOLStatus _ _
  | NftSetAuthorizedUpdater _ _ | NftUpdateLevelThresholds _ _ _ _ => false
  | _ => true
  end.

(** The call that replaces the level thresholds. *)
Definition setsThresholds (op : Op) : bool :=
  match op with
  | NftUpdateLevelThresholds _ _ _ _ => true
  | _ => false
  end.

(** The tiers as the specification words them, for the default thresholds. *)
Definition specTier (totalScore : N) : ReputationLevel :=
  if 5000 <=? totalScore then Diamond
  else if 3000 <=? totalScore then Gold
  else if 1000 <=? totalScore then Silver
  else Bronze.

(** A record whose total and level agree with its component scores. *)
Definition coherent (d : ReputationData) : Prop :=
  totalScore d
    = (onchainScore d * 50 + socialScore d * 40 + tokenHoldingScore d * 10)
      / 100
  /\ level d = specTier (totalScore d).

Definition recordsCoherent (n : NFT) : Prop :=
  levelThresholds n = defaultThresholds
  /\ forall t d, reputationData n !! t = Some d -> coherent d.

(** A reverted call changes nothing. *)
Definition keep (s : State) (r : result State) : State :=
  match r with
  | Ok s' => s'
  | Revert _ => s
  end.

(** The call that clears a KOL flag. *)
Definition clearsKOL (op : Op) : bool :=
  match op with
  | NftSetKOLStatus _ false => true
  | _ => false
  end.

(** ** A deployment used in the examples

    Account 1 deploys both contracts; the tracker lives at address 50 and is
    an authorized updater; the booking contract is at address 60.  Account 20
    registers and, through the booking contract, accepts a booking. *)

Definition as_ (who : address) (now : N) : Env := mkEnv who now (fun _ => true).

Definition run (s : State) (who : address) (now : N) (op : Op) : State :=
  keep s (exec (as_ who now) s op).

Definition deployed : State :=
  run (constructor (as_ 1 0) 50 (nftConstructor (as_ 1 0)) 60)
    1 10 (NftSetAuthorizedUpdater 50 true).

Definition registered : State := run deployed 20 100 RegisterUser.

Definition kolFlagged : State :=
  run registered 60 200 (TrackBookingAccepted 20 1).

(** The position of a level in the enum [ReputationLevel]. *)
Definition rank (l : ReputationLevel) : N :=
  match l with Bronze => 0 | Silver => 1 | Gold => 2 | Diamond => 3 end.

(** Every user with a token id is the holder of that token. *)
Definition owned (n : NFT) : Prop :=
  forall user, tokenOf n user <> 0 -> _owners n !! tokenOf n user = Some user.

(** A history of operations, each in its own environment; a reverted one
    changes nothing. *)
Fixpoint runAll (s : State) (ops : list (Env * Op)) : State :=
  match ops with
  | [] => s
  | eo :: rest => runAll (keep s (exec eo.1 s eo.2)) rest
  end.

(** The counters of an activity record, without the set of counterparties. *)
Definition counters (a : UserActivity) : N * N * N * N * N * N * N * N :=
  (totalTransactions a, totalVolumeTraded a, totalBookingsAsKOL a,
   totalBookingsAsBuyer a, totalBookingsCompleted a, totalRatingSum a,
   totalRatingCount a, lastActivityTime a).

(** One activity record against a later one: no counter is lower and no
    counterparty is forgotten. *)
Definition grows (a a' : UserActivity) : Prop :=
  totalTransactions a <= totalTransactions a'
  /\ totalVolumeTraded a <= totalVolumeTraded a'
  /\ totalBookingsAsKOL a <= totalBookingsAsKOL a'
  /\ totalBookingsAsBuyer a <= totalBookingsAsBuyer a'
  /\ totalBookingsCompleted a <= totalBookingsCompleted a'
  /\ totalRatingSum a <= totalRatingSum a'
  /\ totalRatingCount a <= totalRatingCount a'
  /\ hasInteractedWith a ⊆ hasInteractedWith a'.

Definition extends (s s' : State) : Prop :=
  (forall u, grows (activityOf s u) (activityOf s' u))
  /\ processedTransactions s ⊆ processedTransactions s'
  /\ (forall u, default false (isRegisteredKOL s !! u) = true ->
        default false (isRegisteredKOL s' !! u) = true).


(** ** The leaderboard view of ReputationNFT *)

#[global] Instance ReputationLevel_eq_dec : EqDecision ReputationLevel.
Proof. solve_decision. Defined.











(** ** Histories used in the examples *)

(** Account 20 accepts a booking, then the owner of the token contract
    clears its KOL flag. *)
Definition flagHistory : list (Env * Op) :=
  [ (as_ 60 200, TrackBookingAccepted 20 1);
    (as_ 1 300, NftSetKOLStatus 20 false) ].

End Reputation.

(** * The ticket metadata helper: BookingTicketNFT.sol *)

Module BookingTicketNFT.

Record TicketMetadata : Type := mkTicketMetadata {
  name : string;
  description : string;
  image : string;
  buyer : address;
  kol : address;
  fromTime : N;
  toTime : N;
  totalAmount : N;
  reason : string;
  status : N
}.

Definition getStatusText (_status : N) : string :=
  if _status =? 0 then "Pending"
  else if _status =? 1 then "Accepted"
  else if _status =? 2 then "Rejected"
  else if _status =? 3 then "Completed"
  else if _status =? 4 then "Cancelled"
  else if _status =? 5 then "Disputed"
  else if _status =? 6 then "Expired"
  else "Unknown".

(** The loops of [_toString] stop when their variable, divided by ten in
    each round, reaches zero; a [uint256] has at most 78 decimal digits, and
    [ROUNDS] is the number of rounds the model allows. *)
Definition ROUNDS : nat := 80.

Definition OUT_OF_ROUNDS : string := "loop bound reached".
Definition PANIC_INDEX : string := "Panic(0x32)".

(** [while (temp != 0) { digits++; temp /= 10; }] *)
Fixpoint countDigits (rounds : nat) (temp digits : N) : result N :=
  match rounds with
  | O => Revert OUT_OF_ROUNDS
  | S rounds =>
      if temp =? 0 then Ok digits
      else
        digits ← checked_add digits 1;
        countDigits rounds (temp / 10) digits
  end.

(** [buffer[i] = c], with the bounds check of a memory array. *)
Definition store (buffer : list Ascii.ascii) (i : N) (c : Ascii.ascii)
  : result (list Ascii.ascii) :=
  if i <? N.of_nat (length buffer) then Ok (<[N.to_nat i := c]> buffer)
  else Revert PANIC_INDEX.

(** [while (value != 0) { digits -= 1;
       buffer[digits] = bytes1(uint8(48 + uint256(value % 10)));
       value /= 10; }] *)
Fixpoint writeDigits (rounds : nat) (value digits : N)
  (buffer : list Ascii.ascii) : result (list Ascii.ascii) :=
  match rounds with
  | O => Revert OUT_OF_ROUNDS
  | S rounds =>
      if value =? 0 then Ok buffer
      else
        digits ← checked_sub digits 1;
        code ← checked_add 48 (value mod 10);
        buffer ← store buffer digits (Ascii.ascii_of_N (code mod 256));
        writeDigits rounds (value / 10) digits buffer
  end.

Definition _toString (value : N) : result string :=
  if value =? 0 then Ok "0"
  else
    digits ← countDigits ROUNDS value 0;
    buffer ← writeDigits ROUNDS value digits
               (replicate (N.to_nat digits) Ascii.zero);
    Ok (String.string_of_list_ascii buffer).

Definition generateTicketMetadata (_buyer _kol : address)
  (_fromTime _toTime _totalAmount : N) (_reason : string) (_status : N)
  : result TicketMetadata :=
  let statusText := getStatusText _status in
  number ← _toString _fromTime;
  Ok (mkTicketMetadata
        ("SoRe Booking Ticket #" +:+ number)
        ("Time booking session ticket on SoRe platform. " +:+ "Session: "
         +:+ _reason +:+ ". " +:+ "Status: " +:+ statusText)
        "https://ipfs.io/ipfs/QmYourTicketImageHash"
        _buyer _kol _fromTime _toTime _totalAmount _reason _status).

(** The number [enum BookingStatus] gives a status, the argument the
    helper expects. *)
Definition statusCode (st : TimeBooking.BookingStatus) : N :=
  match st with
  | TimeBooking.Pending => 0
  | TimeBooking.Accepted => 1
  | TimeBooking.Rejected => 2
  | TimeBooking.Completed => 3
  | TimeBooking.Cancelled => 4
  | TimeBooking.Disputed => 5
  | TimeBooking.Expired => 6
  end.

(** Reading a decimal numeral back. *)
Definition digitValue (c : Ascii.ascii) : N := Ascii.N_of_ascii c - 48.

Definition isDigit (c : Ascii.ascii) : Prop := 48 <= Ascii.N_of_ascii c <= 57.

Definition parseDecimal (s : string) : N :=
  foldl (fun acc c => acc * 10 + digitValue c) 0
    (String.list_ascii_of_string s).

(** The decimal digits of a number, most significant first. *)
Fixpoint digitsOf (rounds : nat) (value : N) : list N :=
  match rounds with
  | O => []
  | S rounds =>
      if value =? 0 then []
      else digitsOf rounds (value / 10) ++ [value mod 10]
  end.

Definition digitChar (d : N) : Ascii.ascii :=
  Ascii.ascii_of_N ((48 + d) mod 256).

End BookingTicketNFT.

(** * The two contracts together *)

Module Platform.

(** The answer of the reputation hook of the booking contract, computed from
    the tracker at state [tracker]: the booking contract, at address
    [bookingContract], is the caller the tracker sees. *)
Definition trackerHook (tracker : Reputation.State)
  (bookingContract : address) (now : N) (receives : address -> bool)
  (c : TimeBooking.TrackerCall) : bool :=
  let e := Reputation.mkEnv bookingContract now receives in
  match c with
  | TimeBooking.TrackBookingCreated buyer bookingId =>
      is_ok (Reputation.trackBookingCreated e tracker buyer bookingId)
  | TimeBooking.TrackBookingAccepted kol bookingId =>
      is_ok (Reputation.trackBookingAccepted e tracker kol bookingId)
  | TimeBooking.TrackBookingCompleted kol buyer bookingId rating =>
      is_ok (Reputation.trackBookingCompleted e tracker kol buyer bookingId
               rating)
  end.

End Platform.

(** * Reasoning about results and checked arithmetic *)

Section Monad.

Lemma bind_ok {A B} (m : result A) (f : A -> result B) (b : B) :
  m ≫= f = Ok b -> exists a, m = Ok a /\ f a = Ok b.
Proof. destruct m as [a|r]; simpl; [eauto | discriminate]. Qed.

Lemma require_ok (c : bool) (r : string) (u : unit) :
  require c r = Ok u -> c = true.
Proof. destruct c; [reflexivity | discriminate]. Qed.

Lemma require_true (c : bool) (r : string) :
  c = true -> require c r = Ok tt.
Proof. intros ->. reflexivity. Qed.

Lemma checked_add_ok (a b c : N) :
  checked_add a b = Ok c -> c = a + b /\ a + b <= MAX_UINT256.
Proof.
  unfold checked_add. destruct (N.leb_spec (a + b) MAX_UINT256); [|discriminate].
  intros [= <-]. auto.
Qed.

Lemma checked_sub_ok (a b c : N) :
  checked_sub a b = Ok c -> c = a - b /\ b <= a.
Proof.
  unfold checked_sub. destruct (N.leb_spec b a); [|discriminate].
  intros [= <-]. auto.
Qed.

Lemma checked_mul_ok (a b c : N) :
  checked_mul a b = Ok c -> c = a * b /\ a * b <= MAX_UINT256.
Proof.
  unfold checked_mul. destruct (N.leb_spec (a * b) MAX_UINT256); [|discriminate].
  intros [= <-]. auto.
Qed.

Lemma checked_add_in_range (a b : N) :
  a + b <= MAX_UINT256 -> checked_add a b = Ok (a + b).
Proof. intros H. unfold checked_add. destruct (N.leb_spec (a + b) MAX_UINT256); [reflexivity | lia]. Qed.

Lemma checked_sub_in_range (a b : N) :
  b <= a -> checked_sub a b = Ok (a - b).
Proof. intros H. unfold checked_sub. destruct (N.leb_spec b a); [reflexivity | lia]. Qed.

Lemma checked_mul_in_range (a b : N) :
  a * b <= MAX_UINT256 -> checked_mul a b = Ok (a * b).
Proof. intros H. unfold checked_mul. destruct (N.leb_spec (a * b) MAX_UINT256); [reflexivity | lia]. Qed.

End Monad.

(** Peel the binds of a successful call, one hypothesis per statement. *)
Ltac peel H :=
  repeat match type of H with
  | _ ≫= _ = Ok _ =>
      let x := fresh "x" in
      let E := fresh "E" in
      apply bind_ok in H as (x & E & H)
  | mret _ = Ok _ => injection H as H
  | Ok _ = Ok _ => injection H as H
  end.

Ltac peel_requires :=
  repeat match goal with
  | H : require _ _ = Ok _ |- _ => apply require_ok in H
  | H : checked_add _ _ = Ok _ |- _ => apply checked_add_ok in H as [-> ?]
  | H : checked_sub _ _ = Ok _ |- _ => apply checked_sub_ok in H as [-> ?]
  | H : checked_mul _ _ = Ok _ |- _ => apply checked_mul_ok in H as [-> ?]
  | H : bool_decide _ = true |- _ => apply bool_decide_eq_true_1 in H
  | H : negb _ = true |- _ => apply negb_true_iff in H
  | H : (_ && _)%bool = true |- _ => apply andb_true_iff in H as [? ?]
  | H : (_ <=? _) = true |- _ => apply N.leb_le in H
  | H : (_ <? _) = true |- _ => apply N.ltb_lt in H
  | H : (_ =? _) = true |- _ => apply N.eqb_eq in H
  | H : (_ <=? _) = false |- _ => apply N.leb_gt in H
  | H : (_ <? _) = false |- _ => apply N.ltb_ge in H
  | H : (_ =? _) = false |- _ => apply N.eqb_neq in H
  end.

(** Evaluate a closed goal. *)
Ltac crunch :=
  vm_compute;
  first [ reflexivity | discriminate | exact I | (left; reflexivity)
        | (eexists; reflexivity) ].

(** * Properties of the escrow *)

Section Escrow.
Import TimeBooking.

Lemma getBooking_setBooking (s : State) (i : N) (b : Booking) :
  getBooking (setBooking s i b) i = b.
Proof. unfold getBooking, setBooking; simpl. by rewrite lookup_insert_eq. Qed.

Lemma getBooking_setBooking_ne (s : State) (i j : N) (b : Booking) :
  i <> j -> getBooking (setBooking s i b) j = getBooking s j.
Proof. intros ?. unfold getBooking, setBooking; simpl. by rewrite lookup_insert_ne. Qed.

Lemma transfer_ok (e : Env) (s s' : State) (to : address) (a : N) :
  transfer e s to a = Ok s' ->
  s' = setBalance s (balance s - a) /\ a <= balance s /\ accepts e to = true.
Proof.
  unfold transfer. intros H. peel H. peel_requires. subst.
  split; [reflexivity|]. split; [lia | assumption].
Qed.

Lemma transfer_can_pay (e : Env) (s : State) (to : address) (a : N) :
  a <= balance s -> accepts e to = true ->
  transfer e s to a = Ok (setBalance s (balance s - a)).
Proof.
  intros Ha Hto. unfold transfer.
  rewrite (require_true (a <=? balance s)) by (apply N.leb_le; lia). simpl.
  rewrite Hto. reflexivity.
Qed.

Lemma refund_ok (e : Env) (s s' : State) (b : Booking) (paid : list Transfer) :
  _refundBuyer e s b = Ok (s', paid) ->
  s' = setBalance s (balance s - totalAmount b)
  /\ paid = [(buyer b, totalAmount b)].
Proof.
  unfold _refundBuyer. intros H. peel H.
  apply transfer_ok in E as (-> & _ & _). by subst.
Qed.

Lemma getBooking_setBalance (s : State) (v i : N) :
  getBooking (setBalance s v) i = getBooking s i.
Proof. reflexivity. Qed.

Ltac booking_simpl :=
  simpl;
  repeat first
    [ rewrite getBooking_setBalance
    | rewrite getBooking_setBooking
    | rewrite getBooking_setBooking_ne by congruence ];
  simpl.

Ltac finish :=
  peel_requires; subst; unfold frame; booking_simpl;
  repeat match goal with
  | |- _ /\ _ => split
  | |- forall _, _ => intros
  end; booking_simpl; auto.

Lemma splitPayment_sum (a p platformFee kolPayment : N) :
  splitPayment a p = Ok (platformFee, kolPayment) ->
  platformFee = a * p / 10000 /\ platformFee + kolPayment = a.
Proof.
  unfold splitPayment. intros H. peel H. peel_requires. subst. lia.
Qed.

Lemma total_split (fee kp a : N) (x y : address) :
  fee + kp = a ->
  total ((if 0 <? fee then [(x, fee)] else []) ++ [(y, kp)]) = a.
Proof.
  intros H. destruct (N.ltb_spec 0 fee); unfold total; simpl; lia.
Qed.

Lemma canRelease_true (e : Env) (b : Booking) :
  canRelease e b = Ok true ->
  status b = Accepted /\ 0 < sessionEndTime b
  /\ sessionEndTime b + DISPUTE_PERIOD < timestamp e
  /\ disputeReported b = false.
Proof.
  unfold canRelease.
  destruct (bool_decide (status b = Accepted) && (0 <? sessionEndTime b))
    eqn:G; [|discriminate].
  intros H. peel H. peel_requires. repeat split; auto; lia.
Qed.

(** What a successful [releasePayment] has done. *)
Lemma releasePayment_ok (e : Env) (s s' : State) (i : N)
  (paid : list Transfer) :
  releasePayment e s i = Ok (s', paid) ->
  let b := getBooking s i in
  canRelease e b = Ok true
  /\ exists platformFee kolPayment,
       splitPayment (totalAmount b) (platformFeePercent s)
         = Ok (platformFee, kolPayment)
       /\ paid = (if 0 <? platformFee
                  then [(feeRecipient s, platformFee)] else [])
                 ++ [(kol b, kolPayment)]
       /\ total paid <= balance s
       /\ s' = setBalance
                 (setBooking s i
                    (with_updatedAt (with_status b Completed) (timestamp e)))
                 (balance s - total paid).
Proof.
  unfold releasePayment. intros H. peel H.
  destruct x1 as [platformFee kolPayment]. peel H.
  destruct x1 as [s1 paidFee]. peel H.
  apply require_ok in E0 as ->. split; [assumption|].
  exists platformFee, kolPayment. simpl in E1. split; [assumption|].
  apply transfer_ok in E3 as (-> & Hk & _). subst.
  destruct (0 <? platformFee).
  - peel E2. apply transfer_ok in E0 as (-> & Hf & _). subst.
    simpl in *. split; [reflexivity|].
    unfold total; simpl. split; [lia|].
    unfold setBalance; simpl. f_equal. lia.
  - peel E2. subst. simpl in *. split; [reflexivity|].
    unfold total; simpl. split; [lia|].
    unfold setBalance; simpl. f_equal. lia.
Qed.

Lemma dispatch_effect (e : Env) (s s' : State) (c : Call)
  (paid : list Transfer) :
  dispatch e s c = Ok (s', paid) -> frame s c s' /\ effect s c s' paid.
Proof.
  destruct c as [i|i|i|i|i r|i r|i|i]; unfold effect; simpl; intros H.
  - unfold acceptBooking in H. peel H. finish.
  - unfold rejectBooking in H. peel H. apply refund_ok in H as [-> ->]. finish.
  - unfold cancelBooking in H. peel H. apply refund_ok in H as [-> ->]. finish.
  - unfold completeSession in H. peel H. finish.
  - unfold reportDispute in H. peel H. finish.
  - unfold rateSession in H. peel H.
    apply require_ok, orb_true_iff in E0.
    assert (status (getBooking s i) = Accepted
            \/ status (getBooking s i) = Completed)
      by (destruct E0 as [E0|E0]; apply bool_decide_eq_true_1 in E0; auto).
    finish.
  - apply releasePayment_ok in H as (G & fee & kp & Hsplit & -> & _ & ->).
    apply canRelease_true in G as (G & _).
    finish. eauto.
  - unfold handleExpiredBooking in H. peel H. apply refund_ok in H as [-> ->]. finish.
Qed.

Lemma paidFor_app (id : N) (l1 l2 : list (N * Transfer)) :
  paidFor id (l1 ++ l2) = paidFor id l1 ++ paidFor id l2.
Proof. unfold paidFor. by rewrite filter_app, map_app. Qed.

Lemma paidFor_same (id : N) (paid : list Transfer) :
  paidFor id (map (pair id) paid) = paid.
Proof.
  unfold paidFor. induction paid as [|p paid IH]; [reflexivity|].
  simpl. rewrite filter_cons_True by reflexivity. simpl. by rewrite IH.
Qed.

Lemma paidFor_other (id j : N) (paid : list Transfer) :
  j <> id -> paidFor id (map (pair j) paid) = [].
Proof.
  intros Hne. unfold paidFor. induction paid as [|p paid IH]; [reflexivity|].
  simpl. rewrite filter_cons_False by (simpl; congruence). exact IH.
Qed.

(** [settled] only looks at the parties, the amount, the status and the fee
    configuration. *)
Lemma settled_ext (s s' : State) (b b' : Booking) (paid : list Transfer) :
  platformFeePercent s' = platformFeePercent s ->
  feeRecipient s' = feeRecipient s ->
  status b' = status b -> buyer b' = buyer b -> kol b' = kol b ->
  totalAmount b' = totalAmount b ->
  settled s b paid -> settled s' b' paid.
Proof.
  unfold settled. intros -> -> -> -> -> ->. auto.
Qed.

(** One step keeps the books of booking [id] balanced. *)
Lemma step_settled (id : N) (s : State) (ec : Env * Call)
  (paid0 : list Transfer) :
  settled s (getBooking s id) paid0 ->
  let b := getBooking s id in
  let b' := getBooking (step s ec).1 id in
  buyer b' = buyer b /\ kol b' = kol b /\ totalAmount b' = totalAmount b
  /\ (terminal (status b) = true -> status b' = status b)
  /\ settled (step s ec).1 b' (paid0 ++ paidFor id (step s ec).2).
Proof.
  destruct ec as [e c]. unfold step; simpl.
  destruct (dispatch e s c) as [[s' paid]|r] eqn:D; simpl.
  2: { intros H. rewrite app_nil_r. auto. }
  apply dispatch_effect in D as [(Hfee & Hrec & Hother & Hb & Hk & Ha) Heff].
  intros Hs. destruct (decide (target c = id)) as [<-|Hne].
  - rewrite paidFor_same. repeat split; try assumption.
    + destruct c; simpl in *; unfold effect in Heff; simpl in Heff;
        intros Ht; destruct Heff as (H1 & H2 & _);
        try (rewrite H1 in Ht; discriminate Ht); try assumption.
    + unfold settled in *. rewrite Hfee, Hrec, Hb, Hk, Ha.
      destruct c; simpl in *; unfold effect in Heff; simpl in Heff;
        destruct Heff as (H1 & H2 & H3);
        try (rewrite H1 in Hs; rewrite H2; subst; simpl; try reflexivity; try assumption).
      * rewrite H2. subst. rewrite app_nil_r. assumption.
  - rewrite paidFor_other, app_nil_r by assumption.
    rewrite (Hother id) by congruence. repeat split; auto.
    eapply settled_ext; eauto.
Qed.

Lemma run_settled (id : N) (calls : list (Env * Call)) :
  forall (s : State) (paid0 : list Transfer),
  settled s (getBooking s id) paid0 ->
  let b := getBooking s id in
  let b' := getBooking (run s calls).1 id in
  buyer b' = buyer b /\ kol b' = kol b /\ totalAmount b' = totalAmount b
  /\ settled (run s calls).1 b' (paid0 ++ paidFor id (run s calls).2).
Proof.
  induction calls as [|ec rest IH]; intros s paid0 Hs; simpl.
  - rewrite app_nil_r. auto.
  - destruct (step_settled id s ec paid0 Hs) as (Hb & Hk & Ha & _ & Hs1).
    destruct (step s ec) as [s1 paid1] eqn:S1; simpl in *.
    specialize (IH s1 _ Hs1). simpl in IH.
    destruct (run s1 rest) as [s2 paid2]; simpl in *.
    destruct IH as (Hb2 & Hk2 & Ha2 & Hs2).
    rewrite paidFor_app, app_assoc.
    repeat split; congruence.
Qed.

Lemma settled_total (s : State) (b : Booking) (paid : list Transfer) :
  settled s b paid ->
  total paid = if terminal (status b) then totalAmount b else 0.
Proof.
  unfold settled. destruct (status b); simpl; intros H; subst; simpl; try lia.
  destruct H as (fee & kp & Hsplit & ->).
  apply splitPayment_sum in Hsplit as [_ Hsum].
  destruct (N.ltb_spec 0 fee); unfold total; simpl in *; lia.
Qed.

Lemma terminal_blocks (e : Env) (s : State) (c : Call) :
  terminal (status (getBooking s (target c))) = true ->
  movesFunds c = true ->
  exists r, dispatch e s c = Revert r.
Proof.
  intros Ht Hm. destruct (dispatch e s c) as [[s' paid]|r] eqn:D; [|eauto].
  apply dispatch_effect in D as [_ Heff].
  destruct c; try discriminate Hm; unfold effect in Heff; simpl in *;
    destruct Heff as (H1 & _); rewrite H1 in Ht; discriminate Ht.
Qed.

Lemma canRelease_after (e : Env) (b : Booking) :
  status b = Accepted -> 0 < sessionEndTime b -> disputeReported b = false ->
  sessionEndTime b + DISPUTE_PERIOD < timestamp e ->
  timestamp e <= MAX_UINT256 ->
  canRelease e b = Ok true.
Proof.
  intros Hst Hset Hd Hlate Hnow. unfold canRelease.
  rewrite Hst, bool_decide_eq_true_2 by reflexivity.
  replace (0 <? sessionEndTime b) with true by (symmetry; apply N.ltb_lt; lia).
  simpl. rewrite checked_add_in_range by lia. simpl.
  rewrite Hd. replace (_ <? _) with true by (symmetry; apply N.ltb_lt; lia).
  reflexivity.
Qed.

Lemma canRelease_before (e : Env) (b : Booking) :
  timestamp e <= sessionEndTime b + DISPUTE_PERIOD ->
  canRelease e b = Ok false \/ canRelease e b = Revert PANIC_ARITH.
Proof.
  intros Hearly. unfold canRelease.
  destruct (_ && _); [|auto].
  unfold checked_add.
  destruct (N.leb_spec (sessionEndTime b + DISPUTE_PERIOD) MAX_UINT256);
    simpl; [|auto].
  left. replace (_ <? _) with false by (symmetry; apply N.ltb_ge; lia).
  reflexivity.
Qed.

Lemma canRelease_not_accepted (e : Env) (b : Booking) :
  status b <> Accepted -> canRelease e b = Ok false.
Proof.
  intros Hst. unfold canRelease.
  rewrite bool_decide_eq_false_2 by assumption. reflexivity.
Qed.

Lemma notifyTracker_ok (e : Env) (s : State) (c : TrackerCall) :
  reputationTracker s = 0 \/ trackerOk e c = true ->
  notifyTracker e s c = Ok tt.
Proof.
  unfold notifyTracker. intros [->| ->]; [reflexivity|].
  destruct (_ =? _); reflexivity.
Qed.

Lemma fee_le (a p : N) : p <= 10000 -> a * p / 10000 <= a.
Proof.
  intros Hp. apply N.Div0.div_le_upper_bound. nia.
Qed.

(** C2.  For a booking in status Accepted with [sessionEndTime] set, no
    dispute, and [block.timestamp] strictly after
    [sessionEndTime + DISPUTE_PERIOD], [releasePayment] succeeds: it marks the
    booking Completed and sends [platformFee = totalAmount *
    platformFeePercent / 10000], rounded down, to the fee recipient (no
    transfer is made when the fee is zero) and [kolPayment = totalAmount -
    platformFee] to the KOL; the two add up to [totalAmount].  For 1000 at
    250 basis points this is 25 and 975.  The call needs the values to be
    [uint256] with a fee rate of at most 100%, and the payment to go
    through: the balance covers [totalAmount], both payees take the transfer
    and the reputation hook, if one is set, does not revert. *)
Theorem releasePayment_splits_escrow (e : Env) (s : State) (id : N) :
  let b := getBooking s id in
  let platformFee := totalAmount b * platformFeePercent s / 10000 in
  let kolPayment := totalAmount b - platformFee in
  status b = Accepted ->
  0 < sessionEndTime b ->
  disputeReported b = false ->
  sessionEndTime b + DISPUTE_PERIOD < timestamp e ->
  timestamp e <= MAX_UINT256 ->
  platformFeePercent s <= 10000 ->
  totalAmount b * platformFeePercent s <= MAX_UINT256 ->
  totalAmount b <= balance s ->
  accepts e (feeRecipient s) = true ->
  accepts e (kol b) = true ->
  reputationTracker s = 0
  \/ trackerOk e
       (TrackBookingCompleted (kol b) (buyer b) id
          (if ratingSubmitted b then rating b else 25)) = true ->
  releasePayment e s id
    = Ok (setBalance
            (setBooking s id
               (with_updatedAt (with_status b Completed) (timestamp e)))
            (balance s - totalAmount b),
          (if 0 <? platformFee then [(feeRecipient s, platformFee)] else [])
          ++ [(kol b, kolPayment)])
  /\ platformFee + kolPayment = totalAmount b
  /\ platformFee * 10000 <= totalAmount b * platformFeePercent s
       < (platformFee + 1) * 10000
  /\ splitPayment 1000 250 = Ok (25, 975).
Proof.
  intros b platformFee kolPayment Hst Hset Hd Hlate Hnow Hp Hmul Hbal Hfr Hk Ht.
  assert (Hfee : platformFee <= totalAmount b) by (apply fee_le; assumption).
  split; [|split; [|split]].
  - unfold releasePayment. fold b.
    rewrite (canRelease_after e b) by assumption. simpl.
    unfold splitPayment.
    rewrite checked_mul_in_range by assumption. simpl.
    rewrite checked_sub_in_range by assumption. simpl.
    fold platformFee kolPayment.
    destruct (N.ltb_spec 0 platformFee) as [Hpos|Hzero]; simpl.
    + rewrite transfer_can_pay by (simpl; solve [lia | assumption]). simpl.
      rewrite transfer_can_pay by (simpl; solve [lia | assumption]). simpl.
      rewrite notifyTracker_ok by (simpl; assumption). simpl.
      unfold setBalance; simpl. do 3 f_equal. lia.
    + rewrite transfer_can_pay by (simpl; solve [lia | assumption]). simpl.
      rewrite notifyTracker_ok by (simpl; assumption). simpl.
      unfold setBalance; simpl. do 3 f_equal. lia.
  - lia.
  - subst platformFee.
    pose proof (N.div_mod' (totalAmount b * platformFeePercent s) 10000) as Hdm.
    assert (Hr : (totalAmount b * platformFeePercent s) mod 10000 < 10000)
      by (apply N.mod_lt; discriminate).
    revert Hdm Hr.
    generalize ((totalAmount b * platformFeePercent s) mod 10000).
    generalize (totalAmount b * platformFeePercent s / 10000).
    generalize (totalAmount b * platformFeePercent s).
    intros; lia.
  - reflexivity.
Qed.

Lemma releasePayment_splits_escrow_witness :
  totalAmount (getBooking accepted1000 1) = 1000
  /\ platformFeePercent accepted1000 = 250
  /\ exists s',
       releasePayment (by_ 7 95401) accepted1000 1
         = Ok (s', [(2, 25); (20, 975)])
       /\ balance s' = 0.
Proof.
  split; [crunch|]. split; [crunch|].
  destruct (releasePayment_splits_escrow (by_ 7 95401) accepted1000 1)
    as (H & _); [crunch .. |].
  vm_compute in H. eexists. split; [vm_compute; exact H | crunch].
Defined.

(** The release scenario of the specification: 200 at 2.5% is 5 for the fee
    recipient and 195 for the KOL. *)
Example splitPayment_200 : splitPayment 200 250 = Ok (5, 195).
Proof. reflexivity. Qed.

Lemma releasePayment_not_accepted (e : Env) (s : State) (id : N) :
  status (getBooking s id) <> Accepted ->
  releasePayment e s id = Revert "Cannot release payment".
Proof.
  intros Hst. unfold releasePayment.
  by rewrite canRelease_not_accepted.
Qed.

Lemma commit_revert (s : State) (r : result (State * list Transfer)) :
  is_ok r = false -> commit s r = (s, []).
Proof. destruct r as [[? ?]|?]; [discriminate | reflexivity]. Qed.

(** C3.  For a booking in status Accepted with [sessionEndTime] set: while
    [block.timestamp <= sessionEndTime + DISPUTE_PERIOD], [releasePayment]
    reverts and the state is unchanged; strictly later, with no dispute
    reported (and the payment going through, as in C2), it succeeds, pays
    [totalAmount] in total and leaves the booking Completed, after which
    every further [releasePayment] on it, from any caller at any time,
    reverts with "Cannot release payment", pays nothing and changes
    nothing. *)
Theorem releasePayment_window (e : Env) (s : State) (id : N) :
  let b := getBooking s id in
  status b = Accepted ->
  0 < sessionEndTime b ->
  (timestamp e <= sessionEndTime b + DISPUTE_PERIOD ->
     (exists r, releasePayment e s id = Revert r)
     /\ commit s (releasePayment e s id) = (s, []))
  /\ (sessionEndTime b + DISPUTE_PERIOD < timestamp e ->
      disputeReported b = false ->
      timestamp e <= MAX_UINT256 ->
      platformFeePercent s <= 10000 ->
      totalAmount b * platformFeePercent s <= MAX_UINT256 ->
      totalAmount b <= balance s ->
      accepts e (feeRecipient s) = true ->
      accepts e (kol b) = true ->
      reputationTracker s = 0
      \/ trackerOk e
           (TrackBookingCompleted (kol b) (buyer b) id
              (if ratingSubmitted b then rating b else 25)) = true ->
      exists s' paid,
        releasePayment e s id = Ok (s', paid)
        /\ total paid = totalAmount b
        /\ status (getBooking s' id) = Completed
        /\ forall e2 : Env,
             releasePayment e2 s' id = Revert "Cannot release payment"
             /\ commit s' (releasePayment e2 s' id) = (s', [])).
Proof.
  intros b Hst Hset. split.
  - intros Hearly.
    assert (H : exists r, releasePayment e s id = Revert r).
    { unfold releasePayment. fold b.
      destruct (canRelease_before e b Hearly) as [-> | ->]; simpl; eauto. }
    split; [exact H|]. destruct H as [r ->]. reflexivity.
  - intros Hlate Hd Hnow Hp Hmul Hbal Hfr Hk Ht.
    destruct (releasePayment_splits_escrow e s id Hst Hset Hd Hlate Hnow Hp
                Hmul Hbal Hfr Hk Ht) as (Hrel & Hsum & _).
    fold b in Hrel, Hsum.
    eexists _, _. split; [exact Hrel|].
    split.
    { by apply total_split. }
    assert (Hdone : status (getBooking (setBalance
              (setBooking s id
                 (with_updatedAt (with_status b Completed) (timestamp e)))
              (balance s - totalAmount b)) id) = Completed).
    { rewrite getBooking_setBalance, getBooking_setBooking. reflexivity. }
    split; [exact Hdone|].
    intros e2.
    rewrite releasePayment_not_accepted by (rewrite Hdone; discriminate).
    split; reflexivity.
Qed.

Lemma releasePayment_window_witness :
  (exists r, releasePayment (by_ 7 95400) accepted1000 1 = Revert r)
  /\ exists s' paid,
       releasePayment (by_ 7 95401) accepted1000 1 = Ok (s', paid)
       /\ total paid = 1000
       /\ releasePayment (by_ 7 95402) s' 1 = Revert "Cannot release payment".
Proof.
  destruct (releasePayment_window (by_ 7 95400) accepted1000 1)
    as (H & _); [crunch .. |].
  destruct H as (H & _); [crunch|].
  split; [exact H|].
  destruct (releasePayment_window (by_ 7 95401) accepted1000 1)
    as (_ & H'); [crunch .. |].
  destruct H' as (s' & paid & H1 & H2 & _ & H3); [crunch .. |].
  exists s', paid. split; [exact H1|]. split.
  - rewrite H2. crunch.
  - apply (H3 (by_ 7 95402)).
Defined.

(** C4.  For a booking in status Pending created at [createdAt]: from
    [createdAt + EXPIRY_PERIOD] on, [acceptBooking] reverts, also when the
    caller is the KOL (then with "Booking expired"), and changes nothing,
    while [handleExpiredBooking] succeeds whenever the refund goes through:
    the booking becomes Expired and exactly [totalAmount] is sent to the
    buyer.  Before that instant [handleExpiredBooking] reverts (with "Not
    expired yet") and changes nothing, while [acceptBooking] called by the
    KOL succeeds and sets the status to Accepted, unless the reputation hook
    reverts.  The two time guards are complementary: for a KOL caller, a
    hook that does not revert and a refund that can be paid, at every
    instant exactly one of [acceptBooking] and [handleExpiredBooking]
    succeeds: the first strictly before [createdAt + EXPIRY_PERIOD], the
    second from that instant on. *)
Theorem expiry_guards (e : Env) (s : State) (id : N) :
  let b := getBooking s id in
  status b = Pending ->
  (createdAt b + EXPIRY_PERIOD <= timestamp e ->
     (exists r, acceptBooking e s id = Revert r)
     /\ commit s (acceptBooking e s id) = (s, [])
     /\ (timestamp e <= MAX_UINT256 ->
         (sender e = kol b -> acceptBooking e s id = Revert "Booking expired")
         /\ (totalAmount b <= balance s -> accepts e (buyer b) = true ->
             handleExpiredBooking e s id
               = Ok (setBalance
                       (setBooking s id
                          (with_updatedAt (with_status b Expired)
                             (timestamp e)))
                       (balance s - totalAmount b),
                     [(buyer b, totalAmount b)]))))
  /\ (timestamp e < createdAt b + EXPIRY_PERIOD ->
      (exists r, handleExpiredBooking e s id = Revert r)
      /\ commit s (handleExpiredBooking e s id) = (s, [])
      /\ (createdAt b + EXPIRY_PERIOD <= MAX_UINT256 ->
          handleExpiredBooking e s id = Revert "Not expired yet"
          /\ (sender e = kol b ->
              reputationTracker s = 0
              \/ trackerOk e (TrackBookingAccepted (sender e) id) = true ->
              acceptBooking e s id
                = Ok (setBooking s id
                        (with_updatedAt (with_status b Accepted)
                           (timestamp e)),
                      []))))
  /\ (createdAt b + EXPIRY_PERIOD <= MAX_UINT256 ->
      sender e = kol b ->
      reputationTracker s = 0
      \/ trackerOk e (TrackBookingAccepted (sender e) id) = true ->
      totalAmount b <= balance s -> accepts e (buyer b) = true ->
      is_ok (acceptBooking e s id)
        = (timestamp e <? createdAt b + EXPIRY_PERIOD)
      /\ is_ok (handleExpiredBooking e s id)
           = (createdAt b + EXPIRY_PERIOD <=? timestamp e)
      /\ is_ok (acceptBooking e s id)
           = negb (is_ok (handleExpiredBooking e s id))).
Proof.
  intros b Hst.
  assert (Haccept : createdAt b + EXPIRY_PERIOD <= MAX_UINT256 ->
    sender e = kol b ->
    reputationTracker s = 0
    \/ trackerOk e (TrackBookingAccepted (sender e) id) = true ->
    acceptBooking e s id
    = if timestamp e <? createdAt b + EXPIRY_PERIOD
      then Ok (setBooking s id
                 (with_updatedAt (with_status b Accepted) (timestamp e)), [])
      else Revert "Booking expired").
  { intros Hrange Hs Hhook. unfold acceptBooking. fold b.
    rewrite Hs, N.eqb_refl. simpl.
    rewrite Hst, bool_decide_eq_true_2 by reflexivity. simpl.
    rewrite checked_add_in_range by assumption. simpl.
    destruct (timestamp e <? createdAt b + EXPIRY_PERIOD); [|reflexivity].
    simpl. rewrite notifyTracker_ok; [reflexivity|].
    simpl. rewrite <- Hs. exact Hhook. }
  assert (Hexpire : createdAt b + EXPIRY_PERIOD <= MAX_UINT256 ->
    handleExpiredBooking e s id
    = if createdAt b + EXPIRY_PERIOD <=? timestamp e
      then _refundBuyer e
             (setBooking s id
                (with_updatedAt (with_status b Expired) (timestamp e)))
             (with_updatedAt (with_status b Expired) (timestamp e))
      else Revert "Not expired yet").
  { intros Hrange. unfold handleExpiredBooking. fold b.
    rewrite Hst, bool_decide_eq_true_2 by reflexivity. simpl.
    rewrite checked_add_in_range by assumption. simpl.
    destruct (createdAt b + EXPIRY_PERIOD <=? timestamp e); reflexivity. }
  assert (Hrefund : totalAmount b <= balance s -> accepts e (buyer b) = true ->
    _refundBuyer e
      (setBooking s id
         (with_updatedAt (with_status b Expired) (timestamp e)))
      (with_updatedAt (with_status b Expired) (timestamp e))
    = Ok (setBalance
            (setBooking s id
               (with_updatedAt (with_status b Expired) (timestamp e)))
            (balance s - totalAmount b),
          [(buyer b, totalAmount b)])).
  { intros Hbal Hacc. unfold _refundBuyer.
    rewrite transfer_can_pay by (simpl; assumption). reflexivity. }
  split; [|split].
  - intros Hlate.
    assert (H : exists r, acceptBooking e s id = Revert r).
    { unfold acceptBooking. fold b.
      destruct (kol b =? sender e); simpl; [|eauto].
      rewrite Hst, bool_decide_eq_true_2 by reflexivity. simpl.
      unfold checked_add.
      destruct (N.leb_spec (createdAt b + EXPIRY_PERIOD) MAX_UINT256);
        simpl; [|eauto].
      replace (_ <? _) with false by (symmetry; apply N.ltb_ge; lia).
      simpl. eauto. }
    split; [exact H|]. split.
    { destruct H as [r ->]. reflexivity. }
    intros Hnow. split.
    + intros Hs. unfold acceptBooking. fold b.
      rewrite Hs, N.eqb_refl. simpl.
      rewrite Hst, bool_decide_eq_true_2 by reflexivity. simpl.
      rewrite checked_add_in_range by lia. simpl.
      replace (_ <? _) with false by (symmetry; apply N.ltb_ge; lia).
      reflexivity.
    + intros Hbal Hacc. rewrite Hexpire by lia.
      replace (_ <=? _) with true by (symmetry; apply N.leb_le; lia).
      by apply Hrefund.
  - intros Hearly.
    assert (H : exists r, handleExpiredBooking e s id = Revert r).
    { unfold handleExpiredBooking. fold b.
      rewrite Hst, bool_decide_eq_true_2 by reflexivity. simpl.
      unfold checked_add.
      destruct (N.leb_spec (createdAt b + EXPIRY_PERIOD) MAX_UINT256);
        simpl; [|eauto].
      replace (_ <=? _) with false by (symmetry; apply N.leb_gt; lia).
      simpl. eauto. }
    split; [exact H|]. split.
    { destruct H as [r ->]. reflexivity. }
    intros Hrange. split.
    + rewrite Hexpire by assumption.
      replace (_ <=? _) with false by (symmetry; apply N.leb_gt; lia).
      reflexivity.
    + intros Hs Hhook. rewrite Haccept by assumption.
      replace (_ <? _) with true by (symmetry; apply N.ltb_lt; lia).
      reflexivity.
  - intros Hrange Hs Hhook Hbal Hacc.
    rewrite Haccept, Hexpire by assumption.
    rewrite Hrefund by assumption.
    destruct (N.ltb_spec (timestamp e) (createdAt b + EXPIRY_PERIOD));
      destruct (N.leb_spec (createdAt b + EXPIRY_PERIOD) (timestamp e));
      simpl; repeat split; try reflexivity; lia.
Qed.

Lemma expiry_guards_witness :
  acceptBooking (by_ 20 433000) pending200 1 = Revert "Booking expired"
  /\ (exists s',
        handleExpiredBooking (by_ 7 433000) pending200 1
          = Ok (s', [(10, 200)])
        /\ status (getBooking s' 1) = Expired)
  /\ handleExpiredBooking (by_ 7 432999) pending200 1
     = Revert "Not expired yet"
  /\ (exists s',
        acceptBooking (by_ 20 432999) pending200 1 = Ok (s', [])
        /\ status (getBooking s' 1) = Accepted)
  /\ is_ok (acceptBooking (by_ 20 432999) pending200 1)
     = negb (is_ok (handleExpiredBooking (by_ 20 432999) pending200 1)).
Proof.
  destruct (expiry_guards (by_ 20 433000) pending200 1)
    as (H & _); [crunch|].
  destruct H as (_ & _ & H1); [crunch|].
  destruct H1 as (H1 & _); [crunch|].
  split; [apply H1; crunch|].
  destruct (expiry_guards (by_ 7 433000) pending200 1)
    as (H & _); [crunch|].
  destruct H as (_ & _ & H2); [crunch|].
  destruct H2 as (_ & H2); [crunch|].
  split.
  { specialize (H2 ltac:(crunch) ltac:(crunch)). vm_compute in H2.
    eexists. split; [vm_compute; exact H2 | crunch]. }
  destruct (expiry_guards (by_ 7 432999) pending200 1)
    as (_ & H & _); [crunch|].
  destruct H as (_ & _ & H3); [crunch|].
  destruct H3 as (H3 & _); [crunch|].
  split; [exact H3|].
  destruct (expiry_guards (by_ 20 432999) pending200 1)
    as (_ & H & H5); [crunch|].
  destruct H as (_ & _ & H4); [crunch|].
  destruct H4 as (_ & H4); [crunch|].
  specialize (H4 ltac:(crunch) ltac:(crunch)).
  split.
  { vm_compute in H4. eexists. split; [vm_compute; exact H4 | crunch]. }
  destruct H5 as (_ & _ & H5); [crunch ..|].
  exact H5.
Defined.

Lemma checked_revert (r : string) (a b : N) :
  checked_add a b = Revert r \/ checked_sub a b = Revert r
  \/ checked_mul a b = Revert r ->
  r = PANIC_ARITH.
Proof.
  unfold checked_add, checked_sub, checked_mul.
  intros [H|[H|H]]; revert H;
    match goal with |- context [if ?c then _ else _] => destruct c end;
    congruence.
Qed.

(** C5.  A [createBooking] call whose [msg.value] differs from
    [_pricePerSlot * _totalSlots] reverts with one of the validation
    failures of the function, "Incorrect payment amount" when the earlier
    checks pass; the state is unchanged: no booking stored, no ticket minted,
    nothing escrowed, no list extended. *)
Theorem createBooking_wrong_payment (e : Env) (s : State) (value : N)
  (_kol : address) (_pricePerSlot _totalSlots _fromTime _toTime : N)
  (_reason _tokenURI : string) :
  value <> _pricePerSlot * _totalSlots ->
  let r := createBooking e s value _kol _pricePerSlot _totalSlots _fromTime
             _toTime _reason _tokenURI in
  (exists msg, r = Revert msg /\ In msg createBookingErrors)
  /\ commit s r = (s, [])
  /\ (_kol <> 0 -> _kol <> sender e -> 0 < _totalSlots ->
      timestamp e < _fromTime -> _fromTime < _toTime ->
      MIN_SLOT_DURATION * _totalSlots <= _toTime - _fromTime ->
      _toTime <= MAX_UINT256 ->
      _pricePerSlot * _totalSlots <= MAX_UINT256 ->
      r = Revert "Incorrect payment amount").
Proof.
  intros Hne r.
  assert (H : exists msg, r = Revert msg /\ In msg createBookingErrors).
  { subst r. unfold createBooking.
    repeat match goal with
    | |- context [require ?c ?m] =>
        destruct c eqn:?; simpl;
        [| eexists; split; [reflexivity | simpl; tauto]]
    end.
    destruct (checked_sub _ _) as [duration|r] eqn:E1; simpl.
    2: { exists r. split; [reflexivity|].
         rewrite (checked_revert r _toTime _fromTime) by auto. simpl; tauto. }
    destruct (checked_mul MIN_SLOT_DURATION _totalSlots) as [minDuration|r] eqn:E2; simpl.
    2: { exists r. split; [reflexivity|].
         rewrite (checked_revert r MIN_SLOT_DURATION _totalSlots) by auto.
         simpl; tauto. }
    destruct (minDuration <=? duration); simpl.
    2: { eexists; split; [reflexivity | simpl; tauto]. }
    destruct (checked_mul _pricePerSlot _totalSlots) as [amount|r] eqn:E3; simpl.
    2: { exists r. split; [reflexivity|].
         rewrite (checked_revert r _pricePerSlot _totalSlots) by auto.
         simpl; tauto. }
    apply checked_mul_ok in E3 as [-> _].
    replace (_ =? _) with false by (symmetry; by apply N.eqb_neq).
    eexists; split; [reflexivity | simpl; tauto]. }
  split; [exact H|]. split.
  { destruct H as (msg & -> & _). reflexivity. }
  intros Hk Hself Hslots Hfrom Hto Hdur Hrange Hmul. subst r.
  unfold createBooking.
  replace (_kol =? 0) with false by (symmetry; by apply N.eqb_neq).
  replace (_kol =? sender e) with false by (symmetry; by apply N.eqb_neq).
  replace (0 <? _totalSlots) with true by (symmetry; by apply N.ltb_lt).
  replace (timestamp e <? _fromTime) with true by (symmetry; by apply N.ltb_lt).
  replace (_fromTime <? _toTime) with true by (symmetry; by apply N.ltb_lt).
  simpl. rewrite checked_sub_in_range by lia. simpl.
  rewrite (checked_mul_in_range MIN_SLOT_DURATION _totalSlots) by lia. simpl.
  replace (MIN_SLOT_DURATION * _totalSlots <=? _toTime - _fromTime)
    with true by (symmetry; by apply N.leb_le).
  simpl. rewrite checked_mul_in_range by assumption. simpl.
  replace (value =? _pricePerSlot * _totalSlots)
    with false by (symmetry; by apply N.eqb_neq).
  reflexivity.
Qed.

Lemma createBooking_wrong_payment_witness :
  199 <> 100 * 2
  /\ commit deployed
       (createBooking (by_ 10 1000) deployed 199 20 100 2 4600 8200
          "consultation" "ipfs://ticket") = (deployed, []).
Proof.
  split; [discriminate|].
  apply (createBooking_wrong_payment (by_ 10 1000) deployed 199 20 100 2
           4600 8200 "consultation" "ipfs://ticket"). discriminate.
Defined.

(** C6, as amended.  For a booking in status Accepted, [completeSession]
    called by the KOL at or after [toTime] succeeds, records
    [sessionEndTime = block.timestamp] and leaves the status Accepted,
    whether or not [sessionEndTime] was set before: a repeated call
    overwrites it. *)
Theorem completeSession_records_end (e : Env) (s : State) (id : N) :
  let b := getBooking s id in
  status b = Accepted ->
  sender e = kol b ->
  toTime b <= timestamp e ->
  exists s',
    completeSession e s id = Ok (s', [])
    /\ s' = setBooking s id
              (with_updatedAt (with_sessionEndTime b (timestamp e))
                 (timestamp e))
    /\ sessionEndTime (getBooking s' id) = timestamp e
    /\ status (getBooking s' id) = Accepted.
Proof.
  intros b Hst Hs Hto. eexists. split; [|split; [reflexivity|]].
  - unfold completeSession. fold b. rewrite Hs, N.eqb_refl. simpl.
    rewrite Hst, bool_decide_eq_true_2 by reflexivity. simpl.
    replace (_ <=? _) with true by (symmetry; by apply N.leb_le).
    reflexivity.
  - rewrite getBooking_setBooking. simpl. auto.
Qed.

Lemma completeSession_records_end_witness :
  sessionEndTime (getBooking accepted1000 1) = 9000
  /\ exists s',
       completeSession (by_ 20 9500) accepted1000 1 = Ok (s', [])
       /\ sessionEndTime (getBooking s' 1) = 9500.
Proof.
  split; [reflexivity|].
  destruct (completeSession_records_end (by_ 20 9500) accepted1000 1)
    as (s' & H1 & _ & H2 & _); [reflexivity | reflexivity | discriminate |].
  exists s'. split; [exact H1 | exact H2].
Defined.

(** C6 as stated fails: booking 1 of [accepted1000] had its session marked
    complete at time 9000; the KOL's second [completeSession] at 9500 is not
    rejected and moves [sessionEndTime] to 9500. *)
Lemma completeSession_not_once :
  status (getBooking accepted1000 1) = Accepted
  /\ sessionEndTime (getBooking accepted1000 1) = 9000
  /\ is_ok (completeSession (by_ 20 9500) accepted1000 1) = true
  /\ sessionEndTime
       (getBooking (commit accepted1000
          (completeSession (by_ 20 9500) accepted1000 1)).1 1) = 9500.
Proof. vm_compute. repeat split. Qed.

(** ** Solvency *)

Lemma owedSum_insert_fresh (m : gmap N Booking) (i : N) (b : Booking) :
  m !! i = None -> owedSum (<[i:=b]> m) = owed b + owedSum m.
Proof.
  intros Hi. unfold owedSum.
  apply (map_fold_insert_L (fun _ b acc => owed b + acc)); [|exact Hi].
  intros. lia.
Qed.

Lemma owedSum_delete (m : gmap N Booking) (i : N) (b : Booking) :
  m !! i = Some b -> owedSum m = owed b + owedSum (delete i m).
Proof.
  intros Hi. unfold owedSum.
  apply (map_fold_delete_L (fun _ b acc => owed b + acc)); [|exact Hi].
  intros. lia.
Qed.

Lemma owedSum_insert (m : gmap N Booking) (i : N) (b : Booking) :
  owedSum (<[i:=b]> m) + owed (default zeroBooking (m !! i))
  = owed b + owedSum m.
Proof.
  destruct (m !! i) as [b0|] eqn:Hi; simpl.
  - rewrite (owedSum_delete m i b0 Hi).
    rewrite <- (insert_delete_eq m i b).
    rewrite owedSum_insert_fresh by apply lookup_delete_eq. lia.
  - rewrite owedSum_insert_fresh by exact Hi. unfold owed; simpl. lia.
Qed.

Lemma setBalance_same (s : State) (i : N) (b : Booking) :
  setBooking s i b = setBalance (setBooking s i b) (balance s - 0).
Proof. unfold setBalance, setBooking; simpl. f_equal. lia. Qed.

(** The shape of the state after a successful call: one booking record
    rewritten, the balance lowered by what was paid, and the amount owed on
    the booking lowered by the same. *)
Lemma dispatch_pays (e : Env) (s s' : State) (c : Call)
  (paid : list Transfer) :
  dispatch e s c = Ok (s', paid) ->
  exists b',
    s' = setBalance (setBooking s (target c) b') (balance s - total paid)
    /\ total paid <= balance s
    /\ owed b' + total paid = owed (getBooking s (target c)).
Proof.
  assert (Hrefund : forall (st : BookingStatus) (i : N) (s0 : State),
    terminal st = true ->
    status (getBooking s i) = Pending ->
    _refundBuyer e s0
      (with_updatedAt (with_status (getBooking s i) st) (timestamp e))
      = Ok (s', paid) ->
    s0 = setBooking s i
           (with_updatedAt (with_status (getBooking s i) st) (timestamp e)) ->
    exists b',
      s' = setBalance (setBooking s i b') (balance s - total paid)
      /\ total paid <= balance s
      /\ owed b' + total paid = owed (getBooking s i)).
  { intros st i s0 Hterm Hp H ->. unfold _refundBuyer in H. peel H.
    apply transfer_ok in E as (-> & Hle & _). subst. simpl in *.
    eexists. unfold total; simpl. rewrite N.add_0_r.
    split; [reflexivity|]. split; [exact Hle|].
    unfold owed; simpl. rewrite Hterm, Hp. simpl. lia. }
  assert (Hquiet : forall (i : N) (b' : Booking),
    owed b' = owed (getBooking s i) ->
    exists b0,
      setBooking s i b' = setBalance (setBooking s i b0) (balance s - total [])
      /\ total [] <= balance s
      /\ owed b0 + total [] = owed (getBooking s i)).
  { intros i b' Ho. exists b'. split; [apply setBalance_same|].
    unfold total; simpl. split; lia. }
  destruct c as [i|i|i|i|i r|i r|i|i]; simpl; intros H.
  - unfold acceptBooking in H. peel H. peel_requires. subst.
    apply Hquiet. unfold owed; simpl. by rewrite E0.
  - unfold rejectBooking in H. peel H. peel_requires.
    by eapply (Hrefund Rejected).
  - unfold cancelBooking in H. peel H. peel_requires.
    by eapply (Hrefund Cancelled).
  - unfold completeSession in H. peel H. peel_requires. subst.
    apply Hquiet. reflexivity.
  - unfold reportDispute in H. peel H. peel_requires. subst.
    apply Hquiet. unfold owed; simpl. by rewrite E0.
  - unfold rateSession in H. peel H. peel_requires. subst.
    apply Hquiet. reflexivity.
  - apply releasePayment_ok in H
      as (G & fee & kp & Hsplit & Hpaid & Hle & ->).
    apply canRelease_true in G as (G & _).
    apply splitPayment_sum in Hsplit as [_ Hsum].
    eexists. split; [reflexivity|]. split; [exact Hle|].
    rewrite Hpaid, (total_split _ _ _ _ _ Hsum).
    unfold owed; simpl. rewrite G. simpl. lia.
  - unfold handleExpiredBooking in H. peel H. peel_requires.
    by eapply (Hrefund Expired).
Qed.

Lemma dispatch_keeps_solvent (e : Env) (s s' : State) (c : Call)
  (paid : list Transfer) :
  dispatch e s c = Ok (s', paid) -> solvent s -> solvent s'.
Proof.
  intros H Hs. apply dispatch_pays in H as (b' & -> & Hle & Howed).
  unfold solvent, escrowed in *. simpl.
  pose proof (owedSum_insert (bookings s) (target c) b') as Hsum.
  fold (getBooking s (target c)) in Hsum. lia.
Qed.

Lemma createBooking_keeps_solvent (e : Env) (s s' : State) (value : N)
  (_kol : address) (_pricePerSlot _totalSlots _fromTime _toTime : N)
  (_reason _tokenURI : string) (paid : list Transfer) :
  createBooking e s value _kol _pricePerSlot _totalSlots _fromTime _toTime
    _reason _tokenURI = Ok (s', paid) ->
  solvent s -> solvent s'.
Proof.
  unfold createBooking. intros H Hs. peel H.
  repeat match goal with
  | G : _safeMint _ _ _ _ = Ok _ |- _ => unfold _safeMint in G; peel G
  | G : _setTokenURI _ _ _ = Ok _ |- _ => unfold _setTokenURI in G; peel G
  end.
  peel_requires. subst. unfold solvent, escrowed in *. simpl.
  match goal with
  | |- owedSum (<[?i:=?b]> _) <= _ =>
      pose proof (owedSum_insert (bookings s) i b) as Hsum
  end.
  unfold owed at 2 in Hsum. simpl in Hsum. lia.
Qed.

Lemma run_keeps_solvent (calls : list (Env * Call)) :
  forall s : State, solvent s -> solvent (run s calls).1.
Proof.
  induction calls as [|[e c] rest IH]; intros s Hs; simpl; [exact Hs|].
  unfold step; simpl.
  destruct (dispatch e s c) as [[s1 paid1]|r] eqn:D; simpl.
  - specialize (IH s1 (dispatch_keeps_solvent _ _ _ _ _ D Hs)).
    destruct (run s1 rest). exact IH.
  - specialize (IH s Hs). destruct (run s rest). exact IH.
Qed.

Lemma constructor_solvent (e : Env) (_feeRecipient : address) :
  solvent (constructor e _feeRecipient).
Proof. unfold solvent, escrowed, owedSum; simpl. rewrite map_fold_empty. lia. Qed.

(** A solvent contract can pay what it owes on any booking. *)
Lemma solvent_can_pay (s : State) (i : N) (b : Booking) :
  solvent s -> bookings s !! i = Some b -> owed b <= balance s.
Proof.
  unfold solvent, escrowed. intros Hs Hi.
  rewrite (owedSum_delete _ _ _ Hi) in Hs. lia.
Qed.
(** C10.  [emergencyWithdraw] reverts for every caller but the owner; for
    the owner (an account that takes the transfer) it succeeds in every
    state and sends the whole balance of the contract to the owner.  No
    booking record changes, so the escrow owed on the open bookings is what
    it was, while the balance that covered it is gone: if anything was owed,
    the contract is insolvent afterwards. *)
Theorem emergencyWithdraw_drains (e : Env) (s : State) :
  (sender e <> owner s ->
     emergencyWithdraw e s = Revert "Ownable: caller is not the owner")
  /\ (sender e = owner s -> accepts e (owner s) = true ->
      exists s',
        emergencyWithdraw e s = Ok (s', [(owner s, balance s)])
        /\ balance s' = 0
        /\ bookings s' = bookings s
        /\ (forall id, getBooking s' id = getBooking s id)
        /\ escrowed s' = escrowed s
        /\ (0 < escrowed s -> ~ solvent s')).
Proof.
  split.
  - intros Hne. unfold emergencyWithdraw, onlyOwner.
    replace (_ =? _) with false by (symmetry; apply N.eqb_neq; congruence).
    reflexivity.
  - intros Hs Hacc. unfold emergencyWithdraw, onlyOwner.
    rewrite Hs, N.eqb_refl. simpl.
    rewrite transfer_can_pay by (simpl; solve [lia | assumption]). simpl.
    eexists. split; [reflexivity|]. unfold solvent, escrowed. simpl.
    repeat split; lia.
Qed.

Lemma emergencyWithdraw_drains_witness :
  escrowed pending200 = 200
  /\ exists s',
       emergencyWithdraw (by_ 1 5000) pending200 = Ok (s', [(1, 200)])
       /\ balance s' = 0
       /\ status (getBooking s' 1) = Pending
       /\ escrowed s' = 200.
Proof.
  split; [crunch|].
  destruct (emergencyWithdraw_drains (by_ 1 5000) pending200)
    as (_ & H).
  destruct H as (s' & H1 & H2 & _ & H4 & H5 & _); [crunch .. |].
  exists s'. split; [vm_compute in H1; vm_compute; exact H1|].
  split; [exact H2|]. split; [rewrite H4; crunch | rewrite H5; crunch].
Defined.

End Escrow.

(** * Properties of the reputation components *)

Section ReputationProofs.
Import Reputation.


Lemma weightedScore_ok (a b c t : N) :
  weightedScore a b c = Ok t ->
  t = (a * 50 + b * 40 + c * 10) / 100
  /\ a * 50 + b * 40 + c * 10 <= MAX_UINT256.
Proof.
  unfold weightedScore. intros H. peel H. peel_requires. subst. auto.
Qed.

Lemma weightedScore_in_range (a b c : N) :
  a * 50 + b * 40 + c * 10 <= MAX_UINT256 ->
  weightedScore a b c = Ok ((a * 50 + b * 40 + c * 10) / 100).
Proof.
  intros H. unfold weightedScore.
  rewrite (checked_mul_in_range a 50) by lia. simpl.
  rewrite (checked_mul_in_range b 40) by lia. simpl.
  rewrite checked_add_in_range by lia. simpl.
  rewrite (checked_mul_in_range c 10) by lia. simpl.
  rewrite checked_add_in_range by lia. reflexivity.
Qed.

Lemma tokenOf_setData (n : NFT) (t : N) (d : ReputationData) (u : address) :
  tokenOf (setData n t d) u = tokenOf n u.
Proof. reflexivity. Qed.

Lemma dataOf_setData (n : NFT) (t : N) (d : ReputationData) :
  dataOf (setData n t d) t = d.
Proof. unfold dataOf, setData; simpl. by rewrite lookup_insert_eq. Qed.

Lemma dataOf_setData_ne (n : NFT) (t t' : N) (d : ReputationData) :
  t <> t' -> dataOf (setData n t d) t' = dataOf n t'.
Proof. intros. unfold dataOf, setData; simpl. by rewrite lookup_insert_ne. Qed.

Lemma refreshTokenURI_ok (n : NFT) (t : N) (u : unit) :
  refreshTokenURI n t = Ok u -> is_Some (_owners n !! t).
Proof.
  unfold refreshTokenURI, ownerOf. destruct (_owners n !! t); [eauto | discriminate].
Qed.

Lemma refreshTokenURI_minted (n : NFT) (t : N) :
  is_Some (_owners n !! t) -> refreshTokenURI n t = Ok tt.
Proof.
  intros [a Ha]. unfold refreshTokenURI, ownerOf. by rewrite Ha.
Qed.

(** What a successful [updateReputation] has written. *)
Lemma updateReputation_ok (e : Env) (n n' : NFT) (user : address)
  (on so th tc vol bc avg : N) :
  updateReputation e n user on so th tc vol bc avg = Ok n' ->
  let t := tokenOf n user in
  t <> 0 /\ isAuthorized e n = true /\ is_Some (_owners n !! t)
  /\ exists total,
       weightedScore on so th = Ok total
       /\ n' = setData n t
                 (mkReputationData total on so th (_calculateLevel n total)
                    tc vol bc avg (timestamp e) (isKOL (dataOf n t))).
Proof.
  unfold updateReputation. intros H. peel H.
  apply refreshTokenURI_ok in E2. simpl in E2.
  peel_requires. subst. repeat split; auto. eauto.
Qed.

Lemma updateReputation_succeeds (e : Env) (n : NFT) (user : address)
  (on so th tc vol bc avg : N) :
  tokenOf n user <> 0 -> isAuthorized e n = true ->
  is_Some (_owners n !! tokenOf n user) ->
  on * 50 + so * 40 + th * 10 <= MAX_UINT256 ->
  exists n', updateReputation e n user on so th tc vol bc avg = Ok n'.
Proof.
  intros Ht Ha Hm Hr. unfold updateReputation.
  rewrite Ha. simpl.
  replace (tokenOf n user =? 0) with false by (symmetry; by apply N.eqb_neq).
  simpl. rewrite weightedScore_in_range by assumption. simpl.
  rewrite refreshTokenURI_minted by (simpl; assumption). simpl. eauto.
Qed.

(** What a successful [_updateUserReputation] of a registered user has
    done. *)
Lemma _updateUserReputation_ok (e : Env) (s s' : State) (user : address)
  (activityType : string) (pointsEarned : N) :
  tokenOf (reputationNFT s) user <> 0 ->
  _updateUserReputation e s user activityType pointsEarned = Ok s' ->
  exists on so th total,
    calculateOnchainScore s user = Ok on
    /\ calculateSocialScore s user = Ok so
    /\ calculateTokenHoldingScore s user = Ok th
    /\ weightedScore on so th = Ok total
    /\ s' = setNFT s
         (setData (reputationNFT s) (tokenOf (reputationNFT s) user)
            (mkReputationData total on so th
               (_calculateLevel (reputationNFT s) total)
               (totalTransactions (activityOf s user))
               (totalVolumeTraded (activityOf s user))
               (totalBookingsCompleted (activityOf s user))
               (if 0 <? totalRatingCount (activityOf s user)
                then totalRatingSum (activityOf s user)
                     / totalRatingCount (activityOf s user)
                else 0)
               (timestamp e)
               (isKOL (dataOf (reputationNFT s)
                         (tokenOf (reputationNFT s) user))))).
Proof.
  intros Ht. unfold _updateUserReputation.
  replace (tokenOf (reputationNFT s) user =? 0) with false
    by (symmetry; by apply N.eqb_neq).
  intros H. peel H.
  apply updateReputation_ok in E2 as (_ & _ & _ & total & Hw & ->).
  subst. exists x, x0, x1, total. auto.
Qed.

Lemma level_default (n : NFT) (score : N) :
  levelThresholds n = defaultThresholds ->
  (5000 <= score -> _calculateLevel n score = Diamond)
  /\ (3000 <= score < 5000 -> _calculateLevel n score = Gold)
  /\ (1000 <= score < 3000 -> _calculateLevel n score = Silver)
  /\ (score < 1000 -> _calculateLevel n score = Bronze).
Proof.
  intros Hd. unfold _calculateLevel. rewrite Hd. simpl.
  destruct (N.leb_spec 5000 score), (N.leb_spec 3000 score),
    (N.leb_spec 1000 score); repeat split; intros; try reflexivity; lia.
Qed.


Lemma floor_bounds (a d : N) :
  d <> 0 -> a / d * d <= a < (a / d + 1) * d.
Proof.
  intros Hd. pose proof (N.div_mod' a d) as Hdm.
  pose proof (N.mod_lt a d Hd) as Hr.
  revert Hdm Hr. generalize (a mod d). generalize (a / d). intros; lia.
Qed.

Lemma product_within (B a b : N) : a <= B -> b <= B -> a * b <= B * B.
Proof. intros. by apply N.mul_le_mono. Qed.

Lemma quotient_le (a b : N) : a / b <= a.
Proof.
  destruct (N.eq_dec b 0) as [->|Hb].
  - rewrite N.div_0_r. lia.
  - apply N.Div0.div_le_upper_bound. nia.
Qed.

(** Below [2 * LIMIT] the on-chain score fits: six products, each at most
    [2^130]. *)
Lemma calculateOnchainScore_succeeds (s : State) (user : address) :
  activityWithin (2 * LIMIT) (activityOf s user) ->
  configWithin (2 * LIMIT) (pointConfig s) ->
  exists on, calculateOnchainScore s user = Ok on /\ on <= 2 ^ 133.
Proof.
  intros (H1 & H2 & H3 & H4 & H5 & H6 & H7) (C1 & C2 & C3 & C4 & C5 & C6 & C7).
  unfold calculateOnchainScore.
  set (a := activityOf s user) in *. set (c := pointConfig s) in *.
  pose proof (product_within _ _ _ H1 C1) as P1.
  pose proof (product_within _ _ _ H2 C2) as P2.
  pose proof (quotient_le (totalVolumeTraded a * volumeMultiplier c) ONE_ETHER)
    as Q2.
  pose proof (product_within _ _ _ H4 C3) as P3.
  pose proof (product_within _ _ _ H3 C4) as P4.
  pose proof (product_within _ _ _ H5 C5) as P5.
  pose proof (product_within _ _ _ C6 H5) as P6.
  unfold LIMIT, ONE_ETHER in *.
  assert (R : 0 < totalRatingCount a -> True) by auto.
  rewrite (checked_mul_in_range (totalTransactions a))
    by (unfold MAX_UINT256; lia).
  simpl. rewrite checked_add_in_range by (unfold MAX_UINT256; lia). simpl.
  rewrite (checked_mul_in_range (totalVolumeTraded a))
    by (unfold MAX_UINT256; lia).
  simpl. rewrite checked_add_in_range by (unfold MAX_UINT256; lia). simpl.
  rewrite (checked_mul_in_range (totalBookingsAsBuyer a))
    by (unfold MAX_UINT256; lia).
  simpl. rewrite checked_add_in_range by (unfold MAX_UINT256; lia). simpl.
  rewrite (checked_mul_in_range (totalBookingsAsKOL a))
    by (unfold MAX_UINT256; lia).
  simpl. rewrite checked_add_in_range by (unfold MAX_UINT256; lia). simpl.
  rewrite (checked_mul_in_range (totalBookingsCompleted a))
    by (unfold MAX_UINT256; lia).
  simpl. rewrite checked_add_in_range by (unfold MAX_UINT256; lia). simpl.
  destruct (0 <? totalRatingCount a);
    [destruct (45 <=? totalRatingSum a / totalRatingCount a)|].
  - rewrite (checked_mul_in_range (highRatingBonus c))
      by (unfold MAX_UINT256; lia).
    simpl. rewrite checked_add_in_range by (unfold MAX_UINT256; lia).
    eexists. split; [reflexivity | lia].
  - eexists. split; [reflexivity | lia].
  - eexists. split; [reflexivity | lia].
Qed.

Lemma calculateSocialScore_succeeds (s : State) (user : address) :
  socialWithin (2 * LIMIT) (socialOf s user) ->
  exists so, calculateSocialScore s user = Ok so /\ so <= 2 ^ 133.
Proof.
  intros (H1 & H2 & H3 & H4). unfold calculateSocialScore.
  set (m := socialOf s user) in *. unfold LIMIT in *.
  pose proof (quotient_le (xFollowers m) 10).
  pose proof (quotient_le (xEngagement m) 5).
  destruct (xConnected m), (discordConnected m), (githubConnected m);
    cbn [mbind result_bind mret result_ret];
    repeat first
      [ rewrite (checked_mul_in_range (githubContributions m))
          by (unfold MAX_UINT256; lia)
      | rewrite checked_add_in_range by (unfold MAX_UINT256; lia)
      | progress cbn [mbind result_bind mret result_ret] ];
    (eexists; split; [reflexivity | lia]).
Qed.

Lemma scores_succeed (s : State) (user : address) :
  within (2 * LIMIT) s user ->
  exists on so th,
    calculateOnchainScore s user = Ok on
    /\ calculateSocialScore s user = Ok so
    /\ calculateTokenHoldingScore s user = Ok th
    /\ on * 50 + so * 40 + th * 10 <= MAX_UINT256.
Proof.
  intros (Ha & Hc & Hm & Hh).
  destruct (calculateOnchainScore_succeeds s user Ha Hc) as (on & Hon & Bon).
  destruct (calculateSocialScore_succeeds s user Hm) as (so & Hso & Bso).
  exists on, so, (holdingsOf s user / (100 * ONE_ETHER)).
  repeat split; try assumption.
  pose proof (quotient_le (holdingsOf s user) (100 * ONE_ETHER)).
  unfold LIMIT, MAX_UINT256 in *. lia.
Qed.


Lemma _updateUserReputation_succeeds (e : Env) (s : State) (user : address)
  (activityType : string) (pointsEarned : N) :
  within (2 * LIMIT) s user ->
  tokenOf (reputationNFT s) user = 0
  \/ (trackerAuthorized s = true
      /\ is_Some (_owners (reputationNFT s)
                    !! tokenOf (reputationNFT s) user)) ->
  exists s', _updateUserReputation e s user activityType pointsEarned = Ok s'.
Proof.
  intros Hw Hn. unfold _updateUserReputation.
  destruct (N.eqb_spec (tokenOf (reputationNFT s) user) 0) as [Hz|Hnz];
    [eexists; reflexivity|].
  destruct Hn as [Hz | [Hauth Hminted]]; [contradiction|].
  destruct (scores_succeed s user Hw) as (on & so & th & -> & -> & -> & Hr).
  cbn [mbind result_bind].
  destruct (updateReputation_succeeds (asTracker e s) (reputationNFT s) user
              on so th (totalTransactions (activityOf s user))
              (totalVolumeTraded (activityOf s user))
              (totalBookingsCompleted (activityOf s user))
              (if 0 <? totalRatingCount (activityOf s user)
               then totalRatingSum (activityOf s user)
                    / totalRatingCount (activityOf s user)
               else 0) Hnz Hauth Hminted Hr) as (n' & ->).
  eexists. reflexivity.
Qed.

Section NftInvariant.

Variable P : NFT -> Prop.

Hypothesis P_mint :
  forall (e : Env) (n n' : NFT) (to : address) (t : N),
  mintReputationNFT e n to = Ok (n', t) -> P n -> P n'.

Hypothesis P_update :
  forall (e : Env) (n n' : NFT) (u : address) (on so th tc vol bc avg : N),
  updateReputation e n u on so th tc vol bc avg = Ok n' -> P n -> P n'.

Hypothesis P_flag :
  forall (e : Env) (n n' : NFT) (u : address),
  setKOLStatus e n u true = Ok n' -> P n -> P n'.

Lemma _updateUserReputation_keeps (e : Env) (s s' : State) (u : address)
  (activityType : string) (pointsEarned : N) :
  _updateUserReputation e s u activityType pointsEarned = Ok s' ->
  P (reputationNFT s) -> P (reputationNFT s').
Proof.
  unfold _updateUserReputation.
  destruct (tokenOf (reputationNFT s) u =? 0).
  - intros [= <-]. auto.
  - intros H. peel H. subst. simpl. eapply P_update; eauto.
Qed.

Lemma updateAll_keeps (e : Env) (users : list address) :
  forall s s' : State,
  updateAll e s users = Ok s' ->
  P (reputationNFT s) -> P (reputationNFT s').
Proof.
  induction users as [|u rest IH]; simpl; intros s s' H Hf.
  - injection H as <-. exact Hf.
  - peel H. eapply IH; [exact H|].
    eapply _updateUserReputation_keeps; eauto.
Qed.

(** Through the tracker the token contract is only ever asked to mint, to
    store fresh scores and to raise a KOL flag. *)
Lemma tracker_keeps (e : Env) (s s' : State) (op : Op) :
  viaTracker op = true ->
  exec e s op = Ok s' ->
  P (reputationNFT s) -> P (reputationNFT s').
Proof.
  intros Hop H Hf.
  destruct op; try discriminate Hop; simpl in H.
  - unfold registerUser in H. peel H.
    match goal with
    | G : mintReputationNFT _ _ _ = Ok ?r |- _ => destruct r as [n t0]
    end.
    peel H. subst. simpl. eapply P_mint; eauto.
  - unfold trackTransaction in H. peel H. subst.
    match goal with
    | G : _updateUserReputation _ _ _ _ _ = Ok _ |- _ =>
        exact (_updateUserReputation_keeps _ _ _ _ _ _ G Hf)
    end.
  - unfold trackBookingCreated in H. peel H. subst.
    match goal with
    | G : _updateUserReputation _ _ _ _ _ = Ok _ |- _ =>
        exact (_updateUserReputation_keeps _ _ _ _ _ _ G Hf)
    end.
  - unfold trackBookingAccepted in H. peel H. subst.
    match goal with
    | G : _updateUserReputation _ _ _ _ _ = Ok _ |- _ =>
        apply _updateUserReputation_keeps in G; [|exact Hf]; simpl in G;
        rename G into Hf1
    end.
    destruct (negb _).
    + match goal with
      | G : _ ≫= _ = Ok _ |- _ => peel G; subst; simpl; eapply P_flag; eauto
      end.
    + match goal with
      | G : mret _ = Ok _ |- _ => injection G as <-; exact Hf1
      end.
  - unfold trackBookingCompleted in H. peel H. subst.
    repeat match goal with
    | G : _updateUserReputation _ _ _ _ _ = Ok _ |- _ =>
        apply _updateUserReputation_keeps in G; [|eassumption || exact Hf];
        simpl in G
    end.
    assumption.
  - unfold updateTokenHoldings in H. peel H. subst.
    match goal with
    | G : _updateUserReputation _ _ _ _ _ = Ok _ |- _ =>
        exact (_updateUserReputation_keeps _ _ _ _ _ _ G Hf)
    end.
  - unfold updateSocialMetrics in H. peel H. subst.
    match goal with
    | G : _updateUserReputation _ _ _ _ _ = Ok _ |- _ =>
        exact (_updateUserReputation_keeps _ _ _ _ _ _ G Hf)
    end.
  - unfold updatePointConfig in H. peel H. subst. exact Hf.
  - unfold setTimeBookingContract in H. peel H. subst. exact Hf.
  - unfold bulkUpdateReputations in H. peel H.
    eapply updateAll_keeps; eauto.
Qed.

End NftInvariant.


(** ** Stored scores *)

Lemma specTier_default (n : NFT) (score : N) :
  levelThresholds n = defaultThresholds ->
  _calculateLevel n score = specTier score.
Proof. intros Hd. unfold _calculateLevel, specTier. by rewrite Hd. Qed.

Lemma coherent_zeroData : coherent zeroData.
Proof. split; reflexivity. Qed.

Lemma setData_coherent (n : NFT) (t : N) (d : ReputationData) :
  coherent d -> recordsCoherent n -> recordsCoherent (setData n t d).
Proof.
  intros Hd [Hth Hall]. split; [exact Hth|].
  intros t' d'. unfold setData; simpl.
  destruct (N.eq_dec t t') as [->|Hne].
  - rewrite lookup_insert_eq. intros [= <-]. exact Hd.
  - rewrite lookup_insert_ne by assumption. apply Hall.
Qed.

Lemma dataOf_coherent (n : NFT) (t : N) :
  recordsCoherent n -> coherent (dataOf n t).
Proof.
  intros [_ Hall]. unfold dataOf.
  destruct (reputationData n !! t) as [d|] eqn:E; simpl.
  - by eapply Hall.
  - apply coherent_zeroData.
Qed.

Lemma updateReputation_coherent (e : Env) (n n' : NFT) (u : address)
  (on so th tc vol bc avg : N) :
  updateReputation e n u on so th tc vol bc avg = Ok n' ->
  recordsCoherent n -> recordsCoherent n'.
Proof.
  intros H Hc. apply updateReputation_ok in H as (_ & _ & _ & total & Hw & ->).
  apply setData_coherent; [|exact Hc].
  apply weightedScore_ok in Hw as [-> _].
  split; simpl; [reflexivity|]. apply specTier_default, Hc.
Qed.

Lemma setKOLStatus_coherent (e : Env) (n n' : NFT) (u : address)
  (flag : bool) :
  setKOLStatus e n u flag = Ok n' -> recordsCoherent n -> recordsCoherent n'.
Proof.
  unfold setKOLStatus. intros H Hc. peel H. subst.
  apply setData_coherent; [|exact Hc].
  exact (dataOf_coherent n (tokenOf n u) Hc).
Qed.

Lemma mintReputationNFT_coherent (e : Env) (n n' : NFT) (to : address)
  (t : N) :
  mintReputationNFT e n to = Ok (n', t) ->
  recordsCoherent n -> recordsCoherent n'.
Proof.
  unfold mintReputationNFT. intros H [Hth Hall]. peel H. subst n' t.
  split; [exact Hth|]. intros t' d'. simpl.
  destruct (N.eq_dec (increment (_tokenIdCounter n)) t') as [<-|Hne].
  - rewrite lookup_insert_eq. intros [= <-]. split; reflexivity.
  - rewrite lookup_insert_ne by assumption. apply Hall.
Qed.

Lemma nftConstructor_coherent (e : Env) : recordsCoherent (nftConstructor e).
Proof.
  split; [reflexivity|]. intros t d. simpl. rewrite lookup_empty.
  discriminate.
Qed.

(** Every operation but a change of thresholds keeps the records
    coherent. *)
Lemma exec_keeps_coherent (e : Env) (s s' : State) (op : Op) :
  setsThresholds op = false ->
  exec e s op = Ok s' ->
  recordsCoherent (reputationNFT s) -> recordsCoherent (reputationNFT s').
Proof.
  intros Hop H Hc.
  destruct (viaTracker op) eqn:Hvia.
  - revert Hvia H Hc. apply tracker_keeps.
    + apply mintReputationNFT_coherent.
    + apply updateReputation_coherent.
    + intros e0 n n' u. apply setKOLStatus_coherent.
  - destruct op; try discriminate Hvia; try discriminate Hop; simpl in H.
    + peel H. destruct x as [n t0]. subst. simpl.
      eapply mintReputationNFT_coherent; eauto.
    + unfold onNFT in H. peel H. subst. simpl.
      eapply updateReputation_coherent; eauto.
    + unfold onNFT in H. peel H. subst. simpl.
      eapply setKOLStatus_coherent; eauto.
    + unfold onNFT, setAuthorizedUpdater in H. peel H. peel E. subst.
      exact Hc.
Qed.

(** C8.  Whenever the tracker refreshes the record of a registered user, the
    record stores the three component scores computed from the user's
    activity counters, social metrics and token holdings under the current
    point configuration, and the total [(onchainScore * 50 + socialScore * 40
    + tokenHoldingScore * 10) / 100], rounded toward zero, which is also what
    [_calculateTotalScore] returns.  With the default thresholds the level is
    Diamond from 5000, Gold from 3000, Silver from 1000 and Bronze below.
    The refresh goes through whenever the tracker is an authorized updater,
    the user's token is minted and the counters are within [2 * LIMIT].
    Between refreshes the stored total and level stay the weighted total and
    the tier of the stored components: every operation of the tracker and of
    the token contract, except a change of the thresholds, keeps all records
    coherent. *)
Theorem stored_score_is_weighted (e : Env) (s : State) (user : address)
  (activityType : string) (pointsEarned : N) :
  (forall s',
     tokenOf (reputationNFT s) user <> 0 ->
     _updateUserReputation e s user activityType pointsEarned = Ok s' ->
     let d := dataOf (reputationNFT s') (tokenOf (reputationNFT s') user) in
     calculateOnchainScore s user = Ok (onchainScore d)
     /\ calculateSocialScore s user = Ok (socialScore d)
     /\ calculateTokenHoldingScore s user = Ok (tokenHoldingScore d)
     /\ totalScore d
        = (onchainScore d * 50 + socialScore d * 40
           + tokenHoldingScore d * 10) / 100
     /\ totalScore d * 100
          <= onchainScore d * 50 + socialScore d * 40
             + tokenHoldingScore d * 10
          < (totalScore d + 1) * 100
     /\ _calculateTotalScore s user = Ok (totalScore d)
     /\ (levelThresholds (reputationNFT s) = defaultThresholds ->
         (5000 <= totalScore d -> level d = Diamond)
         /\ (3000 <= totalScore d < 5000 -> level d = Gold)
         /\ (1000 <= totalScore d < 3000 -> level d = Silver)
         /\ (totalScore d < 1000 -> level d = Bronze)))
  /\ (tokenOf (reputationNFT s) user <> 0 ->
      within (2 * LIMIT) s user ->
      trackerAuthorized s = true ->
      is_Some (_owners (reputationNFT s) !! tokenOf (reputationNFT s) user) ->
      exists s',
        _updateUserReputation e s user activityType pointsEarned = Ok s')
  /\ (forall (op : Op) (s' : State),
        setsThresholds op = false ->
        recordsCoherent (reputationNFT s) ->
        exec e s op = Ok s' ->
        recordsCoherent (reputationNFT s')).
Proof.
  split; [|split].
  - intros s' Ht H.
    apply _updateUserReputation_ok in H
      as (on & so & th & total & Hon & Hso & Hth & Hw & ->); [|assumption].
    simpl. rewrite tokenOf_setData, dataOf_setData. simpl.
    pose proof Hw as Hw'. apply weightedScore_ok in Hw' as [Htotal _].
    repeat split; try assumption.
    + subst total. by apply floor_bounds.
    + subst total. by apply floor_bounds.
    + unfold _calculateTotalScore. rewrite Hon, Hso, Hth. exact Hw.
    + apply level_default; assumption.
    + apply level_default; assumption.
    + apply level_default; assumption.
    + apply level_default; assumption.
  - intros Ht Hw Ha Hm. apply _updateUserReputation_succeeds; auto.
  - intros op s' Hop Hc H. eapply exec_keeps_coherent; eauto.
Qed.

Lemma stored_score_is_weighted_witness :
  tokenOf (reputationNFT kolFlagged) 20 = 1
  /\ exists s',
       _updateUserReputation (as_ 1 400) kolFlagged 20 "bulk_update" 0 = Ok s'
       /\ onchainScore (dataOf (reputationNFT s') 1) = 75
       /\ totalScore (dataOf (reputationNFT s') 1) = 37
       /\ level (dataOf (reputationNFT s') 1) = Bronze.
Proof.
  split; [crunch|].
  destruct (stored_score_is_weighted (as_ 1 400) kolFlagged 20
              "bulk_update" 0) as (_ & H2 & _).
  destruct H2 as (s' & Hs').
  { crunch. }
  { repeat split; crunch. }
  { crunch. }
  { crunch. }
  exists s'. split; [exact Hs'|].
  vm_compute in Hs'. injection Hs' as <-. repeat split; crunch.
Defined.

Lemma _updateUserReputation_frame (e : Env) (s s' : State) (user : address)
  (activityType : string) (pointsEarned : N) :
  _updateUserReputation e s user activityType pointsEarned = Ok s' ->
  exists n, s' = setNFT s n.
Proof.
  unfold _updateUserReputation.
  destruct (tokenOf (reputationNFT s) user =? 0).
  - intros [= <-]. exists (reputationNFT s). by destruct s.
  - intros H. peel H. subst. eauto.
Qed.

Lemma within_setNFT (B : N) (s : State) (n : NFT) (user : address) :
  within B (setNFT s n) user <-> within B s user.
Proof. reflexivity. Qed.

Lemma _calculateTotalScore_succeeds (s : State) (user : address) :
  within (2 * LIMIT) s user ->
  exists t, _calculateTotalScore s user = Ok t.
Proof.
  intros Hw. unfold _calculateTotalScore.
  destruct (scores_succeed s user Hw) as (on & so & th & -> & -> & -> & Hr).
  cbn [mbind result_bind]. rewrite weightedScore_in_range by assumption.
  eauto.
Qed.

Lemma activityOf_setActivity (s : State) (u : address) (a : UserActivity) :
  activityOf (setActivity s u a) u = a.
Proof. unfold activityOf, setActivity; simpl. by rewrite lookup_insert_eq. Qed.

Lemma trackTransaction_replayed (e : Env) (s : State) (user : address)
  (value : N) (interactedWith : address) (txHash : N) :
  txHash ∈ processedTransactions s ->
  trackTransaction e s user value interactedWith txHash
    = Revert "Transaction already processed".
Proof.
  intros Hin. unfold trackTransaction.
  rewrite (bool_decide_eq_true_2 (txHash ∈ processedTransactions s))
    by assumption.
  reflexivity.
Qed.

(** C7.  A [trackTransaction] call with a [txHash] that is already in the
    processed set reverts at its first statement, so nothing is written.  A
    call that succeeds had a fresh [txHash], adds it to the processed set
    and raises the user's [totalTransactions] by exactly 1 and
    [totalVolumeTraded] by exactly [value]; from then on every call with
    that [txHash], for any user and value, reverts.  A call with a fresh
    [txHash] does succeed when the counters and [value] are within [LIMIT]
    and the user is either unregistered or has a minted token the tracker
    may update. *)
Theorem trackTransaction_counts_once (e : Env) (s : State) (user : address)
  (value : N) (interactedWith : address) (txHash : N) :
  (txHash ∈ processedTransactions s ->
     trackTransaction e s user value interactedWith txHash
       = Revert "Transaction already processed"
     /\ keep s (trackTransaction e s user value interactedWith txHash) = s)
  /\ (forall s',
        trackTransaction e s user value interactedWith txHash = Ok s' ->
        (txHash ∉ processedTransactions s)
        /\ processedTransactions s' = {[txHash]} ∪ processedTransactions s
        /\ totalTransactions (activityOf s' user)
           = totalTransactions (activityOf s user) + 1
        /\ totalVolumeTraded (activityOf s' user)
           = totalVolumeTraded (activityOf s user) + value
        /\ forall (e2 : Env) (user2 : address) (value2 : N)
             (interactedWith2 : address),
             trackTransaction e2 s' user2 value2 interactedWith2 txHash
               = Revert "Transaction already processed")
  /\ (txHash ∉ processedTransactions s ->
      within LIMIT s user -> value <= LIMIT ->
      tokenOf (reputationNFT s) user = 0
      \/ (trackerAuthorized s = true
          /\ is_Some (_owners (reputationNFT s)
                        !! tokenOf (reputationNFT s) user)) ->
      exists s',
        trackTransaction e s user value interactedWith txHash = Ok s').
Proof.
  split.
  { intros Hin. rewrite trackTransaction_replayed by assumption.
    split; reflexivity. }
  split.
  - intros s' H. unfold trackTransaction in H. peel H.
    apply _updateUserReputation_frame in E5 as [n ->].
    apply require_ok, negb_true_iff, bool_decide_eq_false_1 in E.
    peel_requires. subst s'.
    split; [assumption|]. split; [reflexivity|].
    change (activityOf (setNFT ?s0 n) user) with (activityOf s0 user).
    rewrite activityOf_setActivity. simpl.
    split; [reflexivity|]. split; [reflexivity|].
    intros e2 user2 value2 w2. apply trackTransaction_replayed.
    simpl. set_solver.
  - intros Hfresh (Ha & Hc & Hm & Hh) Hv Hn. unfold trackTransaction.
    rewrite (bool_decide_eq_false_2 (txHash ∈ processedTransactions s))
      by assumption.
    simpl.
    change (activityOf (markProcessed s txHash) user) with (activityOf s user).
    set (a := activityOf s user) in *.
    destruct Ha as (H1 & H2 & H3 & H4 & H5 & H6 & H7).
    destruct Hc as (C1 & C2 & C3 & C4 & C5 & C6 & C7).
    pose proof (product_within _ _ _ Hv C2) as P.
    pose proof (quotient_le (value * volumeMultiplier (pointConfig s))
                  ONE_ETHER) as Q.
    unfold LIMIT in *.
    rewrite (checked_add_in_range (totalTransactions a))
      by (unfold MAX_UINT256; lia).
    cbn [mbind result_bind].
    rewrite (checked_add_in_range (totalVolumeTraded a))
      by (unfold MAX_UINT256; lia).
    cbn [mbind result_bind].
    rewrite checked_mul_in_range by (unfold MAX_UINT256; lia).
    cbn [mbind result_bind].
    rewrite checked_add_in_range by (unfold MAX_UINT256; lia).
    cbn [mbind result_bind].
    set (isNew := negb (interactedWith =? 0) && _).
    set (pts := transactionBasePoints (pointConfig s) + _).
    assert (Hpts : exists p,
      (if isNew then checked_add pts (diversityBonus (pointConfig s))
       else mret pts) = Ok p).
    { destruct isNew; [|eauto].
      rewrite checked_add_in_range; [eauto|].
      subst pts. unfold MAX_UINT256; lia. }
    destruct Hpts as [p ->]. cbn [mbind result_bind].
    match goal with
    | |- context [_updateUserReputation e ?s1 user ?t ?q] =>
        set (s1' := s1);
        assert (Hw1 : within (2 * LIMIT) s1' user)
    end.
    { subst s1'. unfold within.
      rewrite activityOf_setActivity. unfold activityWithin, configWithin.
      simpl. destruct Hm as (M1 & M2 & M3 & M4).
      change (socialOf (setActivity ?s0 user ?a0) user)
        with (socialOf s user).
      change (holdingsOf (setActivity ?s0 user ?a0) user)
        with (holdingsOf s user).
      unfold socialWithin, LIMIT. repeat split; auto; lia. }
    destruct (_updateUserReputation_succeeds e s1' user "transaction" p Hw1 Hn)
      as [s2 Hs2].
    rewrite Hs2. cbn [mbind result_bind].
    destruct (_updateUserReputation_frame _ _ _ _ _ _ Hs2) as [n ->].
    unfold emitActivityTracked.
    destruct (_calculateTotalScore_succeeds (setNFT s1' n) user) as [t ->].
    { by apply within_setNFT. }
    cbn [mbind result_bind]. eauto.
Qed.

Lemma trackTransaction_counts_once_witness :
  exists s',
    trackTransaction (as_ 5 400) kolFlagged 20 (3 * 10 ^ 18) 7 99 = Ok s'
    /\ totalTransactions (activityOf s' 20) = 1
    /\ totalVolumeTraded (activityOf s' 20) = 3 * 10 ^ 18
    /\ trackTransaction (as_ 5 401) s' 20 (3 * 10 ^ 18) 7 99
       = Revert "Transaction already processed".
Proof.
  destruct (trackTransaction_counts_once (as_ 5 400) kolFlagged 20
              (3 * 10 ^ 18) 7 99) as (_ & H2 & H3).
  destruct H3 as (s' & Hs').
  { apply (bool_decide_unpack _). crunch. }
  { repeat split; crunch. }
  { crunch. }
  { right. split; crunch. }
  exists s'. split; [exact Hs'|].
  destruct (H2 s' Hs') as (_ & _ & Ht & Hv & Hr).
  split; [rewrite Ht; crunch|]. split; [rewrite Hv; crunch|]. apply Hr.
Defined.


(** ** The KOL flag *)

Lemma setData_keeps (n : NFT) (t0 t : N) (d : ReputationData)
  (user : address) :
  isKOL d = isKOL (dataOf n t0) \/ isKOL d = true ->
  flagged n user t -> flagged (setData n t0 d) user t.
Proof.
  intros Hd (Hm & Ht & Hu & Hk). split; [exact Hm|]. split; [exact Ht|].
  split; [exact Hu|].
  destruct (N.eq_dec t0 t) as [->|Hne].
  - rewrite dataOf_setData. destruct Hd as [-> | ->]; auto.
  - by rewrite dataOf_setData_ne.
Qed.

Lemma updateReputation_keeps (e : Env) (n n' : NFT) (u user : address)
  (on so th tc vol bc avg t : N) :
  updateReputation e n u on so th tc vol bc avg = Ok n' ->
  flagged n user t -> flagged n' user t.
Proof.
  intros H. apply updateReputation_ok in H as (_ & _ & _ & total & _ & ->).
  apply setData_keeps. left. reflexivity.
Qed.

Lemma setKOLStatus_true_keeps (e : Env) (n n' : NFT) (u user : address)
  (t : N) :
  setKOLStatus e n u true = Ok n' -> flagged n user t -> flagged n' user t.
Proof.
  unfold setKOLStatus. intros H. peel H. subst.
  apply setData_keeps. right. reflexivity.
Qed.

Lemma mintReputationNFT_keeps (e : Env) (n n' : NFT) (to user : address)
  (t0 t : N) :
  mintReputationNFT e n to = Ok (n', t0) ->
  flagged n user t -> flagged n' user t.
Proof.
  unfold mintReputationNFT. intros H (Hm & Ht & Hu & Hk). peel H.
  peel_requires. subst n' t0.
  set (t' := increment (_tokenIdCounter n)) in *.
  assert (Hto : to <> user) by (intros ->; congruence).
  assert (Hfresh : t <> t').
  { intros Heq. destruct (Hm user) as [a Ha]; [congruence|].
    rewrite Hu, Heq in Ha. congruence. }
  assert (Htok : forall u, u <> to ->
            tokenOf (mkNFT t' (<[to:=t']> (userToTokenId n))
                       (<[t':=mkReputationData 0 0 0 0 Bronze 0 0 0 0
                                (timestamp e) false]> (reputationData n))
                       (authorizedUpdaters n) (levelThresholds n)
                       (<[t':=to]> (_owners n)) (nftOwner n)) u
            = tokenOf n u).
  { intros u Hu'. unfold tokenOf; simpl. by rewrite lookup_insert_ne. }
  split; [|split; [exact Ht|split]].
  - intros u Hu'. destruct (N.eq_dec u to) as [->|Hne].
    + unfold tokenOf; simpl. rewrite lookup_insert_eq. simpl.
      rewrite lookup_insert_eq. eauto.
    + rewrite Htok in * by assumption. simpl.
      destruct (N.eq_dec t' (tokenOf n u)) as [<-|Hd].
      * rewrite lookup_insert_eq. eauto.
      * rewrite lookup_insert_ne by assumption. by apply Hm.
  - rewrite Htok by congruence. exact Hu.
  - unfold dataOf; simpl.
    rewrite lookup_insert_ne by congruence. exact Hk.
Qed.

(** C9, as amended.  Once the record of a user carries [isKOL = true], every
    operation of the tracker and of the token contract keeps the user's
    token id and keeps the flag, with one exception: a [setKOLStatus] call
    with the flag [false], made to the token contract directly by its owner
    or by an authorized updater. *)
Theorem isKOL_kept (e : Env) (s s' : State) (op : Op) (user : address) :
  minted (reputationNFT s) ->
  tokenOf (reputationNFT s) user <> 0 ->
  isKOL (dataOf (reputationNFT s) (tokenOf (reputationNFT s) user)) = true ->
  clearsKOL op = false ->
  exec e s op = Ok s' ->
  minted (reputationNFT s')
  /\ tokenOf (reputationNFT s') user = tokenOf (reputationNFT s) user
  /\ isKOL (dataOf (reputationNFT s') (tokenOf (reputationNFT s') user))
     = true.
Proof.
  intros Hm Ht Hk Hop H.
  set (t := tokenOf (reputationNFT s) user) in *.
  assert (Hf : flagged (reputationNFT s) user t) by (repeat split; auto).
  assert (Hf' : flagged (reputationNFT s') user t).
  { destruct (viaTracker op) eqn:Hvia.
    - revert Hvia H Hf. apply (tracker_keeps (fun n => flagged n user t)).
      + intros e0 n n' to t0. apply mintReputationNFT_keeps.
      + intros e0 n n' u on so th tc vol bc avg. apply updateReputation_keeps.
      + intros e0 n n' u. apply setKOLStatus_true_keeps.
    - destruct op; try discriminate Hvia; simpl in H.
      + peel H. destruct x as [n t0]. subst. simpl.
        eapply mintReputationNFT_keeps; eauto.
      + unfold onNFT in H. peel H. subst. simpl.
        eapply updateReputation_keeps; eauto.
      + destruct flag; [|discriminate Hop].
        unfold onNFT in H. peel H. subst. simpl.
        eapply setKOLStatus_true_keeps; eauto.
      + unfold onNFT, setAuthorizedUpdater in H. peel H. peel E. subst.
        exact Hf.
      + unfold onNFT, updateLevelThresholds in H. peel H. peel E. subst.
        exact Hf. }
  destruct Hf' as (Hm' & Ht' & Hu' & Hk'). rewrite Hu'. auto.
Qed.

(** The example deployment keeps the ledger and the token ids in step. *)
Lemma minted_kolFlagged : minted (reputationNFT kolFlagged).
Proof.
  intros user Hu. unfold tokenOf in *.
  assert (E : userToTokenId (reputationNFT kolFlagged) = {[20 := 1]})
    by (vm_compute; reflexivity).
  rewrite E in *. destruct (N.eq_dec user 20) as [->|Hne].
  - rewrite lookup_singleton_eq. simpl. crunch.
  - rewrite lookup_singleton_ne in Hu by congruence. contradiction.
Qed.

Lemma isKOL_kept_witness :
  isKOL (dataOf (reputationNFT kolFlagged) 1) = true
  /\ exists s',
       exec (as_ 5 400) kolFlagged (TrackTransaction 20 (3 * 10 ^ 18) 7 99)
         = Ok s'
       /\ isKOL (dataOf (reputationNFT s') (tokenOf (reputationNFT s') 20))
          = true.
Proof.
  split; [crunch|].
  destruct (exec (as_ 5 400) kolFlagged
              (TrackTransaction 20 (3 * 10 ^ 18) 7 99)) as [s'|r] eqn:E;
    [|vm_compute in E; discriminate E].
  exists s'. split; [reflexivity|].
  apply (isKOL_kept (as_ 5 400) kolFlagged s'
           (TrackTransaction 20 (3 * 10 ^ 18) 7 99) 20);
    [exact minted_kolFlagged | crunch | crunch | crunch | exact E].
Defined.

(** C9 as stated fails: account 20 carries the flag after its first accepted
    booking; the owner of the token contract (account 1) calls
    [setKOLStatus(20, false)], which succeeds and clears it. *)
Lemma isKOL_cleared_by_setKOLStatus :
  isKOL (dataOf (reputationNFT kolFlagged)
           (tokenOf (reputationNFT kolFlagged) 20)) = true
  /\ exists s',
       exec (as_ 1 300) kolFlagged (NftSetKOLStatus 20 false) = Ok s'
       /\ isKOL (dataOf (reputationNFT s') (tokenOf (reputationNFT s') 20))
          = false.
Proof.
  split; [reflexivity|]. eexists. split; reflexivity.
Qed.

End ReputationProofs.

(** * Tactics for guards and closed examples *)

(** Replace a guard by its value, proved from the context. *)
Ltac expect_true c :=
  replace c with true by
    (symmetry;
     first [ apply N.ltb_lt | apply N.leb_le | apply N.eqb_eq
           | apply bool_decide_eq_true_2 ];
     first [ assumption | lia | congruence ]).

Ltac expect_false c :=
  replace c with false by
    (symmetry;
     first [ apply N.ltb_ge | apply N.leb_gt | apply N.eqb_neq
           | apply bool_decide_eq_false_2 ];
     first [ assumption | lia | congruence ]).

(** Close a goal with a hypothesis that evaluates to it. *)
Ltac settle H := vm_compute in H; vm_compute; exact H.

(** * The escrow over whole histories *)

Section EscrowHistories.
Import TimeBooking.

(** X1.  A [createBooking] call that succeeds was paid exactly
    [_pricePerSlot * _totalSlots], makes no transfer, and stores under the
    next booking id a Pending record with the caller as buyer, that amount
    as [totalAmount] and [createdAt = updatedAt = block.timestamp]; the
    contract balance grows by the payment, the ticket with the next token
    id, unowned before, belongs to the buyer, the id is appended to the
    buyer's and to the KOL's list, [getTotalBookings] returns it, and no
    other booking record changes.  The call does succeed when the KOL is
    neither [address(0)] nor the caller, there is at least one slot, the
    session starts in the future and lasts at least 30 minutes per slot,
    the payment is exact, the amounts are [uint256], the ticket id is free,
    the buyer takes ERC721 tokens and the reputation hook, if one is set,
    does not revert. *)
Theorem createBooking_books (e : Env) (s : State) (value : N)
  (_kol : address) (_pricePerSlot _totalSlots _fromTime _toTime : N)
  (_reason _tokenURI : string) :
  let id := increment (_bookingIds s) in
  let ticket := increment (_tokenIds s) in
  let booking :=
    mkBooking id ticket (sender e) _kol _pricePerSlot _totalSlots
      (_pricePerSlot * _totalSlots) _fromTime _toTime _reason Pending
      (timestamp e) (timestamp e) 0 false 0 false in
  (forall s' paid,
     createBooking e s value _kol _pricePerSlot _totalSlots _fromTime _toTime
       _reason _tokenURI = Ok (s', paid) ->
     paid = []
     /\ value = _pricePerSlot * _totalSlots
     /\ getBooking s' id = booking
     /\ (forall j, j <> id -> getBooking s' j = getBooking s j)
     /\ balance s' = balance s + value
     /\ ownerOfTicket s' ticket = Some (sender e)
     /\ ownerOfTicket s ticket = None
     /\ getBuyerBookings s' (sender e) = getBuyerBookings s (sender e) ++ [id]
     /\ getKOLBookings s' _kol = getKOLBookings s _kol ++ [id]
     /\ getTotalBookings s' = id)
  /\ (_kol <> 0 -> _kol <> sender e -> sender e <> 0 -> 0 < _totalSlots ->
      timestamp e < _fromTime -> _fromTime < _toTime ->
      MIN_SLOT_DURATION * _totalSlots <= _toTime - _fromTime ->
      _toTime <= MAX_UINT256 ->
      _pricePerSlot * _totalSlots <= MAX_UINT256 ->
      value = _pricePerSlot * _totalSlots ->
      ownerOfTicket s ticket = None ->
      receivesToken e (sender e) = true ->
      reputationTracker s = 0
      \/ trackerOk e (TrackBookingCreated (sender e) id) = true ->
      exists s',
        createBooking e s value _kol _pricePerSlot _totalSlots _fromTime
          _toTime _reason _tokenURI = Ok (s', [])).
Proof.
  intros id ticket booking. split.
  - intros s' paid H. unfold createBooking in H. peel H.
    repeat match goal with
    | G : _safeMint _ _ _ _ = Ok _ |- _ => unfold _safeMint in G; peel G
    | G : _setTokenURI _ _ _ = Ok _ |- _ => unfold _setTokenURI in G; peel G
    end.
    peel_requires. subst.
    unfold getBooking, getBuyerBookings, getKOLBookings, getTotalBookings,
      ownerOfTicket, storeBooking; simpl.
    rewrite !lookup_insert_eq. simpl.
    repeat split; try reflexivity; try assumption.
    intros j Hj. rewrite lookup_insert_ne; [reflexivity|]. intros Hjid. apply Hj. symmetry. exact Hjid.
  - intros Hk Hself Hs Hslots Hfrom Hto Hdur Hrange Hmul Hv Hfresh Hrecv Hhook.
    unfold createBooking.
    expect_false (_kol =? 0). expect_false (_kol =? sender e).
    expect_true (0 <? _totalSlots). expect_true (timestamp e <? _fromTime).
    expect_true (_fromTime <? _toTime).
    simpl. rewrite checked_sub_in_range by lia. simpl.
    rewrite (checked_mul_in_range MIN_SLOT_DURATION _totalSlots) by lia.
    simpl.
    expect_true (MIN_SLOT_DURATION * _totalSlots <=? _toTime - _fromTime).
    simpl. rewrite checked_mul_in_range by assumption. simpl.
    expect_true (value =? _pricePerSlot * _totalSlots). simpl.
    unfold _safeMint. simpl.
    expect_false (sender e =? 0). simpl.
    unfold ownerOfTicket in Hfresh. fold ticket.
    rewrite (bool_decide_eq_true_2 _ Hfresh). simpl.
    rewrite Hrecv. simpl.
    unfold _setTokenURI. simpl. rewrite lookup_insert_eq.
    rewrite bool_decide_eq_true_2 by eauto. simpl.
    rewrite notifyTracker_ok by (simpl; exact Hhook). simpl. eauto.
Qed.


Lemma dispatch_writes (e : Env) (s s' : State) (c : Call)
  (paid : list Transfer) :
  dispatch e s c = Ok (s', paid) ->
  s' = setBalance
         (setBooking s (target c) (written e c (getBooking s (target c))))
         (balance s - total paid).
Proof.
  destruct c as [i|i|i|i|i r|i r|i|i]; simpl; intros H.
  - unfold acceptBooking in H. peel H. subst. apply setBalance_same.
  - unfold rejectBooking in H. peel H. apply refund_ok in H as [-> ->].
    unfold total; simpl. by rewrite N.add_0_r.
  - unfold cancelBooking in H. peel H. apply refund_ok in H as [-> ->].
    unfold total; simpl. by rewrite N.add_0_r.
  - unfold completeSession in H. peel H. subst. apply setBalance_same.
  - unfold reportDispute in H. peel H. subst. apply setBalance_same.
  - unfold rateSession in H. peel H. subst. apply setBalance_same.
  - by apply releasePayment_ok in H as (_ & fee & kp & _ & _ & _ & ->).
  - unfold handleExpiredBooking in H. peel H. apply refund_ok in H as [-> ->].
    unfold total; simpl. by rewrite N.add_0_r.
Qed.

Lemma frozen_blocks (e : Env) (s : State) (c : Call) :
  frozen (status (getBooking s (target c))) = true ->
  exists r, dispatch e s c = Revert r.
Proof.
  intros Hf. destruct (dispatch e s c) as [[s' paid]|r] eqn:D; [|eauto].
  exfalso. apply dispatch_effect in D as [_ D].
  destruct c; unfold effect in D; simpl in *;
    destruct D as (D & _); try destruct D as [D|D];
    rewrite D in Hf; discriminate Hf.
Qed.

Lemma step_other (id : N) (s : State) (ec : Env * Call) :
  target ec.2 <> id ->
  getBooking (step s ec).1 id = getBooking s id
  /\ paidFor id (step s ec).2 = [].
Proof.
  destruct ec as [e c]. unfold step; simpl. intros Hne.
  destruct (dispatch e s c) as [[s' paid]|r] eqn:D; simpl.
  - apply dispatch_effect in D as [(_ & _ & Hother & _) _].
    split; [apply Hother; congruence | by apply paidFor_other].
  - split; reflexivity.
Qed.

Lemma frozen_run (s : State) (id : N) (calls : list (Env * Call)) :
  frozen (status (getBooking s id)) = true ->
  getBooking (run s calls).1 id = getBooking s id
  /\ paidFor id (run s calls).2 = [].
Proof.
  revert s. induction calls as [|ec rest IH]; intros s Hf; simpl.
  - by split.
  - assert (Hstep : getBooking (step s ec).1 id = getBooking s id
                    /\ paidFor id (step s ec).2 = []).
    { destruct (decide (target ec.2 = id)) as [Ht|Hne];
        [|by apply step_other].
      destruct ec as [e c]. simpl in Ht. subst id. unfold step; simpl.
      destruct (frozen_blocks e s c Hf) as [r ->]. simpl. by split. }
    destruct Hstep as [Hb Hp].
    destruct (step s ec) as [s1 paid1]; simpl in *.
    rewrite <- Hb in Hf. specialize (IH s1 Hf).
    destruct (run s1 rest) as [s2 paid2]; simpl in *.
    destruct IH as (IHb & IHp).
    by rewrite paidFor_app, Hp, IHp, IHb, Hb.
Qed.

(** ** Every booking is paid out at most once *)

(** The three refunds of a Pending booking go through when the contract can
    pay and the buyer takes the transfer. *)
Lemma refunds_succeed (e : Env) (s : State) (id : N) :
  let b := getBooking s id in
  status b = Pending -> totalAmount b <= balance s ->
  accepts e (buyer b) = true ->
  (sender e = kol b ->
   exists s2,
     rejectBooking e s id = Ok (s2, [(buyer b, totalAmount b)])
     /\ status (getBooking s2 id) = Rejected)
  /\ (sender e = buyer b ->
      exists s2,
        cancelBooking e s id = Ok (s2, [(buyer b, totalAmount b)])
        /\ status (getBooking s2 id) = Cancelled)
  /\ (createdAt b + EXPIRY_PERIOD <= timestamp e ->
      timestamp e <= MAX_UINT256 ->
      exists s2,
        handleExpiredBooking e s id = Ok (s2, [(buyer b, totalAmount b)])
        /\ status (getBooking s2 id) = Expired).
Proof.
  intros b Hst Hbal Hacc.
  assert (Hrefund : forall st,
    exists s2,
      _refundBuyer e
        (setBooking s id (with_updatedAt (with_status b st) (timestamp e)))
        (with_updatedAt (with_status b st) (timestamp e))
      = Ok (s2, [(buyer b, totalAmount b)])
      /\ status (getBooking s2 id) = st).
  { intros st. unfold _refundBuyer. simpl.
    rewrite transfer_can_pay by (simpl; assumption). simpl.
    eexists. split; [reflexivity|].
    by rewrite getBooking_setBalance, getBooking_setBooking. }
  repeat split.
  - intros Hk. unfold rejectBooking. fold b. rewrite Hst.
    expect_true (kol b =? sender e).
    rewrite bool_decide_eq_true_2 by reflexivity. simpl. apply Hrefund.
  - intros Hb. unfold cancelBooking. fold b. rewrite Hst.
    expect_true (buyer b =? sender e).
    rewrite bool_decide_eq_true_2 by reflexivity. simpl. apply Hrefund.
  - intros Hexp Hrange. unfold handleExpiredBooking. fold b. rewrite Hst.
    rewrite bool_decide_eq_true_2 by reflexivity. simpl.
    rewrite checked_add_in_range by lia. simpl.
    expect_true (createdAt b + EXPIRY_PERIOD <=? timestamp e). simpl.
    apply Hrefund.
Qed.

(** The release of an Accepted booking goes through after the dispute
    window, when the contract can pay, the payees take their transfers and
    the reputation hook does not revert. *)
Lemma releasePayment_succeeds (e : Env) (s : State) (id : N) :
  let b := getBooking s id in
  status b = Accepted -> 0 < sessionEndTime b -> disputeReported b = false ->
  sessionEndTime b + DISPUTE_PERIOD < timestamp e ->
  timestamp e <= MAX_UINT256 ->
  platformFeePercent s <= 10000 ->
  totalAmount b * platformFeePercent s <= MAX_UINT256 ->
  totalAmount b <= balance s ->
  accepts e (feeRecipient s) = true -> accepts e (kol b) = true ->
  reputationTracker s = 0
  \/ trackerOk e
       (TrackBookingCompleted (kol b) (buyer b) id
          (if ratingSubmitted b then rating b else 25)) = true ->
  exists s2 out,
    releasePayment e s id = Ok (s2, out)
    /\ total out = totalAmount b
    /\ status (getBooking s2 id) = Completed.
Proof.
  intros b Hst Hend Hd Hlate Hnow Hp Hmul Hbal Hfr Hk Hhook.
  unfold releasePayment. fold b.
  rewrite (canRelease_after e b) by assumption. simpl.
  set (platformFee := totalAmount b * platformFeePercent s / 10000).
  assert (Hfee : platformFee <= totalAmount b) by (apply fee_le; lia).
  unfold splitPayment.
  rewrite checked_mul_in_range by assumption. simpl.
  rewrite checked_sub_in_range by assumption. simpl.
  fold platformFee.
  destruct (N.ltb_spec 0 platformFee) as [Hpos|Hzero]; simpl.
  - rewrite transfer_can_pay by (simpl; solve [lia | assumption]). simpl.
    rewrite transfer_can_pay by (simpl; solve [lia | assumption]). simpl.
    rewrite notifyTracker_ok by (simpl; assumption). simpl.
    eexists _, _. split; [reflexivity|].
    rewrite getBooking_setBalance. simpl.
    rewrite getBooking_setBalance, getBooking_setBooking.
    unfold total; simpl. split; [lia | reflexivity].
  - rewrite transfer_can_pay by (simpl; solve [lia | assumption]). simpl.
    rewrite notifyTracker_ok by (simpl; assumption). simpl.
    eexists _, _. split; [reflexivity|].
    rewrite getBooking_setBalance, getBooking_setBooking.
    unfold total; simpl. split; [lia | reflexivity].
Qed.

(** C1, as amended.  Take a booking that has just been created (status
    [Pending], nothing paid out yet) and any history of the eight escrow
    operations, by any callers, at any times, on this or other bookings.
    Afterwards the parties and the amount of the booking are what they
    were, and the transfers made on its behalf are exactly those its status
    accounts for: none while it is Pending, Accepted or Disputed; one refund
    of [totalAmount] to the buyer when it is Rejected, Cancelled or Expired;
    the fee (when positive) and the rest to the KOL when it is Completed.
    So they total [totalAmount] once the status is terminal and zero before.
    In a terminal status every fund-moving call on the booking reverts.  A
    fund-moving call that succeeds starts from Pending (the three refunds)
    or Accepted (the release), ends in a terminal status and pays
    [totalAmount] in total.  Each payout does go through when its guard
    holds, the balance covers the amount, the payees take their transfers
    and, for the release, the fee computation stays in range and the
    reputation hook does not revert: from Pending, [rejectBooking] by the
    KOL, [cancelBooking] by the buyer and, from [createdAt + EXPIRY_PERIOD]
    on, [handleExpiredBooking] by anyone refund [totalAmount]; from
    Accepted, with the session end recorded and the dispute window over,
    [releasePayment] by anyone pays [totalAmount] out.  But a booking need
    not ever be paid out: once Disputed, its record stays as it is, nothing
    is paid for it and every call on it reverts, whatever is called
    afterwards; and while the session end of an Accepted booking is not
    recorded, [releasePayment] reverts. *)
Theorem escrow_paid_out_exactly_once (s : State) (id : N)
  (calls : list (Env * Call)) :
  status (getBooking s id) = Pending ->
  let b := getBooking s id in
  let s' := (run s calls).1 in
  let b' := getBooking s' id in
  let paid := paidFor id (run s calls).2 in
  (buyer b' = buyer b /\ kol b' = kol b /\ totalAmount b' = totalAmount b)
  /\ settled s' b' paid
  /\ total paid = (if terminal (status b') then totalAmount b else 0)
  /\ (terminal (status b') = true ->
      forall (e : Env) (c : Call),
        target c = id -> movesFunds c = true ->
        exists r, dispatch e s' c = Revert r)
  /\ (forall (e : Env) (c : Call) (s1 s2 : State) (out : list Transfer),
        movesFunds c = true -> dispatch e s1 c = Ok (s2, out) ->
        status (getBooking s1 (target c))
          = match c with ReleasePayment _ => Accepted | _ => Pending end
        /\ terminal (status (getBooking s2 (target c))) = true
        /\ total out = totalAmount (getBooking s1 (target c)))
  /\ (status b' = Pending ->
      forall e : Env,
        totalAmount b <= balance s' -> accepts e (buyer b) = true ->
        (sender e = kol b ->
         exists s2,
           rejectBooking e s' id = Ok (s2, [(buyer b, totalAmount b)])
           /\ status (getBooking s2 id) = Rejected)
        /\ (sender e = buyer b ->
            exists s2,
              cancelBooking e s' id = Ok (s2, [(buyer b, totalAmount b)])
              /\ status (getBooking s2 id) = Cancelled)
        /\ (createdAt b' + EXPIRY_PERIOD <= timestamp e ->
            timestamp e <= MAX_UINT256 ->
            exists s2,
              handleExpiredBooking e s' id
              = Ok (s2, [(buyer b, totalAmount b)])
              /\ status (getBooking s2 id) = Expired))
  /\ (status b' = Accepted ->
      forall e : Env,
        0 < sessionEndTime b' -> disputeReported b' = false ->
        sessionEndTime b' + DISPUTE_PERIOD < timestamp e ->
        timestamp e <= MAX_UINT256 ->
        platformFeePercent s' <= 10000 ->
        totalAmount b * platformFeePercent s' <= MAX_UINT256 ->
        totalAmount b <= balance s' ->
        accepts e (feeRecipient s') = true -> accepts e (kol b) = true ->
        reputationTracker s' = 0
        \/ trackerOk e
             (TrackBookingCompleted (kol b) (buyer b) id
                (if ratingSubmitted b' then rating b' else 25)) = true ->
        exists s2 out,
          releasePayment e s' id = Ok (s2, out)
          /\ total out = totalAmount b
          /\ status (getBooking s2 id) = Completed)
  /\ (status b' = Disputed ->
      forall later : list (Env * Call),
        getBooking (run s' later).1 id = b'
        /\ paidFor id (run s' later).2 = []
        /\ forall (e : Env) (c : Call),
             target c = id ->
             exists r, dispatch e (run s' later).1 c = Revert r)
  /\ (status b' = Accepted -> sessionEndTime b' = 0 ->
      forall e : Env,
        releasePayment e s' id = Revert "Cannot release payment").
Proof.
  intros Hp b s' b' paid.
  assert (Hs : settled s (getBooking s id) [])
    by (unfold settled; by rewrite Hp).
  destruct (run_settled id calls s [] Hs) as (Hb & Hk & Ha & Hs').
  simpl in Hs'. fold s' b' paid in Hs'. fold b b' in Hb, Hk, Ha.
  split; [auto|]. split; [assumption|]. split.
  { rewrite (settled_total _ _ _ Hs').
    destruct (terminal (status b')); [exact Ha | reflexivity]. }
  split.
  { intros Ht e c <- Hm. by apply terminal_blocks. }
  split.
  { intros e c s1 s2 out Hm D.
    apply dispatch_effect in D as [_ Heff].
    destruct c; try discriminate Hm; unfold effect in Heff; simpl in *;
      destruct Heff as (H1 & H2 & H3); rewrite H1, H2; subst;
      repeat split; simpl; try lia.
    destruct H3 as (fee & kp & Hsplit & ->).
    apply splitPayment_sum in Hsplit as [_ Hsum].
    destruct (N.ltb_spec 0 fee); unfold total; simpl in *; lia. }
  split.
  { intros Hst e Hbal Hacc.
    rewrite <- Hb, <- Hk, <- Ha in *.
    by apply (refunds_succeed e s' id). }
  split.
  { intros Hst e Hend Hd Hlate Hnow Hfee Hmul Hbal Hfr Hacc Hhook.
    rewrite <- Hb, <- Hk, <- Ha in *.
    by apply (releasePayment_succeeds e s' id). }
  split.
  { intros Hst later.
    assert (Hf : frozen (status (getBooking s' id)) = true)
      by (fold b'; by rewrite Hst).
    destruct (frozen_run s' id later Hf) as [Hrec Hpaid].
    split; [exact Hrec|]. split; [exact Hpaid|].
    intros e c <-. apply frozen_blocks. by rewrite Hrec. }
  intros Hst Hzero e. unfold releasePayment. fold b'.
  unfold canRelease. rewrite Hst, Hzero. reflexivity.
Qed.

Lemma escrow_paid_out_exactly_once_witness :
  status (getBooking pending200 1) = Pending
  /\ total (paidFor 1 (run pending200
        [(by_ 20 2000, AcceptBooking 1); (by_ 20 9000, CompleteSession 1);
         (by_ 7 100000, ReleasePayment 1); (by_ 10 100001, CancelBooking 1);
         (by_ 7 500000, HandleExpiredBooking 1);
         (by_ 7 500001, ReleasePayment 1)]).2) = 200
  /\ exists s2,
       cancelBooking (by_ 10 1500) pending200 1 = Ok (s2, [(10, 200)])
       /\ status (getBooking s2 1) = Cancelled.
Proof.
  split; [reflexivity|]. split.
  - pose proof (escrow_paid_out_exactly_once pending200 1
      [(by_ 20 2000, AcceptBooking 1); (by_ 20 9000, CompleteSession 1);
       (by_ 7 100000, ReleasePayment 1); (by_ 10 100001, CancelBooking 1);
       (by_ 7 500000, HandleExpiredBooking 1);
       (by_ 7 500001, ReleasePayment 1)] eq_refl) as (_ & _ & Ht & _).
    exact Ht.
  - pose proof (escrow_paid_out_exactly_once pending200 1 [] eq_refl)
      as (_ & _ & _ & _ & _ & Hlive & _).
    destruct (Hlive ltac:(crunch) (by_ 10 1500)) as (_ & Hc & _);
      [crunch | crunch |].
    destruct Hc as (s2 & H2 & Hst); [crunch|].
    exists s2. split; [settle H2 | exact Hst].
Defined.

(** C1 as stated fails: "never neither".  Booking 1 for 2 x 500 is
    accepted, marked complete at 9000 and disputed by the buyer at 9500;
    from then on, whatever is called, by whomever and whenever, it stays
    Disputed and nothing of its 1000 is paid out. *)
Lemma escrow_never_paid_out_after_dispute :
  (status (getBooking (book deployed 1000 500) 1) = Pending
   /\ totalAmount (getBooking (book deployed 1000 500) 1) = 1000)
  /\ run (book deployed 1000 500)
       [ (by_ 20 2000, AcceptBooking 1); (by_ 20 9000, CompleteSession 1);
         (by_ 10 9500, ReportDispute 1 "no show") ]
     = (disputed1000, [])
  /\ forall later : list (Env * Call),
       status (getBooking (run disputed1000 later).1 1) = Disputed
       /\ total (paidFor 1 (run disputed1000 later).2) = 0.
Proof.
  split; [split; crunch|]. split; [crunch|].
  intros later.
  destruct (frozen_run disputed1000 1 later) as [Hrec Hpaid]; [crunch|].
  rewrite Hrec, Hpaid. split; crunch.
Qed.

(** X4.  Rejected, Cancelled, Disputed and Expired are final: through any
    history of the eight booking operations, by any callers at any times,
    the record of such a booking stays exactly as it is, no transfer is made
    on its behalf, and every operation on it reverts. *)
Theorem frozen_booking_never_changes (s : State) (id : N)
  (calls : list (Env * Call)) :
  frozen (status (getBooking s id)) = true ->
  getBooking (run s calls).1 id = getBooking s id
  /\ paidFor id (run s calls).2 = []
  /\ forall e c, target c = id ->
       exists r, dispatch e (run s calls).1 c = Revert r.
Proof.
  intros Hf. destruct (frozen_run s id calls Hf) as [Hb Hp].
  repeat split; [exact Hb | exact Hp |].
  intros e c <-. apply frozen_blocks. by rewrite Hb.
Qed.

Lemma getBooking_missing (s : State) (id : N) :
  bookings s !! id = None -> getBooking s id = zeroBooking.
Proof. unfold getBooking. by intros ->. Qed.

(** X2.  A booking id that was never written reads as the all-zero record.
    For a caller other than [address(0)] six operations on it fail at the
    caller check, [releasePayment] fails with "Cannot release payment" and
    [canAutoComplete] answers false.  [handleExpiredBooking] is the
    exception: it fails only while [block.timestamp < EXPIRY_PERIOD]; from
    then on it succeeds ([address(0)] taking a transfer of 0), stores a
    record with status Expired under the id, sends 0 to [address(0)] and
    leaves the balance and every other booking as they were. *)
Theorem never_created_booking (e : Env) (s : State) (id : N) :
  bookings s !! id = None -> sender e <> 0 ->
  acceptBooking e s id = Revert "Only KOL can accept"
  /\ rejectBooking e s id = Revert "Only KOL can reject"
  /\ cancelBooking e s id = Revert "Only buyer can cancel"
  /\ completeSession e s id = Revert "Only KOL can complete"
  /\ (forall r, reportDispute e s id r = Revert "Only buyer can report")
  /\ (forall r, rateSession e s id r = Revert "Only buyer can rate")
  /\ releasePayment e s id = Revert "Cannot release payment"
  /\ canAutoComplete e s id = Ok false
  /\ (timestamp e < EXPIRY_PERIOD ->
      handleExpiredBooking e s id = Revert "Not expired yet")
  /\ (EXPIRY_PERIOD <= timestamp e -> accepts e 0 = true ->
      exists s',
        handleExpiredBooking e s id = Ok (s', [(0, 0)])
        /\ bookings s' !! id
           = Some (with_updatedAt (with_status zeroBooking Expired)
                     (timestamp e))
        /\ balance s' = balance s
        /\ forall j, j <> id -> bookings s' !! j = bookings s !! j).
Proof.
  intros Hnone Hs.
  assert (Hz : (0 =? sender e) = false) by (apply N.eqb_neq; congruence).
  unfold acceptBooking, rejectBooking, cancelBooking, completeSession,
    reportDispute, rateSession, releasePayment, canAutoComplete,
    handleExpiredBooking.
  rewrite (getBooking_missing s id Hnone).
  change (kol zeroBooking) with 0. change (buyer zeroBooking) with 0.
  rewrite Hz. simpl.
  repeat split.
  - intros Hlt. unfold checked_add. simpl.
    replace (0 + EXPIRY_PERIOD <=? timestamp e) with false
      by (symmetry; apply N.leb_gt; lia).
    reflexivity.
  - intros Hle Hacc. unfold checked_add. simpl.
    replace (0 + EXPIRY_PERIOD <=? timestamp e) with true
      by (symmetry; apply N.leb_le; lia).
    simpl. unfold _refundBuyer, transfer. simpl. rewrite Hacc.
    replace (0 <=? balance s) with true
      by (symmetry; apply N.leb_le; lia).
    simpl. eexists. split; [reflexivity|]. simpl.
    rewrite lookup_insert_eq. repeat split; [lia|].
    intros j Hj. by rewrite lookup_insert_ne.
Qed.

(** X3.  Who may call what.  [acceptBooking], [rejectBooking] and
    [completeSession] revert for everyone but the KOL of the booking,
    [cancelBooking], [reportDispute] and [rateSession] for everyone but its
    buyer, each with its own message; [releasePayment],
    [handleExpiredBooking] and [canAutoComplete] do not look at the caller:
    their result is the same whoever calls. *)
Theorem only_the_parties (e : Env) (s : State) (id : N) :
  let b := getBooking s id in
  (sender e <> kol b ->
   acceptBooking e s id = Revert "Only KOL can accept"
   /\ rejectBooking e s id = Revert "Only KOL can reject"
   /\ completeSession e s id = Revert "Only KOL can complete")
  /\ (sender e <> buyer b ->
      cancelBooking e s id = Revert "Only buyer can cancel"
      /\ (forall r, reportDispute e s id r = Revert "Only buyer can report")
      /\ (forall r, rateSession e s id r = Revert "Only buyer can rate"))
  /\ (forall who : address,
        let e' :=
          mkEnv who (timestamp e) (accepts e) (receivesToken e) (trackerOk e)
        in
        releasePayment e' s id = releasePayment e s id
        /\ handleExpiredBooking e' s id = handleExpiredBooking e s id
        /\ canAutoComplete e' s id = canAutoComplete e s id).
Proof.
  intros b. split; [|split].
  - intros Hk.
    assert (Hz : (kol b =? sender e) = false)
      by (apply N.eqb_neq; congruence).
    unfold acceptBooking, rejectBooking, completeSession. fold b.
    rewrite Hz. repeat split.
  - intros Hb.
    assert (Hz : (buyer b =? sender e) = false)
      by (apply N.eqb_neq; congruence).
    unfold cancelBooking, reportDispute, rateSession. fold b.
    rewrite Hz. repeat split.
  - intros who. repeat split.
Qed.

Lemma run_invariant (P : Booking -> Prop) (id : N) :
  (forall e s c s' paid,
     target c = id -> P (getBooking s id) ->
     dispatch e s c = Ok (s', paid) -> P (getBooking s' id)) ->
  forall calls s, P (getBooking s id) -> P (getBooking (run s calls).1 id).
Proof.
  intros Hstep. induction calls as [|[e c] rest IH]; intros s HP; simpl;
    [exact HP|].
  unfold step; simpl.
  destruct (dispatch e s c) as [[s1 paid1]|r] eqn:D; simpl.
  - assert (HP1 : P (getBooking s1 id)).
    { destruct (decide (target c = id)) as [Ht|Hne]; [by eapply Hstep|].
      apply dispatch_effect in D as [(_ & _ & Hother & _) _].
      rewrite Hother by congruence. exact HP. }
    specialize (IH s1 HP1). by destruct (run s1 rest).
  - specialize (IH s HP). by destruct (run s rest).
Qed.


(** X5.  For an Accepted booking whose session was marked complete, the
    end of the dispute window splits time in two.  Up to
    [sessionEndTime + DISPUTE_PERIOD], that instant included, the buyer's
    [reportDispute] succeeds, setting [disputeReported] and the status
    Disputed, and [canAutoComplete] answers false; strictly after it
    [reportDispute] reverts with "Dispute period expired" and
    [canAutoComplete] answers true. *)
Theorem dispute_window (e : Env) (s : State) (id : N) (r : string) :
  let b := getBooking s id in
  status b = Accepted -> 0 < sessionEndTime b -> disputeReported b = false ->
  sessionEndTime b + DISPUTE_PERIOD <= MAX_UINT256 ->
  sender e = buyer b ->
  (timestamp e <= sessionEndTime b + DISPUTE_PERIOD ->
   canAutoComplete e s id = Ok false
   /\ reportDispute e s id r
      = Ok (setBooking s id
              (with_updatedAt
                 (with_status (with_disputeReported b true) Disputed)
                 (timestamp e)), []))
  /\ (sessionEndTime b + DISPUTE_PERIOD < timestamp e ->
      canAutoComplete e s id = Ok true
      /\ reportDispute e s id r = Revert "Dispute period expired").
Proof.
  intros b Hst Hend Hrep Hrange Hbuyer.
  unfold canAutoComplete, canRelease, reportDispute. fold b.
  rewrite Hst, Hrep.
  expect_true (buyer b =? sender e). expect_true (0 <? sessionEndTime b).
  rewrite bool_decide_eq_true_2 by reflexivity. simpl.
  rewrite checked_add_in_range by exact Hrange. simpl.
  split; intros Ht.
  - expect_false (sessionEndTime b + DISPUTE_PERIOD <? timestamp e).
    expect_true (timestamp e <=? sessionEndTime b + DISPUTE_PERIOD).
    split; reflexivity.
  - expect_true (sessionEndTime b + DISPUTE_PERIOD <? timestamp e).
    expect_false (timestamp e <=? sessionEndTime b + DISPUTE_PERIOD).
    split; reflexivity.
Qed.

(** X6.  A successful [reportDispute] pays nothing, leaves the balance and
    the amount of the booking unchanged and sets the status Disputed; after
    it, through any history of the eight booking operations, the record
    does not change, nothing is paid for the booking, [releasePayment]
    reverts for every caller at every time, and, the contract having been
    solvent, its balance still covers the amount of the booking: the
    contract has no function that resolves a dispute. *)
Theorem disputed_escrow_is_locked (e : Env) (s s' : State) (id : N)
  (r : string) (paid : list Transfer) :
  reportDispute e s id r = Ok (s', paid) ->
  paid = [] /\ balance s' = balance s
  /\ status (getBooking s' id) = Disputed
  /\ totalAmount (getBooking s' id) = totalAmount (getBooking s id)
  /\ forall calls : list (Env * Call),
       getBooking (run s' calls).1 id = getBooking s' id
       /\ paidFor id (run s' calls).2 = []
       /\ (forall e', exists msg,
             releasePayment e' (run s' calls).1 id = Revert msg)
       /\ (solvent s ->
           totalAmount (getBooking s id) <= balance (run s' calls).1).
Proof.
  intros H.
  assert (Hd : dispatch e s (ReportDispute id r) = Ok (s', paid)) by exact H.
  unfold reportDispute in H. peel H. peel_requires. subst.
  set (s1 := setBooking s id _) in *.
  assert (Hb1 : getBooking s1 id
                = with_updatedAt
                    (with_status (with_disputeReported (getBooking s id) true)
                       Disputed) (timestamp e))
    by apply getBooking_setBooking.
  assert (Hf : frozen (status (getBooking s1 id)) = true)
    by (by rewrite Hb1).
  split; [reflexivity|]. split; [reflexivity|].
  split; [by rewrite Hb1|]. split; [by rewrite Hb1|].
  intros calls. destruct (frozen_run s1 id calls Hf) as [Hb Hp].
  split; [exact Hb|]. split; [exact Hp|]. split.
  - intros e'. apply (frozen_blocks e' _ (ReleasePayment id)). simpl.
    by rewrite Hb.
  - intros Hs.
    pose proof (dispatch_keeps_solvent _ _ _ _ _ Hd Hs) as Hs'.
    pose proof (run_keeps_solvent calls _ Hs') as Hs2.
    set (s2 := (run s1 calls).1) in *.
    rewrite Hb1 in Hb. unfold getBooking in Hb at 1.
    destruct (bookings s2 !! id) as [b2|] eqn:Hb2; simpl in Hb.
    + pose proof (solvent_can_pay s2 id b2 Hs2 Hb2) as Hle.
      subst b2. unfold owed in Hle. simpl in Hle. exact Hle.
    + discriminate Hb.
Qed.

Lemma rating_kept (e : Env) (s s' : State) (c : Call) (paid : list Transfer)
  (r : N) :
  ratingSubmitted (getBooking s (target c)) = true ->
  rating (getBooking s (target c)) = r ->
  dispatch e s c = Ok (s', paid) ->
  ratingSubmitted (getBooking s' (target c)) = true
  /\ rating (getBooking s' (target c)) = r.
Proof.
  intros Hsub Hr D. pose proof (dispatch_writes _ _ _ _ _ D) as ->.
  rewrite getBooking_setBalance, getBooking_setBooking.
  destruct c as [i|i|i|i|i x|i x|i|i]; simpl in *; try by split.
  unfold rateSession in D. peel D. peel_requires. congruence.
Qed.

(** X7.  A successful [rateSession] was called by the buyer, with a
    rating of at most 50, on an Accepted or Completed booking whose session
    end is recorded; it pays nothing and stores the rating.  From then on,
    through any history of the eight booking operations, the stored rating
    stays and every further [rateSession] on the booking reverts. *)
Theorem rating_is_final (e : Env) (s s' : State) (id r : N)
  (paid : list Transfer) :
  rateSession e s id r = Ok (s', paid) ->
  let b := getBooking s id in
  sender e = buyer b /\ r <= 50 /\ 0 < sessionEndTime b
  /\ (status b = Accepted \/ status b = Completed)
  /\ paid = [] /\ balance s' = balance s
  /\ getBooking s' id = with_updatedAt (with_rating b r) (timestamp e)
  /\ forall calls : list (Env * Call),
       let b' := getBooking (run s' calls).1 id in
       ratingSubmitted b' = true /\ rating b' = r
       /\ forall e' r',
            exists msg, rateSession e' (run s' calls).1 id r' = Revert msg.
Proof.
  intros H b. unfold rateSession in H. fold b in H. peel H.
  apply require_ok, orb_true_iff in E0.
  assert (Hst : status b = Accepted \/ status b = Completed)
    by (destruct E0 as [E0|E0]; apply bool_decide_eq_true_1 in E0; auto).
  peel_requires. subst.
  set (s1 := setBooking s id _) in *.
  assert (Hb1 : getBooking s1 id
                = with_updatedAt (with_rating b r) (timestamp e))
    by apply getBooking_setBooking.
  repeat (split; [first [done | congruence | lia]|]).
  intros calls b'.
  assert (Hkept : ratingSubmitted b' = true /\ rating b' = r).
  { unfold b'.
    apply (run_invariant
             (fun x => ratingSubmitted x = true /\ rating x = r) id).
    - intros e0 s0 c s0' paid0 <- [Hs0 Hr0] D. by eapply rating_kept.
    - by rewrite Hb1. }
  destruct Hkept as [Hsub Hr]. split; [exact Hsub|]. split; [exact Hr|].
  intros e' r'. unfold rateSession. fold b'. rewrite Hsub.
  destruct (buyer b' =? sender e'); simpl; [|by eexists].
  destruct (bool_decide (status b' = Accepted)
            || bool_decide (status b' = Completed)); simpl; [|by eexists].
  destruct (0 <? sessionEndTime b'); simpl; [|by eexists].
  destruct (0 <=? r'), (r' <=? 50); simpl; by eexists.
Qed.

(** The storage after a successful [createBooking], field by field. *)
Lemma createBooking_ok (e : Env) (s s' : State) (value : N)
  (_kol : address) (_pricePerSlot _totalSlots _fromTime _toTime : N)
  (_reason _tokenURI : string) (paid : list Transfer) :
  createBooking e s value _kol _pricePerSlot _totalSlots _fromTime _toTime
    _reason _tokenURI = Ok (s', paid) ->
  let id := increment (_bookingIds s) in
  let ticket := increment (_tokenIds s) in
  let booking :=
    mkBooking id ticket (sender e) _kol _pricePerSlot _totalSlots value
      _fromTime _toTime _reason Pending (timestamp e) (timestamp e) 0 false 0
      false in
  paid = [] /\ value = _pricePerSlot * _totalSlots
  /\ _kol <> 0 /\ sender e <> 0
  /\ _bookingIds s' = id /\ _tokenIds s' = ticket
  /\ bookings s' = <[id := booking]> (bookings s)
  /\ buyerBookings s'
     = <[sender e := getBuyerBookings s (sender e) ++ [id]]> (buyerBookings s)
  /\ kolBookings s'
     = <[_kol := getKOLBookings s _kol ++ [id]]> (kolBookings s)
  /\ _owners s !! ticket = None
  /\ _owners s' = <[ticket := sender e]> (_owners s)
  /\ platformFeePercent s' = platformFeePercent s
  /\ feeRecipient s' = feeRecipient s
  /\ reputationTracker s' = reputationTracker s
  /\ owner s' = owner s
  /\ balance s' = balance s + value.
Proof.
  intros H. unfold createBooking in H. peel H.
  repeat match goal with
  | G : _safeMint _ _ _ _ = Ok _ |- _ => unfold _safeMint in G; peel G
  | G : _setTokenURI _ _ _ = Ok _ |- _ => unfold _setTokenURI in G; peel G
  end.
  peel_requires. subst. simpl.
  repeat split; try reflexivity; try assumption; try congruence.
Qed.

Lemma perform_config (e : Env) (s s' : State) (t : Tx)
  (paid : list Transfer) :
  perform e s t = Ok (s', paid) ->
  (platformFeePercent s' = platformFeePercent s
   \/ exists p, t = SetPlatformFee p /\ p <= 1000
                /\ platformFeePercent s' = p)
  /\ (feeRecipient s' = feeRecipient s
      \/ exists a, t = SetFeeRecipient a /\ a <> 0 /\ feeRecipient s' = a)
  /\ owner s' = owner s
  /\ (t = EmergencyWithdraw \/ sender e = owner s
      \/ reputationTracker s' = reputationTracker s).
Proof.
  destruct t as [v k p n f u r w|c|a|p|a|]; simpl; intros H.
  - apply createBooking_ok in H.
    destruct H as (_&_&_&_&_&_&_&_&_&_&_&Hp&Hf&Hr&Ho&_). auto 10.
  - apply dispatch_writes in H as ->. simpl. auto 10.
  - unfold setReputationTracker, onlyOwner in H. peel H. peel_requires.
    subst. simpl. auto 10.
  - unfold setPlatformFee, onlyOwner in H. peel H. peel_requires. subst.
    simpl. repeat split; eauto 10.
  - unfold setFeeRecipient, onlyOwner in H. peel H. peel_requires. subst.
    simpl. repeat split; eauto 10.
  - unfold emergencyWithdraw, onlyOwner in H. peel H.
    apply transfer_ok in E0 as (-> & _). subst. simpl. auto 10.
Qed.

Lemma replay_invariant (P : State -> Prop) (allowed : Tx -> bool) :
  (forall e s t s' paid,
     allowed t = true -> P s -> perform e s t = Ok (s', paid) -> P s') ->
  forall (txs : list (Env * Tx)) (s : State),
    forallb (fun et => allowed et.2) txs = true -> P s -> P (replay s txs).
Proof.
  intros Hstep. induction txs as [|[e t] rest IH]; intros s Hall HP; simpl;
    [exact HP|].
  simpl in Hall. apply andb_true_iff in Hall as [Ht Hall].
  apply IH; [exact Hall|].
  destruct (perform e s t) as [[s1 paid1]|r] eqn:D; simpl; [|exact HP].
  by eapply Hstep.
Qed.

Lemma replay_invariant_all (P : State -> Prop) :
  (forall e s t s' paid, P s -> perform e s t = Ok (s', paid) -> P s') ->
  forall (txs : list (Env * Tx)) (s : State), P s -> P (replay s txs).
Proof.
  intros Hstep txs s HP.
  apply (replay_invariant P (fun _ => true)); [eauto| |exact HP].
  by induction txs.
Qed.

(** X8.  In every state reached from the constructor by calls of the
    functions of the contract, [platformFeePercent] is at most 1000 basis
    points; so whenever [releasePayment] succeeds, the fee and the KOL's
    payment add up to [totalAmount] and the fee is at most a tenth of
    it. *)
Theorem fee_capped_at_ten_percent (e0 : Env) (_feeRecipient : address)
  (txs : list (Env * Tx)) :
  let s := replay (constructor e0 _feeRecipient) txs in
  platformFeePercent s <= 1000
  /\ forall e id s' paid,
       releasePayment e s id = Ok (s', paid) ->
       exists platformFee kolPayment,
         paid = (if 0 <? platformFee
                 then [(feeRecipient s, platformFee)] else [])
                ++ [(kol (getBooking s id), kolPayment)]
         /\ platformFee + kolPayment = totalAmount (getBooking s id)
         /\ 10 * platformFee <= totalAmount (getBooking s id).
Proof.
  intros s.
  assert (Hcap : platformFeePercent s <= 1000).
  { unfold s. apply replay_invariant_all; [|simpl; lia].
    intros e s0 t s0' paid HP H.
    apply perform_config in H as ([->|(p & _ & Hp & ->)] & _); assumption. }
  split; [exact Hcap|].
  intros e id s' paid H.
  apply releasePayment_ok in H as (_ & fee & kp & Hsplit & -> & _).
  exists fee, kp. split; [reflexivity|].
  apply splitPayment_sum in Hsplit as [-> Hsum]. split; [exact Hsum|].
  set (a := totalAmount (getBooking s id)) in *.
  set (p := platformFeePercent s) in *.
  assert (a * p / 10000 <= a * 1000 / 10000)
    by (apply N.Div0.div_le_mono; nia).
  assert (10 * (a * 1000 / 10000) <= a).
  { change 10000 with (10 * 1000).
    rewrite N.Div0.div_mul_cancel_r by lia. apply N.Div0.mul_div_le. }
  lia.
Qed.

Lemma perform_keeps_solvent (e : Env) (s s' : State) (t : Tx)
  (paid : list Transfer) :
  withdraws t = false -> solvent s -> perform e s t = Ok (s', paid) ->
  solvent s'.
Proof.
  destruct t as [v k p n f u r w|c|a|p|a|]; simpl; intros Hw Hs H;
    try discriminate Hw.
  - by eapply createBooking_keeps_solvent.
  - by eapply dispatch_keeps_solvent.
  - unfold setReputationTracker in H. peel H. by subst.
  - unfold setPlatformFee in H. peel H. by subst.
  - unfold setFeeRecipient in H. peel H. by subst.
Qed.

Lemma open_booking_covered (s : State) (id : N) :
  solvent s -> terminal (status (getBooking s id)) = false ->
  totalAmount (getBooking s id) <= balance s.
Proof.
  intros Hs Hopen. unfold getBooking in *.
  destruct (bookings s !! id) as [b|] eqn:Hb; simpl in *; [|lia].
  pose proof (solvent_can_pay s id b Hs Hb) as Hle.
  unfold owed in Hle. by rewrite Hopen in Hle.
Qed.

(** X9.  As long as [emergencyWithdraw] is not used, every state reached
    from the constructor is solvent: the balance covers the amounts of all
    bookings that are Pending, Accepted or Disputed together, hence of each
    of them.  A Pending booking can therefore always be refunded in full:
    [cancelBooking] by the buyer, [rejectBooking] by the KOL and, from
    [createdAt + EXPIRY_PERIOD] on, [handleExpiredBooking] by anyone
    succeed and send [totalAmount] to the buyer, provided the buyer's
    account takes the transfer. *)
Theorem escrow_covered_without_withdraw (e0 : Env) (_feeRecipient : address)
  (txs : list (Env * Tx)) :
  forallb (fun et => negb (withdraws et.2)) txs = true ->
  let s := replay (constructor e0 _feeRecipient) txs in
  solvent s
  /\ (forall id, terminal (status (getBooking s id)) = false ->
        totalAmount (getBooking s id) <= balance s)
  /\ (forall e id,
        let b := getBooking s id in
        status b = Pending -> accepts e (buyer b) = true ->
        (sender e = buyer b ->
         exists s', cancelBooking e s id = Ok (s', [(buyer b, totalAmount b)]))
        /\ (sender e = kol b ->
            exists s',
              rejectBooking e s id = Ok (s', [(buyer b, totalAmount b)]))
        /\ (createdAt b + EXPIRY_PERIOD <= timestamp e ->
            timestamp e <= MAX_UINT256 ->
            exists s',
              handleExpiredBooking e s id
              = Ok (s', [(buyer b, totalAmount b)]))).
Proof.
  intros Hno s.
  assert (Hs : solvent s).
  { unfold s.
    apply (replay_invariant solvent (fun t => negb (withdraws t)));
      [|exact Hno|apply constructor_solvent].
    intros e s0 t s0' paid Ht HP H. apply negb_true_iff in Ht.
    by eapply perform_keeps_solvent. }
  split; [exact Hs|]. split; [intros id; by apply open_booking_covered|].
  intros e id b Hst Hacc.
  assert (Hle : totalAmount b <= balance s)
    by (apply open_booking_covered; [exact Hs|]; fold b; by rewrite Hst).
  assert (Hrefund : forall st,
    _refundBuyer e
      (setBooking s id (with_updatedAt (with_status b st) (timestamp e)))
      (with_updatedAt (with_status b st) (timestamp e))
    = Ok (setBalance
            (setBooking s id (with_updatedAt (with_status b st) (timestamp e)))
            (balance s - totalAmount b), [(buyer b, totalAmount b)])).
  { intros st. unfold _refundBuyer. simpl.
    rewrite transfer_can_pay by (simpl; assumption). reflexivity. }
  repeat split.
  - intros Hb. unfold cancelBooking. fold b. rewrite Hst.
    expect_true (buyer b =? sender e).
    rewrite bool_decide_eq_true_2 by reflexivity. simpl.
    rewrite Hrefund. eauto.
  - intros Hk. unfold rejectBooking. fold b. rewrite Hst.
    expect_true (kol b =? sender e).
    rewrite bool_decide_eq_true_2 by reflexivity. simpl.
    rewrite Hrefund. eauto.
  - intros Hexp Hrange. unfold handleExpiredBooking. fold b. rewrite Hst.
    rewrite bool_decide_eq_true_2 by reflexivity. simpl.
    rewrite checked_add_in_range by lia. simpl.
    expect_true (createdAt b + EXPIRY_PERIOD <=? timestamp e). simpl.
    rewrite Hrefund. eauto.
Qed.

Lemma perform_bookings (e : Env) (s s' : State) (t : Tx)
  (paid : list Transfer) :
  perform e s t = Ok (s', paid) ->
  match t with
  | CreateBooking v k p n f u r w =>
      bookings s'
      = <[increment (_bookingIds s) :=
            mkBooking (increment (_bookingIds s)) (increment (_tokenIds s))
              (sender e) k p n (p * n) f u r Pending (timestamp e)
              (timestamp e) 0 false 0 false]> (bookings s)
  | OnBooking c =>
      bookings s'
      = <[target c := written e c (getBooking s (target c))]> (bookings s)
  | _ => bookings s' = bookings s
  end.
Proof.
  destruct t as [v k p n f u r w|c|a|p|a|]; simpl; intros H.
  - apply createBooking_ok in H.
    destruct H as (_&->&_&_&_&_&Hb&_). exact Hb.
  - by apply dispatch_writes in H as ->.
  - unfold setReputationTracker in H. peel H. by subst.
  - unfold setPlatformFee in H. peel H. by subst.
  - unfold setFeeRecipient in H. peel H. by subst.
  - unfold emergencyWithdraw in H. peel H.
    apply transfer_ok in E0 as (-> & _). by subst.
Qed.

Lemma written_wellFormed (e : Env) (s s' : State) (c : Call)
  (paid : list Transfer) :
  dispatch e s c = Ok (s', paid) ->
  wellFormed (getBooking s (target c)) ->
  wellFormed (written e c (getBooking s (target c))).
Proof.
  intros D (Ha & Hr & Hr0 & Hd & Hn).
  set (b := getBooking s (target c)) in *.
  destruct c as [i|i|i|i|i x|i x|i|i]; simpl in *.
  - unfold acceptBooking in D. fold b in D. peel D. peel_requires.
    rewrite E0 in *. unfold wellFormed; simpl.
    repeat split; try assumption; try discriminate.
  - unfold rejectBooking in D. fold b in D. peel D. peel_requires.
    rewrite E0 in *. unfold wellFormed; simpl.
    repeat split; try assumption; by apply Hn.
  - unfold cancelBooking in D. fold b in D. peel D. peel_requires.
    rewrite E0 in *. unfold wellFormed; simpl.
    repeat split; try assumption; by apply Hn.
  - unfold completeSession in D. fold b in D. peel D. peel_requires.
    rewrite E0 in *. unfold wellFormed; simpl. rewrite E0.
    repeat split; try assumption; try discriminate.
  - unfold reportDispute in D. fold b in D. peel D. peel_requires.
    rewrite E0 in *. unfold wellFormed; simpl.
    repeat split; try assumption; try discriminate.
  - unfold rateSession in D. fold b in D. peel D.
    apply require_ok, orb_true_iff in E0.
    assert (Hst : status b = Accepted \/ status b = Completed)
      by (destruct E0 as [E0|E0]; apply bool_decide_eq_true_1 in E0; auto).
    peel_requires. unfold wellFormed; simpl.
    repeat split; try assumption; try (intros; discriminate);
      destruct Hst as [Hst|Hst]; rewrite Hst in *; simpl in *;
      first [assumption | discriminate].
  - apply releasePayment_ok in D as (G & _). fold b in G.
    apply canRelease_true in G as (G & _ & _ & Hno).
    rewrite G in *. unfold wellFormed; simpl.
    repeat split; try assumption; try discriminate.
  - unfold handleExpiredBooking in D. fold b in D. peel D. peel_requires.
    rewrite E in *. unfold wellFormed; simpl.
    repeat split; try assumption; by apply Hn.
Qed.

(** X10.  In every state reached from the constructor, every booking
    record is well formed: [totalAmount = pricePerSlot * totalSlots]; the
    rating is at most 50, and 0 until one is submitted; [disputeReported]
    is set exactly in status Disputed; a booking that is Pending, Rejected,
    Cancelled or Expired has no session end and no rating.  The last check
    of [reportDispute] can therefore never fail: no call reverts with
    "Already reported". *)
Theorem booking_records_well_formed (e0 : Env) (_feeRecipient : address)
  (txs : list (Env * Tx)) (id : N) :
  let s := replay (constructor e0 _feeRecipient) txs in
  wellFormed (getBooking s id)
  /\ forall e r, reportDispute e s id r <> Revert "Already reported".
Proof.
  intros s.
  assert (Hwf : forall j, wellFormed (getBooking s j)).
  { unfold s. apply (replay_invariant_all
                       (fun s => forall j, wellFormed (getBooking s j))).
    - intros e s0 t s0' paid HP H j.
      pose proof (perform_bookings _ _ _ _ _ H) as Hb.
      unfold getBooking at 1.
      destruct t as [v k p n f u r w|c|a|p|a|]; simpl in H;
        try (rewrite Hb; apply HP).
      + rewrite Hb.
        destruct (decide (increment (_bookingIds s0) = j)) as [->|Hne].
        * rewrite lookup_insert_eq. unfold wellFormed; simpl.
          repeat split; try reflexivity; lia.
        * rewrite lookup_insert_ne by exact Hne. apply HP.
      + rewrite Hb. destruct (decide (target c = j)) as [<-|Hne].
        * rewrite lookup_insert_eq. simpl.
          by eapply written_wellFormed.
        * rewrite lookup_insert_ne by exact Hne. apply HP.
    - intros j. unfold getBooking, wellFormed; simpl.
      rewrite lookup_empty; simpl. repeat split; lia. }
  split; [apply Hwf|].
  intros e r. destruct (Hwf id) as (_ & _ & _ & Hd & _).
  unfold reportDispute.
  set (b := getBooking s id) in *.
  destruct (buyer b =? sender e); simpl; [|discriminate].
  destruct (bool_decide (status b = Accepted)) eqn:Hst; simpl;
    [|discriminate].
  apply bool_decide_eq_true_1 in Hst.
  destruct (0 <? sessionEndTime b); simpl; [|discriminate].
  destruct (checked_add (sessionEndTime b) DISPUTE_PERIOD) as [d|m] eqn:Hc;
    simpl.
  - destruct (timestamp e <=? d); simpl; [|discriminate].
    rewrite Hd, Hst. simpl. discriminate.
  - unfold checked_add in Hc. destruct (_ <=? _) in Hc; [discriminate|].
    injection Hc as <-. discriminate.
Qed.

Lemma written_parties (e : Env) (c : Call) (b : Booking) :
  buyer (written e c b) = buyer b /\ kol (written e c b) = kol b
  /\ bookingId (written e c b) = bookingId b
  /\ tokenId (written e c b) = tokenId b.
Proof. by destruct c. Qed.

Lemma increment_next (c : N) : c < MAX_UINT256 -> increment c = c + 1.
Proof.
  intros H. unfold increment. apply N.mod_small. lia.
Qed.

Lemma dispatch_keeps_indexed (e : Env) (s s' : State) (c : Call)
  (paid : list Transfer) :
  dispatch e s c = Ok (s', paid) -> indexed s -> indexed s'.
Proof.
  intros D (Hc & Hb & Hk & Hnb & Hnk & Hid).
  apply dispatch_writes in D as ->.
  destruct (written_parties e c (getBooking s (target c)))
    as (Wb & Wk & Wi & Wt).
  assert (Hget : forall j,
    let b' := getBooking
                (setBalance
                   (setBooking s (target c)
                      (written e c (getBooking s (target c))))
                   (balance s - total paid)) j in
    buyer b' = buyer (getBooking s j) /\ kol b' = kol (getBooking s j)
    /\ bookingId b' = bookingId (getBooking s j)
    /\ tokenId b' = tokenId (getBooking s j)).
  { intros j. simpl. rewrite getBooking_setBalance.
    destruct (decide (target c = j)) as [<-|Hne].
    - rewrite getBooking_setBooking. auto.
    - rewrite getBooking_setBooking_ne by congruence. auto. }
  unfold indexed. simpl.
  split; [exact Hc|]. split; [|split; [|split; [exact Hnb|split; [exact Hnk|]]]].
  - intros u id. destruct (Hget id) as (-> & _). apply Hb.
  - intros u id. destruct (Hget id) as (_ & -> & _). apply Hk.
  - intros id Hr. destruct (Hget id) as (_ & _ & -> & ->). by apply Hid.
Qed.

Lemma createBooking_keeps_indexed (e : Env) (s s' : State) (value : N)
  (_kol : address) (_pricePerSlot _totalSlots _fromTime _toTime : N)
  (_reason _tokenURI : string) (paid : list Transfer) :
  createBooking e s value _kol _pricePerSlot _totalSlots _fromTime _toTime
    _reason _tokenURI = Ok (s', paid) ->
  _bookingIds s < MAX_UINT256 -> indexed s ->
  indexed s' /\ _bookingIds s' = _bookingIds s + 1.
Proof.
  intros H Hlt (Hc & Hb & Hk & Hnb & Hnk & Hid).
  apply createBooking_ok in H.
  destruct H as (_ & _ & _ & _ & Hn & Ht & Hbs & Hbl & Hkl & _ & Ho & _).
  rewrite Hc in Ht, Hbs, Ho. rewrite increment_next in * by exact Hlt.
  set (n := _bookingIds s) in *.
  split; [|exact Hn].
  assert (Hget : forall j, j <> n + 1 -> getBooking s' j = getBooking s j).
  { intros j Hj. unfold getBooking. rewrite Hbs.
    by rewrite lookup_insert_ne by congruence. }
  assert (Hnew : getBooking s' (n + 1)
                 = mkBooking (n + 1) (n + 1) (sender e) _kol _pricePerSlot
                     _totalSlots value _fromTime _toTime _reason Pending
                     (timestamp e) (timestamp e) 0 false 0 false).
  { unfold getBooking. rewrite Hbs. by rewrite lookup_insert_eq. }
  assert (Hbuy : forall u,
    getBuyerBookings s' u
    = if decide (sender e = u) then getBuyerBookings s u ++ [n + 1]
      else getBuyerBookings s u).
  { intros u. unfold getBuyerBookings at 1. rewrite Hbl.
    destruct (decide (sender e = u)) as [<-|Hne].
    - by rewrite lookup_insert_eq.
    - by rewrite lookup_insert_ne by exact Hne. }
  assert (Hkol : forall u,
    getKOLBookings s' u
    = if decide (_kol = u) then getKOLBookings s u ++ [n + 1]
      else getKOLBookings s u).
  { intros u. unfold getKOLBookings at 1. rewrite Hkl.
    destruct (decide (_kol = u)) as [<-|Hne].
    - by rewrite lookup_insert_eq.
    - by rewrite lookup_insert_ne by exact Hne. }
  assert (Hfresh_b : forall u, n + 1 ∉ getBuyerBookings s u).
  { intros u Hin. apply Hb in Hin as [Hr _]. fold n in Hr. lia. }
  assert (Hfresh_k : forall u, n + 1 ∉ getKOLBookings s u).
  { intros u Hin. apply Hk in Hin as [Hr _]. fold n in Hr. lia. }
  unfold indexed. rewrite Hn, Ht.
  split; [reflexivity|]. split; [|split; [|split; [|split]]].
  - intros u id. rewrite Hbuy.
    destruct (decide (id = n + 1)) as [->|Hne].
    + rewrite Hnew. simpl.
      destruct (decide (sender e = u)) as [Hu|Hu].
      * split; [intros _; split; [lia|exact Hu]|].
        intros _. apply elem_of_app. right. by apply list_elem_of_singleton.
      * split; [intros Hin; by apply Hfresh_b in Hin|].
        intros [_ Heq]. contradiction.
    + rewrite (Hget id Hne).
      assert (Hold : id ∈ getBuyerBookings s u
                     <-> 1 <= id <= n + 1 /\ buyer (getBooking s id) = u).
      { rewrite Hb. fold n. split; intros [Hr Hu]; split; auto; lia. }
      destruct (decide (sender e = u)) as [Hu|Hu]; [|exact Hold].
      rewrite elem_of_app, list_elem_of_singleton. rewrite Hold.
      split; [intros [?|?]; [assumption|contradiction]|auto].
  - intros u id. rewrite Hkol.
    destruct (decide (id = n + 1)) as [->|Hne].
    + rewrite Hnew. simpl.
      destruct (decide (_kol = u)) as [Hu|Hu].
      * split; [intros _; split; [lia|exact Hu]|].
        intros _. apply elem_of_app. right. by apply list_elem_of_singleton.
      * split; [intros Hin; by apply Hfresh_k in Hin|].
        intros [_ Heq]. contradiction.
    + rewrite (Hget id Hne).
      assert (Hold : id ∈ getKOLBookings s u
                     <-> 1 <= id <= n + 1 /\ kol (getBooking s id) = u).
      { rewrite Hk. fold n. split; intros [Hr Hu]; split; auto; lia. }
      destruct (decide (_kol = u)) as [Hu|Hu]; [|exact Hold].
      rewrite elem_of_app, list_elem_of_singleton. rewrite Hold.
      split; [intros [?|?]; [assumption|contradiction]|auto].
  - intros u. rewrite Hbuy. destruct (decide (sender e = u)); [|apply Hnb].
    apply NoDup_app. split; [apply Hnb|]. split; [|apply NoDup_singleton].
    intros x Hx Hx'. apply list_elem_of_singleton in Hx' as ->.
    by apply Hfresh_b in Hx.
  - intros u. rewrite Hkol. destruct (decide (_kol = u)); [|apply Hnk].
    apply NoDup_app. split; [apply Hnk|]. split; [|apply NoDup_singleton].
    intros x Hx Hx'. apply list_elem_of_singleton in Hx' as ->.
    by apply Hfresh_k in Hx.
  - intros id Hr. unfold ownerOfTicket. rewrite Ho.
    destruct (decide (id = n + 1)) as [->|Hne].
    + rewrite Hnew. simpl. rewrite lookup_insert_eq. eauto.
    + rewrite (Hget id Hne). rewrite lookup_insert_ne by congruence.
      apply Hid. fold n. lia.
Qed.

Lemma perform_keeps_indexed (e : Env) (s s' : State) (t : Tx)
  (paid : list Transfer) :
  perform e s t = Ok (s', paid) ->
  _bookingIds s < MAX_UINT256 -> indexed s ->
  indexed s' /\ _bookingIds s' <= _bookingIds s + 1.
Proof.
  destruct t as [v k p n f u r w|c|a|p|a|]; simpl; intros H Hlt Hi.
  - destruct (createBooking_keeps_indexed _ _ _ _ _ _ _ _ _ _ _ _ H Hlt Hi)
      as [Hi' ->]. split; [exact Hi'|lia].
  - split; [by eapply dispatch_keeps_indexed|].
    apply dispatch_writes in H as ->. simpl. lia.
  - unfold setReputationTracker in H. peel H. subst. split; [exact Hi|].
    simpl. lia.
  - unfold setPlatformFee in H. peel H. subst. split; [exact Hi|].
    simpl. lia.
  - unfold setFeeRecipient in H. peel H. subst. split; [exact Hi|].
    simpl. lia.
  - unfold emergencyWithdraw in H. peel H.
    apply transfer_ok in E0 as (-> & _). subst. split; [exact Hi|].
    simpl. lia.
Qed.

Lemma replay_keeps_indexed (txs : list (Env * Tx)) :
  forall s : State,
    indexed s -> _bookingIds s + N.of_nat (length txs) <= MAX_UINT256 ->
    indexed (replay s txs)
    /\ _bookingIds (replay s txs) <= _bookingIds s + N.of_nat (length txs).
Proof.
  induction txs as [|[e t] rest IH]; intros s Hi Hlen; simpl.
  - split; [exact Hi|lia].
  - simpl length in Hlen. rewrite Nat2N.inj_succ in Hlen |- *.
    destruct (perform e s t) as [[s1 paid1]|r] eqn:D; simpl.
    + destruct (perform_keeps_indexed _ _ _ _ _ D) as [Hi1 Hn1];
        [lia|exact Hi|].
      destruct (IH s1 Hi1) as [Hi2 Hn2]; [lia|]. split; [exact Hi2|lia].
    + destruct (IH s Hi) as [Hi2 Hn2]; [lia|]. split; [exact Hi2|lia].
Qed.

(** X11.  In every state reached from the constructor by a history that is
    not longer than [2^256 - 1] calls, the ticket counter equals the booking
    counter, which is at most the length of the history; an id is in
    [getBuyerBookings(u)] exactly when it lies between 1 and the counter
    and the booking's buyer is [u], and likewise for [getKOLBookings]; no
    list holds an id twice; and every booking with such an id is stored
    under it with [bookingId = tokenId = id], its ticket minted. *)
Theorem booking_lists_consistent (e0 : Env) (_feeRecipient : address)
  (txs : list (Env * Tx)) :
  N.of_nat (length txs) <= MAX_UINT256 ->
  let s := replay (constructor e0 _feeRecipient) txs in
  indexed s /\ getTotalBookings s <= N.of_nat (length txs).
Proof.
  intros Hlen s.
  destruct (replay_keeps_indexed txs (constructor e0 _feeRecipient))
    as [Hi Hn]; [|simpl; lia|split; [exact Hi|exact Hn]].
  unfold indexed, getBuyerBookings, getKOLBookings, getBooking, ownerOfTicket.
  simpl. split; [reflexivity|].
  split; [|split; [|split; [|split]]].
  - intros u id. rewrite lookup_empty. simpl.
    split; [intros Hin; by apply elem_of_nil in Hin|lia].
  - intros u id. rewrite lookup_empty. simpl.
    split; [intros Hin; by apply elem_of_nil in Hin|lia].
  - intros u. rewrite lookup_empty. apply NoDup_nil_2.
  - intros u. rewrite lookup_empty. apply NoDup_nil_2.
  - intros id Hr. lia.
Qed.

Lemma notifyTracker_blocked (e : Env) (s : State) (c : TrackerCall) (u : unit) :
  reputationTracker s <> 0 -> trackerOk e c = false ->
  notifyTracker e s c = Ok u -> False.
Proof.
  intros Hr Hc. unfold notifyTracker.
  replace (reputationTracker s =? 0) with false
    by (symmetry; by apply N.eqb_neq).
  by rewrite Hc.
Qed.

(** X12.  While a reputation tracker is set whose hooks revert,
    [createBooking], [acceptBooking] and [releasePayment] revert whatever
    their arguments: the hook is called unguarded, so escrowed payments
    cannot be released.  [rejectBooking], [cancelBooking],
    [handleExpiredBooking], [completeSession], [reportDispute] and
    [rateSession] never call the tracker: their result does not depend on
    it. *)
Theorem reverting_tracker_blocks (e : Env) (s : State) :
  reputationTracker s <> 0 -> (forall c, trackerOk e c = false) ->
  (forall value _kol _pricePerSlot _totalSlots _fromTime _toTime _reason
          _tokenURI,
     exists msg,
       createBooking e s value _kol _pricePerSlot _totalSlots _fromTime
         _toTime _reason _tokenURI = Revert msg)
  /\ (forall id, exists msg, acceptBooking e s id = Revert msg)
  /\ (forall id, exists msg, releasePayment e s id = Revert msg)
  /\ (forall hook id r n,
        let e' :=
          mkEnv (sender e) (timestamp e) (accepts e) (receivesToken e) hook
        in
        rejectBooking e' s id = rejectBooking e s id
        /\ cancelBooking e' s id = cancelBooking e s id
        /\ handleExpiredBooking e' s id = handleExpiredBooking e s id
        /\ completeSession e' s id = completeSession e s id
        /\ reportDispute e' s id r = reportDispute e s id r
        /\ rateSession e' s id n = rateSession e s id n).
Proof.
  intros Hr Hhook. repeat split.
  - intros value _kol _pricePerSlot _totalSlots _fromTime _toTime _reason
      _tokenURI.
    destruct (createBooking e s value _kol _pricePerSlot _totalSlots
                _fromTime _toTime _reason _tokenURI)
      as [[s' paid]|msg] eqn:H; [exfalso|by eexists].
    unfold createBooking in H. peel H.
    repeat match goal with
    | G : _safeMint _ _ _ _ = Ok _ |- _ => unfold _safeMint in G; peel G
    | G : _setTokenURI _ _ _ = Ok _ |- _ => unfold _setTokenURI in G; peel G
    end.
    subst.
    match goal with
    | G : notifyTracker _ _ _ = Ok _ |- _ =>
        eapply notifyTracker_blocked in G; [exact G|exact Hr|apply Hhook]
    end.
  - intros id.
    destruct (acceptBooking e s id) as [[s' paid]|msg] eqn:H;
      [exfalso|by eexists].
    unfold acceptBooking in H. peel H.
    match goal with
    | G : notifyTracker _ _ _ = Ok _ |- _ =>
        eapply notifyTracker_blocked in G; [exact G|exact Hr|apply Hhook]
    end.
  - intros id.
    destruct (releasePayment e s id) as [[s' paid]|msg] eqn:H;
      [exfalso|by eexists].
    unfold releasePayment in H. peel H.
    destruct x1 as [platformFee kolPayment]. peel H.
    destruct x1 as [s1 paidFee]. peel H.
    apply transfer_ok in E3 as (-> & _).
    assert (Hs1 : reputationTracker s1 = reputationTracker s).
    { destruct (0 <? platformFee).
      - peel E2. apply transfer_ok in E3 as (-> & _). by subst.
      - peel E2. by subst. }
    match goal with
    | G : notifyTracker _ _ _ = Ok _ |- _ =>
        eapply notifyTracker_blocked in G; [exact G| |apply Hhook]
    end.
    simpl. by rewrite Hs1.
Qed.

(** X13.  Creating a booking and undoing it is a round trip for the
    money: right after a successful [createBooking], [cancelBooking] by the
    buyer, [rejectBooking] by the KOL and, five days later,
    [handleExpiredBooking] by anyone succeed, send exactly the payment back
    to the buyer and restore the balance the contract had before, provided
    the buyer's account takes the transfer. *)
Theorem create_then_refund (e e' : Env) (s s1 : State) (value : N)
  (_kol : address) (_pricePerSlot _totalSlots _fromTime _toTime : N)
  (_reason _tokenURI : string) (paid : list Transfer) :
  createBooking e s value _kol _pricePerSlot _totalSlots _fromTime _toTime
    _reason _tokenURI = Ok (s1, paid) ->
  accepts e' (sender e) = true ->
  let id := increment (_bookingIds s) in
  (sender e' = sender e ->
   exists s2,
     cancelBooking e' s1 id = Ok (s2, [(sender e, value)])
     /\ balance s2 = balance s
     /\ status (getBooking s2 id) = Cancelled)
  /\ (sender e' = _kol ->
      exists s2,
        rejectBooking e' s1 id = Ok (s2, [(sender e, value)])
        /\ balance s2 = balance s
        /\ status (getBooking s2 id) = Rejected)
  /\ (timestamp e + EXPIRY_PERIOD <= timestamp e' ->
      timestamp e' <= MAX_UINT256 ->
      exists s2,
        handleExpiredBooking e' s1 id = Ok (s2, [(sender e, value)])
        /\ balance s2 = balance s
        /\ status (getBooking s2 id) = Expired).
Proof.
  intros H Hacc id. apply createBooking_ok in H.
  destruct H as (_ & Hv & _ & _ & _ & _ & Hbs & _ & _ & _ & _ & _ & _ & _ & _
                 & Hbal).
  fold id in Hbs.
  assert (Hb : getBooking s1 id
               = mkBooking id (increment (_tokenIds s)) (sender e) _kol
                   _pricePerSlot _totalSlots value _fromTime _toTime
                   _reason Pending (timestamp e) (timestamp e) 0 false 0
                   false).
  { unfold getBooking. rewrite Hbs. by rewrite lookup_insert_eq. }
  assert (Hrefund : forall st,
    exists s2,
      _refundBuyer e'
        (setBooking s1 id
           (with_updatedAt (with_status (getBooking s1 id) st) (timestamp e')))
        (with_updatedAt (with_status (getBooking s1 id) st) (timestamp e'))
      = Ok (s2, [(sender e, value)])
      /\ balance s2 = balance s /\ status (getBooking s2 id) = st).
  { intros st. unfold _refundBuyer. rewrite Hb. simpl.
    rewrite transfer_can_pay by (simpl; first [lia|exact Hacc]). simpl.
    eexists. split; [reflexivity|]. simpl.
    rewrite getBooking_setBalance, getBooking_setBooking. simpl.
    split; [lia|reflexivity]. }
  repeat split.
  - intros Hs. unfold cancelBooking.
    replace (buyer (getBooking s1 id) =? sender e') with true
      by (symmetry; apply N.eqb_eq; rewrite Hb; simpl; congruence).
    replace (status (getBooking s1 id)) with Pending by (by rewrite Hb).
    rewrite bool_decide_eq_true_2 by reflexivity. simpl. apply Hrefund.
  - intros Hs. unfold rejectBooking.
    replace (kol (getBooking s1 id) =? sender e') with true
      by (symmetry; apply N.eqb_eq; rewrite Hb; simpl; congruence).
    replace (status (getBooking s1 id)) with Pending by (by rewrite Hb).
    rewrite bool_decide_eq_true_2 by reflexivity. simpl. apply Hrefund.
  - intros Hexp Hrange. unfold handleExpiredBooking.
    replace (status (getBooking s1 id)) with Pending by (by rewrite Hb).
    rewrite bool_decide_eq_true_2 by reflexivity. simpl.
    replace (createdAt (getBooking s1 id)) with (timestamp e)
      by (by rewrite Hb).
    rewrite checked_add_in_range by lia. simpl.
    expect_true (timestamp e + EXPIRY_PERIOD <=? timestamp e'). simpl.
    apply Hrefund.
Qed.

(** X14.  [canAutoComplete] is the guard of [releasePayment].  In every
    state reached from the constructor without [emergencyWithdraw]: when
    the view answers false, [releasePayment] reverts with
    "Cannot release payment"; when it reverts, so does [releasePayment],
    alike; when it
    answers true, [releasePayment] succeeds for any caller, pays
    [totalAmount] in total and marks the booking Completed, provided the
    fee computation stays within [uint256], the fee recipient and the KOL
    take their transfers and the reputation hook, if set, does not
    revert. *)
Theorem canAutoComplete_predicts_release (e0 : Env) (_feeRecipient : address)
  (txs : list (Env * Tx)) (e : Env) (id : N) :
  forallb (fun et => negb (withdraws et.2)) txs = true ->
  let s := replay (constructor e0 _feeRecipient) txs in
  let b := getBooking s id in
  (canAutoComplete e s id = Ok false ->
   releasePayment e s id = Revert "Cannot release payment")
  /\ (forall msg, canAutoComplete e s id = Revert msg ->
        releasePayment e s id = Revert msg)
  /\ (canAutoComplete e s id = Ok true ->
      totalAmount b * platformFeePercent s <= MAX_UINT256 ->
      accepts e (feeRecipient s) = true -> accepts e (kol b) = true ->
      reputationTracker s = 0
      \/ trackerOk e
           (TrackBookingCompleted (kol b) (buyer b) id
              (if ratingSubmitted b then rating b else 25)) = true ->
      exists s' paid,
        releasePayment e s id = Ok (s', paid)
        /\ total paid = totalAmount b
        /\ balance s' = balance s - totalAmount b
        /\ status (getBooking s' id) = Completed).
Proof.
  intros Hno s b.
  assert (Hinv : solvent s /\ platformFeePercent s <= 1000).
  { unfold s.
    apply (replay_invariant
             (fun s => solvent s /\ platformFeePercent s <= 1000)
             (fun t => negb (withdraws t)));
      [|exact Hno|split; [apply constructor_solvent|simpl; lia]].
    intros e1 s0 t s0' paid Ht [Hs Hp] H. apply negb_true_iff in Ht.
    split; [by eapply perform_keeps_solvent|].
    apply perform_config in H as ([->|(p & _ & Hle & ->)] & _); assumption. }
  destruct Hinv as [Hs Hp].
  unfold canAutoComplete, releasePayment. fold b.
  split; [by intros ->|]. split; [by intros msg ->|].
  intros Hcan Hmul Hfr Hk Hhook. rewrite Hcan. simpl.
  apply canRelease_true in Hcan as (Hst & _).
  assert (Hbal : totalAmount b <= balance s)
    by (apply open_booking_covered; [exact Hs|]; fold b; by rewrite Hst).
  set (platformFee := totalAmount b * platformFeePercent s / 10000).
  assert (Hfee : platformFee <= totalAmount b) by (apply fee_le; lia).
  unfold splitPayment.
  rewrite checked_mul_in_range by assumption. simpl.
  rewrite checked_sub_in_range by assumption. simpl.
  fold platformFee.
  destruct (N.ltb_spec 0 platformFee) as [Hpos|Hzero]; simpl.
  - rewrite transfer_can_pay by (simpl; solve [lia | assumption]). simpl.
    rewrite transfer_can_pay by (simpl; solve [lia | assumption]). simpl.
    rewrite notifyTracker_ok by (simpl; assumption). simpl.
    eexists _, _. split; [reflexivity|].
    rewrite getBooking_setBalance. simpl.
    rewrite getBooking_setBalance, getBooking_setBooking.
    unfold total; simpl. repeat split; lia.
  - rewrite transfer_can_pay by (simpl; solve [lia | assumption]). simpl.
    rewrite notifyTracker_ok by (simpl; assumption). simpl.
    eexists _, _. split; [reflexivity|].
    rewrite getBooking_setBalance, getBooking_setBooking.
    unfold total; simpl. repeat split; lia.
Qed.

Lemma createBooking_books_witness :
  exists s',
    createBooking (by_ 10 1000) deployed 200 20 100 2 4600 8200
      "consultation" "ipfs://ticket" = Ok (s', [])
    /\ getBooking s' 1
       = mkBooking 1 1 10 20 100 2 200 4600 8200 "consultation" Pending
           1000 1000 0 false 0 false
    /\ balance s' = 200.
Proof.
  destruct (createBooking_books (by_ 10 1000) deployed 200 20 100 2 4600
              8200 "consultation" "ipfs://ticket") as [Heff Hok].
  destruct Hok as [s' Hs']; [crunch .. |].
  destruct (Heff s' [] Hs') as (_ & _ & Hb & _ & Hbal & _).
  exists s'. split; [exact Hs'|]. split; [settle Hb | settle Hbal].
Defined.

Lemma never_created_booking_witness :
  acceptBooking (by_ 7 432000) deployed 5 = Revert "Only KOL can accept"
  /\ exists s',
       handleExpiredBooking (by_ 7 432000) deployed 5 = Ok (s', [(0, 0)])
       /\ status (getBooking s' 5) = Expired.
Proof.
  destruct (never_created_booking (by_ 7 432000) deployed 5)
    as (H1 & _ & _ & _ & _ & _ & _ & _ & _ & H10); [crunch | crunch |].
  split; [exact H1|].
  destruct H10 as (s' & Hs' & Hb & _); [crunch | crunch |].
  exists s'. split; [exact Hs'|]. unfold getBooking. by rewrite Hb.
Defined.

Lemma only_the_parties_witness :
  acceptBooking (by_ 30 2000) pending200 1 = Revert "Only KOL can accept"
  /\ cancelBooking (by_ 30 2000) pending200 1 = Revert "Only buyer can cancel".
Proof.
  destruct (only_the_parties (by_ 30 2000) pending200 1) as (Hk & Hb & _).
  destruct Hk as (H1 & _); [crunch|]. destruct Hb as (H2 & _); [crunch|].
  split; [exact H1 | exact H2].
Defined.

Lemma frozen_booking_never_changes_witness :
  getBooking
    (run cancelled200
       [ (by_ 20 2000, AcceptBooking 1);
         (by_ 7 500000, HandleExpiredBooking 1) ]).1 1
  = getBooking cancelled200 1
  /\ status (getBooking cancelled200 1) = Cancelled.
Proof.
  destruct (frozen_booking_never_changes cancelled200 1
              [ (by_ 20 2000, AcceptBooking 1);
                (by_ 7 500000, HandleExpiredBooking 1) ])
    as (Hb & _); [crunch|].
  split; [exact Hb | crunch].
Defined.

Lemma dispute_window_witness :
  (exists s',
     reportDispute (by_ 10 95400) accepted1000 1 "no show" = Ok (s', []))
  /\ reportDispute (by_ 10 95401) accepted1000 1 "no show"
     = Revert "Dispute period expired".
Proof.
  split.
  - destruct (dispute_window (by_ 10 95400) accepted1000 1 "no show")
      as (H & _); [crunch .. |].
    destruct H as (_ & H); [crunch|]. eexists. exact H.
  - destruct (dispute_window (by_ 10 95401) accepted1000 1 "no show")
      as (_ & H); [crunch .. |].
    destruct H as (_ & H); [crunch|]. exact H.
Defined.

Lemma disputed_escrow_is_locked_witness :
  status (getBooking disputed1000 1) = Disputed
  /\ exists msg, releasePayment (by_ 7 200000) disputed1000 1 = Revert msg.
Proof.
  destruct (disputed_escrow_is_locked (by_ 10 9500) accepted1000 disputed1000
              1 "no show" []) as (_ & _ & Hst & _ & H); [crunch|].
  split; [exact Hst|].
  destruct (H []) as (_ & _ & Hr & _). exact (Hr (by_ 7 200000)).
Defined.

Lemma rating_is_final_witness :
  rating (getBooking rated1000 1) = 40
  /\ exists msg, rateSession (by_ 10 9200) rated1000 1 50 = Revert msg.
Proof.
  destruct (rating_is_final (by_ 10 9100) accepted1000 rated1000 1 40 [])
    as (_ & _ & _ & _ & _ & _ & _ & H); [crunch|].
  destruct (H []) as (_ & Hr & Hrev).
  split; [exact Hr | exact (Hrev (by_ 10 9200) 50)].
Defined.

Lemma fee_capped_at_ten_percent_witness :
  platformFeePercent (replay deployed feeHistory) <= 1000.
Proof.
  destruct (fee_capped_at_ten_percent (by_ 1 0) 2 feeHistory) as [H _].
  exact H.
Defined.

Lemma escrow_covered_without_withdraw_witness :
  exists s',
    cancelBooking (by_ 10 9500) (replay deployed (take 1 history)) 1
    = Ok (s', [(10, 1000)]).
Proof.
  destruct (escrow_covered_without_withdraw (by_ 1 0) 2 (take 1 history))
    as (_ & _ & H); [crunch|].
  destruct (H (by_ 10 9500) 1) as (Hc & _); [crunch | crunch |].
  destruct Hc as [s' Hs']; [crunch|]. exists s'. settle Hs'.
Defined.

Lemma booking_records_well_formed_witness :
  wellFormed (getBooking (replay deployed history) 1).
Proof.
  destruct (booking_records_well_formed (by_ 1 0) 2 history 1) as [H _].
  exact H.
Defined.

Lemma booking_lists_consistent_witness :
  indexed (replay deployed history)
  /\ getTotalBookings (replay deployed history) <= 3.
Proof.
  apply (booking_lists_consistent (by_ 1 0) 2 history). crunch.
Defined.

Lemma reverting_tracker_blocks_witness :
  exists msg, acceptBooking (hookReverts 20 2000) trackedPending 1 = Revert msg.
Proof.
  destruct (reverting_tracker_blocks (hookReverts 20 2000) trackedPending)
    as (_ & H & _); [crunch | intros c; reflexivity |].
  exact (H 1).
Defined.

Lemma create_then_refund_witness :
  exists s2,
    cancelBooking (by_ 10 1500) pending200 1 = Ok (s2, [(10, 200)])
    /\ balance s2 = 0.
Proof.
  destruct (create_then_refund (by_ 10 1000) (by_ 10 1500) deployed
              pending200 200 20 100 2 4600 8200 "consultation"
              "ipfs://ticket" []) as (H & _); [crunch | crunch |].
  destruct H as (s2 & H2 & Hb & _); [crunch|].
  exists s2. split; [settle H2 | settle Hb].
Defined.

Lemma canAutoComplete_predicts_release_witness :
  exists s' paid,
    releasePayment (by_ 7 95401) (replay deployed history) 1 = Ok (s', paid)
    /\ total paid = 1000.
Proof.
  destruct (canAutoComplete_predicts_release (by_ 1 0) 2 history
              (by_ 7 95401) 1) as (_ & _ & H); [crunch|].
  destruct H as (s' & paid & Hr & Ht & _); [crunch .. |].
  exists s', paid. split; [settle Hr | settle Ht].
Defined.

(** X29.  A fee recipient that is set stays set: from a state whose
    [feeRecipient] is not [address(0)], no history of calls makes it
    [address(0)], and [setFeeRecipient(address(0))] by the owner reverts
    with "Invalid address".  The constructor makes no such check: it stores
    the recipient it is given, [address(0)] included. *)
Theorem fee_recipient_stays_set (s : State) (txs : list (Env * Tx)) :
  feeRecipient s <> 0 ->
  feeRecipient (replay s txs) <> 0
  /\ (forall e, sender e = owner (replay s txs) ->
        setFeeRecipient e (replay s txs) 0 = Revert "Invalid address")
  /\ (forall e0 _feeRecipient,
        feeRecipient (constructor e0 _feeRecipient) = _feeRecipient).
Proof.
  intros Hset. split; [|split].
  - apply replay_invariant_all; [|exact Hset].
    intros e s0 t s0' paid HP H.
    apply perform_config in H as (_ & [->|(a & _ & Ha & ->)] & _);
      assumption.
  - intros e Ho. unfold setFeeRecipient, onlyOwner.
    expect_true (owner (replay s txs) =? sender e). reflexivity.
  - reflexivity.
Qed.

Lemma fee_recipient_stays_set_witness :
  feeRecipient (replay deployed feeHistory) <> 0.
Proof.
  destruct (fee_recipient_stays_set deployed feeHistory) as [H _]; [crunch|].
  exact H.
Defined.

End EscrowHistories.

(** * The reputation ledger *)

Section ReputationLedger.
Import Reputation.

Lemma _updateUserReputation_unregistered (e : Env) (s : State)
  (user : address) (activityType : string) (pointsEarned : N) :
  tokenOf (reputationNFT s) user = 0 ->
  _updateUserReputation e s user activityType pointsEarned = Ok s.
Proof. intros Ht. unfold _updateUserReputation. by rewrite Ht. Qed.

Lemma setKOLStatus_unregistered (e : Env) (n : NFT) (user : address)
  (flag : bool) :
  tokenOf n user = 0 ->
  setKOLStatus e n user flag
  = if isAuthorized e n then Revert "User doesn't have reputation NFT"
    else Revert "Not authorized".
Proof.
  intros Ht. unfold setKOLStatus. rewrite Ht.
  by destruct (isAuthorized e n).
Qed.

Lemma trackBookingAccepted_unregistered (e : Env) (s : State) (kol : address)
  (bookingId : N) :
  tokenOf (reputationNFT s) kol = 0 ->
  default false (isRegisteredKOL s !! kol) = false ->
  trackBookingAccepted e s kol bookingId
  = if negb (sender e =? timeBooking s)
    then Revert "Only TimeBooking contract"
    else if negb (totalBookingsAsKOL (activityOf s kol) + 1 <=? MAX_UINT256)
    then Revert PANIC_ARITH
    else if trackerAuthorized s
    then Revert "User doesn't have reputation NFT"
    else Revert "Not authorized".
Proof.
  intros Ht Hk. unfold trackBookingAccepted, onlyTimeBooking.
  destruct (sender e =? timeBooking s); simpl; [|reflexivity].
  unfold checked_add.
  destruct (totalBookingsAsKOL (activityOf s kol) + 1 <=? MAX_UINT256);
    simpl; [|reflexivity].
  rewrite _updateUserReputation_unregistered by exact Ht. simpl.
  rewrite Hk. simpl.
  rewrite setKOLStatus_unregistered by exact Ht.
  unfold isAuthorized, trackerAuthorized. simpl.
  by destruct (_ || _).
Qed.

(** X15.  [trackBookingAccepted] reverts for every KOL who holds no
    reputation token and is not yet marked in [isRegisteredKOL]: the first
    acceptance raises the KOL flag through [setKOLStatus], which needs the
    token.  Called by the booking contract, with the tracker authorized on
    the token contract, the revert reason is
    "User doesn't have reputation NFT". *)
Theorem first_accept_needs_registration (e : Env) (s : State)
  (kol : address) (bookingId : N) :
  tokenOf (reputationNFT s) kol = 0 ->
  default false (isRegisteredKOL s !! kol) = false ->
  (exists msg, trackBookingAccepted e s kol bookingId = Revert msg)
  /\ (sender e = timeBooking s ->
      totalBookingsAsKOL (activityOf s kol) < MAX_UINT256 ->
      trackerAuthorized s = true ->
      trackBookingAccepted e s kol bookingId
      = Revert "User doesn't have reputation NFT").
Proof.
  intros Ht Hk.
  rewrite (trackBookingAccepted_unregistered e s kol bookingId Ht Hk).
  split.
  - destruct (negb _); [by eexists|].
    destruct (negb _); [by eexists|].
    destruct (trackerAuthorized s); by eexists.
  - intros Hs Hlt Ha.
    expect_true (sender e =? timeBooking s). simpl.
    expect_true (totalBookingsAsKOL (activityOf s kol) + 1 <=? MAX_UINT256).
    simpl. by rewrite Ha.
Qed.

(** X17.  Whatever the four thresholds are, a higher score never gets a
    lower level; the level depends on the [silver], [gold] and [diamond]
    thresholds only: [bronze] is never read. *)
Theorem _calculateLevel_monotone (n : NFT) (a b : N) :
  a <= b ->
  rank (_calculateLevel n a) <= rank (_calculateLevel n b)
  /\ (forall n' : NFT,
        silver (levelThresholds n') = silver (levelThresholds n) ->
        gold (levelThresholds n') = gold (levelThresholds n) ->
        diamond (levelThresholds n') = diamond (levelThresholds n) ->
        _calculateLevel n' a = _calculateLevel n a).
Proof.
  intros Hab. split.
  - unfold _calculateLevel.
    destruct (N.leb_spec (diamond (levelThresholds n)) a),
             (N.leb_spec (diamond (levelThresholds n)) b),
             (N.leb_spec (gold (levelThresholds n)) a),
             (N.leb_spec (gold (levelThresholds n)) b),
             (N.leb_spec (silver (levelThresholds n)) a),
             (N.leb_spec (silver (levelThresholds n)) b);
      simpl; lia.
  - intros n' Hs Hg Hd. unfold _calculateLevel. by rewrite Hs, Hg, Hd.
Qed.

Lemma tokenOf_mint (e : Env) (n n' : NFT) (to : address) (t : N) :
  mintReputationNFT e n to = Ok (n', t) ->
  tokenOf n to = 0 /\ to <> 0 /\ t = increment (_tokenIdCounter n)
  /\ _owners n !! t = None
  /\ userToTokenId n' = <[to := t]> (userToTokenId n)
  /\ _owners n' = <[t := to]> (_owners n)
  /\ reputationData n'
     = <[t := mkReputationData 0 0 0 0 Bronze 0 0 0 0 (timestamp e) false]>
         (reputationData n)
  /\ _tokenIdCounter n' = t
  /\ authorizedUpdaters n' = authorizedUpdaters n
  /\ levelThresholds n' = levelThresholds n
  /\ nftOwner n' = nftOwner n.
Proof.
  unfold mintReputationNFT. intros H. peel H. peel_requires. subst n' t.
  simpl. repeat split; try assumption; congruence.
Qed.

Lemma mintReputationNFT_owned (e : Env) (n n' : NFT) (to : address) (t : N) :
  mintReputationNFT e n to = Ok (n', t) -> owned n -> owned n'.
Proof.
  intros H Ho. apply tokenOf_mint in H
    as (H0 & _ & -> & Hfresh & Hu & Hw & _).
  set (t := increment (_tokenIdCounter n)) in *.
  intros u. unfold tokenOf. rewrite Hu, Hw.
  destruct (decide (to = u)) as [->|Hne].
  - rewrite lookup_insert_eq. simpl. intros _. by rewrite lookup_insert_eq.
  - rewrite lookup_insert_ne by exact Hne. intros Hu0.
    specialize (Ho u Hu0). unfold tokenOf in Ho.
    rewrite lookup_insert_ne; [exact Ho|].
    intros Heq. rewrite <- Heq in Ho. congruence.
Qed.

Lemma setData_owned (n : NFT) (t : N) (d : ReputationData) :
  owned n -> owned (setData n t d).
Proof. intros Ho u. apply Ho. Qed.

Lemma exec_keeps_owned (e : Env) (s s' : State) (op : Op) :
  exec e s op = Ok s' -> owned (reputationNFT s) -> owned (reputationNFT s').
Proof.
  intros H Ho.
  assert (Hupd : forall e0 n n' u on so th tc vol bc avg,
    updateReputation e0 n u on so th tc vol bc avg = Ok n' ->
    owned n -> owned n').
  { intros e0 n n' u on so th tc vol bc avg Hu Hn.
    apply updateReputation_ok in Hu as (_ & _ & _ & total & _ & ->).
    by apply setData_owned. }
  assert (Hflag : forall e0 n n' u flag,
    setKOLStatus e0 n u flag = Ok n' -> owned n -> owned n').
  { intros e0 n n' u flag Hu Hn. unfold setKOLStatus in Hu. peel Hu. subst.
    by apply setData_owned. }
  destruct (viaTracker op) eqn:Hvia.
  - revert Hvia H Ho. apply (tracker_keeps owned).
    + apply mintReputationNFT_owned.
    + exact Hupd.
    + intros e0 n n' u. apply Hflag.
  - destruct op; try discriminate Hvia; simpl in H.
    + peel H. destruct x as [n t0]. subst. simpl.
      eapply mintReputationNFT_owned; eauto.
    + unfold onNFT in H. peel H. subst. simpl. eapply Hupd; eauto.
    + unfold onNFT in H. peel H. subst. simpl. eapply Hflag; eauto.
    + unfold onNFT, setAuthorizedUpdater in H. peel H. peel E. subst.
      exact Ho.
    + unfold onNFT, updateLevelThresholds in H. peel H. peel E. subst.
      exact Ho.
Qed.

Lemma exec_keeps_token (e : Env) (s s' : State) (op : Op) (user : address) :
  exec e s op = Ok s' ->
  tokenOf (reputationNFT s) user <> 0 ->
  tokenOf (reputationNFT s') user = tokenOf (reputationNFT s) user.
Proof.
  intros H Ht.
  set (P := fun n : NFT =>
              tokenOf n user = tokenOf (reputationNFT s) user).
  assert (Hmint : forall e0 n n' to t,
    mintReputationNFT e0 n to = Ok (n', t) -> P n -> P n').
  { intros e0 n n' to t Hm Hn. unfold P in *.
    apply tokenOf_mint in Hm as (H0 & _ & _ & _ & Hu & _).
    unfold tokenOf at 1. rewrite Hu.
    rewrite lookup_insert_ne; [exact Hn|]. intros ->. congruence. }
  assert (Hupd : forall e0 n n' u on so th tc vol bc avg,
    updateReputation e0 n u on so th tc vol bc avg = Ok n' -> P n -> P n').
  { intros e0 n n' u on so th tc vol bc avg Hu Hn.
    by apply updateReputation_ok in Hu as (_ & _ & _ & total & _ & ->). }
  assert (Hflag : forall e0 n n' u flag,
    setKOLStatus e0 n u flag = Ok n' -> P n -> P n').
  { intros e0 n n' u flag Hu Hn. unfold setKOLStatus in Hu. peel Hu.
    by subst. }
  assert (HP : P (reputationNFT s)) by reflexivity.
  change (P (reputationNFT s')).
  destruct (viaTracker op) eqn:Hvia.
  - revert Hvia H HP. apply (tracker_keeps P).
    + exact Hmint.
    + exact Hupd.
    + intros e0 n n' u. apply Hflag.
  - destruct op; try discriminate Hvia; simpl in H.
    + peel H. destruct x as [n t0]. subst. simpl. eapply Hmint; eauto.
    + unfold onNFT in H. peel H. subst. simpl. eapply Hupd; eauto.
    + unfold onNFT in H. peel H. subst. simpl. eapply Hflag; eauto.
    + unfold onNFT, setAuthorizedUpdater in H. peel H. peel E. by subst.
    + unfold onNFT, updateLevelThresholds in H. peel H. peel E. by subst.
Qed.

(** X18.  Reputation tokens are bound to their users.  From a state in
    which every user with a token id holds that token, through any history
    of the operations of the tracker and of the token contract, the same
    holds again; two users never share a token id; and a user who has a
    token id keeps it, with [ownerOf] returning that user. *)
Theorem tokens_are_bound_to_users (s : State) (ops : list (Env * Op)) :
  owned (reputationNFT s) ->
  let n := reputationNFT s in
  let n' := reputationNFT (runAll s ops) in
  owned n'
  /\ (forall u v, tokenOf n' u <> 0 -> tokenOf n' u = tokenOf n' v -> u = v)
  /\ (forall u, tokenOf n u <> 0 ->
        tokenOf n' u = tokenOf n u /\ ownerOf n' (tokenOf n u) = Ok u).
Proof.
  revert s. induction ops as [|[e op] rest IH]; intros s Ho n n'.
  - subst n n'. simpl. split; [exact Ho|]. split.
    + intros u v Hu Huv. pose proof (Ho u Hu) as H1.
      assert (Hv : tokenOf (reputationNFT s) v <> 0) by congruence.
      pose proof (Ho v Hv) as H2. rewrite Huv in H1. congruence.
    + intros u Hu. split; [reflexivity|]. unfold ownerOf. by rewrite Ho.
  - subst n n'. simpl.
    destruct (exec e s op) as [s1|msg] eqn:H; simpl; [|by apply IH].
    pose proof (exec_keeps_owned _ _ _ _ H Ho) as Ho1.
    destruct (IH s1 Ho1) as (IH1 & IH2 & IH3).
    split; [exact IH1|]. split; [exact IH2|].
    intros u Hu. pose proof (exec_keeps_token _ _ _ _ u H Hu) as Ht.
    rewrite <- Ht. apply IH3. by rewrite Ht.
Qed.

(** X21.  A successful [registerUser] was made by a user without a token
    id; it gives the user the next token id, held by the user, with an
    all-zero Bronze record dated [block.timestamp], and sets
    [lastActivityTime], leaving the counters alone.  Unless the token
    counter wrapped to 0, [getUserReputation] now returns that record and
    every further [registerUser] by the user reverts with
    "User already registered"; before, [getUserReputation] reverted with
    "User doesn't have reputation NFT". *)
Theorem registerUser_mints_fresh_record (e : Env) (s s' : State) :
  registerUser e s = Ok s' ->
  let n := reputationNFT s in
  let n' := reputationNFT s' in
  let t := increment (_tokenIdCounter n) in
  tokenOf n (sender e) = 0
  /\ tokenOf n' (sender e) = t
  /\ ownerOf n' t = Ok (sender e)
  /\ dataOf n' t
     = mkReputationData 0 0 0 0 Bronze 0 0 0 0 (timestamp e) false
  /\ counters (activityOf s' (sender e))
     = (totalTransactions (activityOf s (sender e)),
        totalVolumeTraded (activityOf s (sender e)),
        totalBookingsAsKOL (activityOf s (sender e)),
        totalBookingsAsBuyer (activityOf s (sender e)),
        totalBookingsCompleted (activityOf s (sender e)),
        totalRatingSum (activityOf s (sender e)),
        totalRatingCount (activityOf s (sender e)), timestamp e)
  /\ (t <> 0 ->
      getUserReputation n' (sender e)
      = Ok (mkReputationData 0 0 0 0 Bronze 0 0 0 0 (timestamp e) false)
      /\ forall e', sender e' = sender e ->
           registerUser e' s' = Revert "User already registered")
  /\ getUserReputation n (sender e)
     = Revert "User doesn't have reputation NFT".
Proof.
  intros H n n' t. unfold registerUser in H. peel H.
  destruct x0 as [n1 t1]. peel H. fold n in E0.
  apply require_ok, N.eqb_eq in E. fold n in E.
  pose proof (tokenOf_mint _ _ _ _ _ E0)
    as (_ & _ & -> & _ & Hu & Hw & Hd & _).
  fold t in Hu, Hw, Hd.
  assert (Hn' : n' = n1) by (unfold n'; by subst s').
  assert (Htok : tokenOf n' (sender e) = t).
  { rewrite Hn'. unfold tokenOf. rewrite Hu. by rewrite lookup_insert_eq. }
  assert (Hdata : dataOf n' t
            = mkReputationData 0 0 0 0 Bronze 0 0 0 0 (timestamp e) false).
  { rewrite Hn'. unfold dataOf. rewrite Hd. by rewrite lookup_insert_eq. }
  split; [exact E|]. split; [exact Htok|]. split.
  { rewrite Hn'. unfold ownerOf. rewrite Hw. by rewrite lookup_insert_eq. }
  split; [exact Hdata|]. split.
  { subst s'. rewrite activityOf_setActivity. reflexivity. }
  split.
  - intros Ht. unfold getUserReputation. rewrite Htok, Hdata.
    replace (t =? 0) with false by (symmetry; by apply N.eqb_neq).
    split; [reflexivity|].
    intros e' Hs. unfold registerUser. fold n'. rewrite Hs, Htok.
    replace (t =? 0) with false by (symmetry; by apply N.eqb_neq).
    reflexivity.
  - unfold getUserReputation. by rewrite E.
Qed.

(** X22.  Refreshing a reputation record twice is refreshing it once:
    after a successful [_updateUserReputation], a second one in the same
    block, whatever activity type and points it is given, succeeds and
    changes nothing, and so does the owner's [bulkUpdateReputations] for
    that user.  A refresh never touches the activity counters, the social
    metrics or the token holdings. *)
Theorem refresh_is_idempotent (e : Env) (s s' : State) (user : address)
  (activityType activityType' : string) (pointsEarned pointsEarned' : N) :
  _updateUserReputation e s user activityType pointsEarned = Ok s' ->
  _updateUserReputation e s' user activityType' pointsEarned' = Ok s'
  /\ (sender e = owner s ->
      bulkUpdateReputations e s' [user] = Ok s')
  /\ userActivities s' = userActivities s
  /\ socialMetrics s' = socialMetrics s
  /\ userTokenHoldings s' = userTokenHoldings s.
Proof.
  intros H.
  assert (Hagain : forall ty p,
            _updateUserReputation e s' user ty p = Ok s').
  { intros ty p.
    destruct (decide (tokenOf (reputationNFT s) user = 0)) as [Hz|Hnz].
    - rewrite _updateUserReputation_unregistered in H by exact Hz.
      injection H as <-. by apply _updateUserReputation_unregistered.
    - pose proof H as H'. unfold _updateUserReputation in H'.
      replace (tokenOf (reputationNFT s) user =? 0) with false in H'
        by (symmetry; by apply N.eqb_neq).
      peel H'.
      apply updateReputation_ok in E2
        as (_ & Hauth & Hminted & total & Hw & Hn).
      subst x2 s'. unfold _updateUserReputation.
      cbn [reputationNFT setNFT]. rewrite tokenOf_setData.
      replace (tokenOf (reputationNFT s) user =? 0) with false
        by (symmetry; by apply N.eqb_neq).
      change (calculateOnchainScore (setNFT s ?n0) user)
        with (calculateOnchainScore s user).
      change (calculateSocialScore (setNFT s ?n0) user)
        with (calculateSocialScore s user).
      change (calculateTokenHoldingScore (setNFT s ?n0) user)
        with (calculateTokenHoldingScore s user).
      rewrite E, E0, E1. cbn [mbind result_bind].
      unfold updateReputation.
      change (isAuthorized (asTracker e (setNFT s ?n0)) (setData ?n1 ?t ?d))
        with (isAuthorized (asTracker e s) n1).
      rewrite Hauth. simpl. rewrite tokenOf_setData.
      replace (tokenOf (reputationNFT s) user =? 0) with false
        by (symmetry; by apply N.eqb_neq).
      simpl. rewrite Hw. simpl. rewrite dataOf_setData. simpl.
      rewrite refreshTokenURI_minted by (simpl; exact Hminted). simpl.
      unfold setNFT, setData. simpl. rewrite insert_insert_eq.
      reflexivity. }
  split; [apply Hagain|]. split.
  - intros Ho. unfold bulkUpdateReputations, onlyOwner.
    destruct (_updateUserReputation_frame _ _ _ _ _ _ H) as [n ->]. simpl.
    replace (owner s =? sender e) with true
      by (symmetry; apply N.eqb_eq; congruence).
    simpl. rewrite Hagain. reflexivity.
  - destruct (_updateUserReputation_frame _ _ _ _ _ _ H) as [n ->].
    by repeat split.
Qed.

Lemma _updateUserReputation_counters (e : Env) (s r1 : State) (u : address)
  (a1 a2 : UserActivity) (ty1 ty2 : string) (p1 p2 : N) :
  counters a1 = counters a2 ->
  _updateUserReputation e (setActivity s u a1) u ty1 p1 = Ok r1 ->
  _updateUserReputation e (setActivity s u a2) u ty2 p2
  = Ok (setNFT (setActivity s u a2) (reputationNFT r1)).
Proof.
  intros Hc H.
  destruct a1 as [t1 v1 k1 b1 c1 rs1 rc1 l1 i1],
           a2 as [t2 v2 k2 b2 c2 rs2 rc2 l2 i2].
  unfold counters in Hc. simpl in Hc. injection Hc as -> -> -> -> -> -> -> ->.
  unfold _updateUserReputation in *.
  cbn [reputationNFT setActivity] in *.
  destruct (tokenOf (reputationNFT s) u =? 0).
  - injection H as <-. reflexivity.
  - rewrite !activityOf_setActivity in *.
    assert (Hon : forall i,
      calculateOnchainScore
        (setActivity s u (mkUserActivity t2 v2 k2 b2 c2 rs2 rc2 l2 i)) u
      = calculateOnchainScore
          (setActivity s u (mkUserActivity t2 v2 k2 b2 c2 rs2 rc2 l2 i2)) u).
    { intros i. unfold calculateOnchainScore.
      rewrite !activityOf_setActivity. reflexivity. }
    rewrite (Hon i1) in H.
    peel H. rewrite E. cbn [mbind result_bind].
    change (calculateSocialScore (setActivity s u ?a) u)
      with (calculateSocialScore s u) in *.
    rewrite E0. cbn [mbind result_bind].
    change (calculateTokenHoldingScore (setActivity s u ?a) u)
      with (calculateTokenHoldingScore s u) in *.
    rewrite E1. cbn [mbind result_bind].
    cbn [totalTransactions totalVolumeTraded totalBookingsCompleted
         totalRatingCount totalRatingSum] in *.
    change (asTracker e (setActivity s u ?a)) with (asTracker e s) in *.
    rewrite E2. cbn [mbind result_bind]. subst r1. reflexivity.
Qed.

(** X19.  The counterparty of a tracked transaction earns points that are
    announced but never stored: two successful [trackTransaction] calls
    from the same state that differ only in [interactedWith] leave the same
    token records, the same counters for every user and the same processed
    set; they can differ only in the set of counterparties of the user. *)
Theorem diversity_bonus_is_not_stored (e : Env) (s s1 s2 : State)
  (user : address) (value : N) (w1 w2 : address) (txHash : N) :
  trackTransaction e s user value w1 txHash = Ok s1 ->
  trackTransaction e s user value w2 txHash = Ok s2 ->
  reputationNFT s1 = reputationNFT s2
  /\ (forall u, counters (activityOf s1 u) = counters (activityOf s2 u))
  /\ processedTransactions s1 = processedTransactions s2
  /\ (forall u, u <> user ->
        hasInteractedWith (activityOf s1 u)
        = hasInteractedWith (activityOf s u)).
Proof.
  intros H1 H2. unfold trackTransaction in H1, H2.
  peel H1. peel H2. peel_requires. subst.
  match goal with
  | G1 : _updateUserReputation e (setActivity ?s0 user ?a1) user _ ?p1
           = Ok s1,
    G2 : _updateUserReputation e (setActivity ?s0 user ?a2) user _ ?p2
           = Ok s2
    |- _ =>
      pose proof (_updateUserReputation_counters e s0 s1 user a1 a2
                    "transaction" "transaction" p1 p2 eq_refl G1) as G;
      rewrite G in G2; injection G2 as <-;
      destruct (_updateUserReputation_frame _ _ _ _ _ _ G1) as [n ->]
  end.
  split; [reflexivity|]. split; [|split; [reflexivity|]].
  - intros u. unfold activityOf. simpl.
    destruct (decide (user = u)) as [->|Hne].
    + by rewrite !lookup_insert_eq.
    + by rewrite !lookup_insert_ne by exact Hne.
  - intros u Hne. unfold activityOf. simpl.
    by rewrite lookup_insert_ne by congruence.
Qed.

Lemma grows_refl (a : UserActivity) : grows a a.
Proof. unfold grows. repeat split; first [lia | set_solver]. Qed.

Lemma extends_refl (s : State) : extends s s.
Proof. split; [intros u; apply grows_refl|]. split; [set_solver|auto]. Qed.

Lemma extends_trans (s1 s2 s3 : State) :
  extends s1 s2 -> extends s2 s3 -> extends s1 s3.
Proof.
  intros (Ha & Hp & Hk) (Ha' & Hp' & Hk'). split; [|split].
  - intros u. specialize (Ha u). specialize (Ha' u). unfold grows in *.
    destruct Ha as (?&?&?&?&?&?&?&?), Ha' as (?&?&?&?&?&?&?&?).
    repeat split; first [lia | set_solver].
  - set_solver.
  - auto.
Qed.

Lemma extends_same (s s' : State) :
  userActivities s' = userActivities s ->
  processedTransactions s' = processedTransactions s ->
  isRegisteredKOL s' = isRegisteredKOL s ->
  extends s s'.
Proof.
  intros Ha Hp Hk. unfold extends, activityOf. rewrite Ha, Hp, Hk.
  split; [intros u; apply grows_refl|]. split; [set_solver|auto].
Qed.

Lemma extends_setNFT (s : State) (n : NFT) : extends s (setNFT s n).
Proof. by apply extends_same. Qed.

Lemma extends_setActivity (s : State) (u : address) (a : UserActivity) :
  grows (activityOf s u) a -> extends s (setActivity s u a).
Proof.
  intros Hg. split; [|split; [set_solver|auto]].
  intros v. unfold activityOf at 2. simpl.
  destruct (decide (u = v)) as [<-|Hne].
  - by rewrite lookup_insert_eq.
  - rewrite lookup_insert_ne by exact Hne. apply grows_refl.
Qed.

Lemma _updateUserReputation_extends (e : Env) (s s' : State) (u : address)
  (ty : string) (p : N) :
  _updateUserReputation e s u ty p = Ok s' -> extends s s'.
Proof.
  intros H. apply _updateUserReputation_frame in H as [n ->].
  apply extends_setNFT.
Qed.

Lemma updateAll_extends (e : Env) (users : list address) :
  forall s s', updateAll e s users = Ok s' -> extends s s'.
Proof.
  induction users as [|u rest IH]; simpl; intros s s' H.
  - injection H as <-. apply extends_refl.
  - peel H. eapply extends_trans; [|by eapply IH].
    by eapply _updateUserReputation_extends.
Qed.

Ltac grow :=
  unfold grows; simpl; repeat split; first [lia | set_solver].

Ltac chain :=
  repeat match goal with
  | G : _updateUserReputation _ _ _ _ _ = Ok _ |- _ =>
      apply _updateUserReputation_extends in G
  end.

(** X20.  Through any history of the operations of the tracker and of the
    token contract, no activity counter of any user decreases, no
    counterparty and no processed transaction hash is forgotten, and a KOL
    once marked in [isRegisteredKOL] stays marked. *)
Theorem activity_only_grows (s : State) (ops : list (Env * Op)) :
  extends s (runAll s ops).
Proof.
  assert (Hstep : forall e s0 s0' op, exec e s0 op = Ok s0' -> extends s0 s0').
  { intros e s0 s0' op H. destruct op; simpl in H.
    - unfold registerUser in H. peel H. destruct x0 as [n t]. peel H.
      subst s0'.
      eapply extends_trans; [apply (extends_setNFT s0 n)|].
      apply extends_setActivity. grow.
    - unfold trackTransaction in H. peel H. peel_requires. subst. chain.
      eapply extends_trans; [|eassumption].
      eapply extends_trans; [|apply extends_setActivity].
      + split; [intros u; apply grows_refl|]. split; [simpl; set_solver|auto].
      + change (activityOf (markProcessed s0 txHash) user)
          with (activityOf s0 user).
        destruct (negb (interactedWith =? 0) && _); grow.
    - unfold trackBookingCreated in H. peel H. peel_requires. subst. chain.
      eapply extends_trans; [|eassumption].
      apply extends_setActivity. grow.
    - unfold trackBookingAccepted in H. peel H. peel_requires. subst. chain.
      eapply extends_trans; [apply extends_setActivity|].
      2: { eapply extends_trans; [eassumption|].
           destruct (negb _).
           - match goal with
             | G : _ ≫= _ = Ok _ |- _ => peel G; subst
             end.
             split; [intros u; apply grows_refl|]. split; [set_solver|].
             intros u Hu. simpl.
             destruct (decide (kol = u)) as [->|Hne];
               [by rewrite lookup_insert_eq
               |by rewrite lookup_insert_ne by exact Hne].
           - match goal with
             | G : mret _ = Ok _ |- _ => injection G as <-
             end.
             apply extends_refl. }
      grow.
    - unfold trackBookingCompleted in H. peel H. peel_requires. subst. chain.
      eapply extends_trans; [apply extends_setActivity|].
      2: { eapply extends_trans; [apply extends_setActivity|].
           2: { eapply extends_trans; eassumption. }
           grow. }
      grow.
    - unfold updateTokenHoldings in H. peel H. subst. chain.
      eapply extends_trans; [|eassumption]. by apply extends_same.
    - unfold updateSocialMetrics in H. peel H. subst. chain.
      eapply extends_trans; [|eassumption]. by apply extends_same.
    - unfold updatePointConfig in H. peel H. subst. by apply extends_same.
    - unfold setTimeBookingContract in H. peel H. subst.
      by apply extends_same.
    - unfold bulkUpdateReputations in H. peel H.
      by eapply updateAll_extends.
    - peel H. subst. apply extends_setNFT.
    - unfold onNFT in H. peel H. subst. apply extends_setNFT.
    - unfold onNFT in H. peel H. subst. apply extends_setNFT.
    - unfold onNFT in H. peel H. subst. apply extends_setNFT.
    - unfold onNFT in H. peel H. subst. apply extends_setNFT. }
  revert s. induction ops as [|[e op] rest IH]; intros s; simpl.
  - apply extends_refl.
  - destruct (exec e s op) as [s1|msg] eqn:H; simpl; [|apply IH].
    eapply extends_trans; [by eapply Hstep|apply IH].
Qed.



(** X24.  Who may call what in the reputation contracts.  The three
    booking hooks revert unless the caller is the booking contract;
    [updateTokenHoldings] and [updateSocialMetrics] unless it is the owner
    or the user concerned; [updatePointConfig], [setTimeBookingContract]
    and [bulkUpdateReputations] unless it is the owner of the tracker;
    [updateReputation] and [setKOLStatus] unless it is an authorized
    updater or the owner of the token contract; [setAuthorizedUpdater] and
    [updateLevelThresholds] unless it is that owner.  [trackTransaction]
    and [mintReputationNFT] are open: their result is the same whoever
    calls. *)
Theorem reputation_access_control (e : Env) (s : State) :
  let n := reputationNFT s in
  (sender e <> timeBooking s ->
   (forall b i, trackBookingCreated e s b i
                = Revert "Only TimeBooking contract")
   /\ (forall k i, trackBookingAccepted e s k i
                   = Revert "Only TimeBooking contract")
   /\ (forall k b i r, trackBookingCompleted e s k b i r
                       = Revert "Only TimeBooking contract"))
  /\ (forall user, sender e <> owner s -> sender e <> user ->
        (forall b, updateTokenHoldings e s user b = Revert "Unauthorized")
        /\ (forall m, updateSocialMetrics e s user m = Revert "Unauthorized"))
  /\ (sender e <> owner s ->
      (forall c, updatePointConfig e s c
                 = Revert "Ownable: caller is not the owner")
      /\ (forall a, setTimeBookingContract e s a
                    = Revert "Ownable: caller is not the owner")
      /\ (forall us, bulkUpdateReputations e s us
                     = Revert "Ownable: caller is not the owner"))
  /\ (isAuthorized e n = false ->
      (forall u a b c d f g h,
         updateReputation e n u a b c d f g h
         = Revert "Not authorized to update")
      /\ (forall u k, setKOLStatus e n u k = Revert "Not authorized"))
  /\ (sender e <> nftOwner n ->
      (forall u a, setAuthorizedUpdater e n u a
                   = Revert "Ownable: caller is not the owner")
      /\ (forall b sv g d, updateLevelThresholds e n b sv g d
                           = Revert "Ownable: caller is not the owner"))
  /\ (forall who : address,
        let e' := mkEnv who (timestamp e) (receivesToken e) in
        (forall u v w h,
           trackTransaction e' s u v w h = trackTransaction e s u v w h)
        /\ (forall to, mintReputationNFT e' n to = mintReputationNFT e n to)).
Proof.
  intros n. repeat split.
  - intros b i. unfold trackBookingCreated, onlyTimeBooking.
    by expect_false (sender e =? timeBooking s).
  - intros k i. unfold trackBookingAccepted, onlyTimeBooking.
    by expect_false (sender e =? timeBooking s).
  - intros k b i r. unfold trackBookingCompleted, onlyTimeBooking.
    by expect_false (sender e =? timeBooking s).
  - intros b. unfold updateTokenHoldings, ownerOrUser.
    expect_false (sender e =? owner s). by expect_false (sender e =? user).
  - intros m. unfold updateSocialMetrics, ownerOrUser.
    expect_false (sender e =? owner s). by expect_false (sender e =? user).
  - intros c. unfold updatePointConfig, onlyOwner.
    by expect_false (owner s =? sender e).
  - intros a. unfold setTimeBookingContract, onlyOwner.
    by expect_false (owner s =? sender e).
  - intros us. unfold bulkUpdateReputations, onlyOwner.
    by expect_false (owner s =? sender e).
  - intros u a b c d f g h. unfold updateReputation. by rewrite H.
  - intros u k. unfold setKOLStatus. by rewrite H.
  - intros u a. unfold setAuthorizedUpdater, nftOnlyOwner.
    by expect_false (nftOwner n =? sender e).
  - intros b sv g d. unfold updateLevelThresholds, nftOnlyOwner.
    by expect_false (nftOwner n =? sender e).
Qed.

Lemma owned_registered : owned (reputationNFT registered).
Proof.
  intros user Hu. unfold tokenOf in *.
  assert (E : userToTokenId (reputationNFT registered) = {[20 := 1]})
    by (vm_compute; reflexivity).
  rewrite E in *. destruct (N.eq_dec user 20) as [->|Hne].
  - rewrite lookup_singleton_eq. simpl. crunch.
  - rewrite lookup_singleton_ne in Hu by congruence. contradiction.
Qed.

Lemma first_accept_needs_registration_witness :
  trackBookingAccepted (as_ 60 200) deployed 20 1
  = Revert "User doesn't have reputation NFT".
Proof.
  destruct (first_accept_needs_registration (as_ 60 200) deployed 20 1)
    as (_ & H); [crunch | crunch |].
  apply H; crunch.
Defined.

Lemma _calculateLevel_monotone_witness :
  rank (_calculateLevel (reputationNFT deployed) 999)
  <= rank (_calculateLevel (reputationNFT deployed) 1000).
Proof.
  destruct (_calculateLevel_monotone (reputationNFT deployed) 999 1000)
    as [H _]; [crunch|].
  exact H.
Defined.

Lemma tokens_are_bound_to_users_witness :
  ownerOf (reputationNFT (runAll registered flagHistory)) 1 = Ok 20.
Proof.
  destruct (tokens_are_bound_to_users registered flagHistory owned_registered)
    as (_ & _ & H).
  destruct (H 20) as (_ & Ho); [crunch|]. settle Ho.
Defined.

Lemma diversity_bonus_is_not_stored_witness :
  exists s1 s2,
    trackTransaction (as_ 5 400) registered 20 (3 * 10 ^ 18) 7 99 = Ok s1
    /\ trackTransaction (as_ 5 400) registered 20 (3 * 10 ^ 18) 0 99 = Ok s2
    /\ reputationNFT s1 = reputationNFT s2.
Proof.
  destruct (trackTransaction (as_ 5 400) registered 20 (3 * 10 ^ 18) 7 99)
    as [s1|r] eqn:E1; [|vm_compute in E1; discriminate E1].
  destruct (trackTransaction (as_ 5 400) registered 20 (3 * 10 ^ 18) 0 99)
    as [s2|r] eqn:E2; [|vm_compute in E2; discriminate E2].
  exists s1, s2. split; [reflexivity|]. split; [reflexivity|].
  destruct (diversity_bonus_is_not_stored (as_ 5 400) registered s1 s2 20
              (3 * 10 ^ 18) 7 0 99 E1 E2) as (H & _).
  exact H.
Defined.

Lemma activity_only_grows_witness :
  extends registered (runAll registered flagHistory).
Proof. exact (activity_only_grows registered flagHistory). Defined.

Lemma registerUser_mints_fresh_record_witness :
  getUserReputation (reputationNFT registered) 20
  = Ok (mkReputationData 0 0 0 0 Bronze 0 0 0 0 100 false).
Proof.
  destruct (registerUser_mints_fresh_record (as_ 20 100) deployed registered)
    as (_ & _ & _ & _ & _ & H & _); [crunch|].
  destruct H as (H & _); [crunch|]. settle H.
Defined.

Lemma refresh_is_idempotent_witness :
  exists s',
    _updateUserReputation (as_ 5 400) registered 20 "bulk_update" 0 = Ok s'
    /\ _updateUserReputation (as_ 5 400) s' 20 "bulk_update" 0 = Ok s'.
Proof.
  destruct (_updateUserReputation (as_ 5 400) registered 20 "bulk_update" 0)
    as [s'|r] eqn:E; [|vm_compute in E; discriminate E].
  exists s'. split; [reflexivity|].
  destruct (refresh_is_idempotent (as_ 5 400) registered s' 20 "bulk_update"
              "bulk_update" 0 0 E) as (H & _).
  exact H.
Defined.


Lemma reputation_access_control_witness :
  bulkUpdateReputations (as_ 5 400) registered [20]
  = Revert "Ownable: caller is not the owner".
Proof.
  destruct (reputation_access_control (as_ 5 400) registered)
    as (_ & _ & H & _).
  destruct H as (_ & _ & H); [crunch|]. exact (H [20]).
Defined.

Lemma _updateUserReputation_ledger (e : Env) (s s' : State) (u : address)
  (ty : string) (p : N) :
  _updateUserReputation e s u ty p = Ok s' ->
  userToTokenId (reputationNFT s') = userToTokenId (reputationNFT s)
  /\ _owners (reputationNFT s') = _owners (reputationNFT s)
  /\ trackerAuthorized s' = trackerAuthorized s.
Proof.
  intros H.
  destruct (decide (tokenOf (reputationNFT s) u = 0)) as [Hz|Hnz].
  - unfold _updateUserReputation in H. rewrite Hz in H. simpl in H.
    by injection H as <-.
  - apply _updateUserReputation_ok in H
      as (on & so & th & total & _ & _ & _ & _ & ->); [|exact Hnz].
    by repeat split.
Qed.

Lemma activityOf_setActivity_ne (s : State) (u v : address)
  (a : UserActivity) :
  u <> v -> activityOf (setActivity s u a) v = activityOf s v.
Proof.
  intros Hne. unfold activityOf, setActivity; simpl.
  by rewrite lookup_insert_ne.
Qed.

Lemma activityOf_setNFT (s : State) (n : NFT) (u : address) :
  activityOf (setNFT s n) u = activityOf s u.
Proof. reflexivity. Qed.

(** X28.  What a completed booking counts for, the KOL and the buyer being
    different accounts.  A [trackBookingCompleted] call that succeeds was
    made by the booking contract; it adds 1 to the completed bookings of
    both, adds the rating to the KOL's rating sum and 1 to the KOL's rating
    count, leaves the buyer's rating counters and every other counter of
    the two alone, stamps both with [block.timestamp], and changes the
    activity of nobody else and not the processed set.  The call does
    succeed when it comes from the booking contract, the rating and, for
    both the KOL and the buyer, the activity counters, the social metrics
    and the token holdings, as well as the configured points, are at most
    [LIMIT = 2^64], and each of the two is unregistered or holds a minted
    token the tracker may update.  (Without the bound on the social metrics
    or the holdings the score computation can overflow and the call
    revert.) *)
Theorem trackBookingCompleted_counts (e : Env) (s : State)
  (kol buyer : address) (bookingId rating : N) :
  kol <> buyer ->
  let k := activityOf s kol in
  let b := activityOf s buyer in
  (forall s',
     trackBookingCompleted e s kol buyer bookingId rating = Ok s' ->
     sender e = timeBooking s
     /\ counters (activityOf s' kol)
        = (totalTransactions k, totalVolumeTraded k, totalBookingsAsKOL k,
           totalBookingsAsBuyer k, totalBookingsCompleted k + 1,
           totalRatingSum k + rating, totalRatingCount k + 1, timestamp e)
     /\ counters (activityOf s' buyer)
        = (totalTransactions b, totalVolumeTraded b, totalBookingsAsKOL b,
           totalBookingsAsBuyer b, totalBookingsCompleted b + 1,
           totalRatingSum b, totalRatingCount b, timestamp e)
     /\ (forall u, u <> kol -> u <> buyer ->
           activityOf s' u = activityOf s u)
     /\ processedTransactions s' = processedTransactions s)
  /\ (sender e = timeBooking s ->
      within LIMIT s kol -> within LIMIT s buyer -> rating <= LIMIT ->
      (forall u, u = kol \/ u = buyer ->
         tokenOf (reputationNFT s) u = 0
         \/ (trackerAuthorized s = true
             /\ is_Some (_owners (reputationNFT s)
                           !! tokenOf (reputationNFT s) u))) ->
      exists s', trackBookingCompleted e s kol buyer bookingId rating = Ok s').
Proof.
  intros Hne k b. split.
  - intros s' H. unfold trackBookingCompleted, onlyTimeBooking in H. peel H.
    repeat match goal with
    | G : _updateUserReputation _ _ _ _ _ = Ok _ |- _ =>
        apply _updateUserReputation_frame in G as [? ->]
    end.
    peel_requires. subst s'. split; [assumption|].
    rewrite !activityOf_setNFT.
    repeat first [ rewrite activityOf_setActivity
                 | rewrite activityOf_setActivity_ne by congruence ].
    split; [reflexivity|]. split; [reflexivity|]. split; [|reflexivity].
    intros u Hk Hb. rewrite !activityOf_setNFT.
    by rewrite !activityOf_setActivity_ne by congruence.
  - intros Hs Hwk Hwb Hr Htok.
    pose proof Hwk as ((K1 & K2 & K3 & K4 & K5 & K6 & K7) & Hc & HmK & HhK).
    pose proof Hwb as ((B1 & B2 & B3 & B4 & B5 & B6 & B7) & _ & HmB & HhB).
    pose proof Hc as (C1 & C2 & C3 & C4 & C5 & C6 & C7).
    fold k in K1, K2, K3, K4, K5, K6, K7.
    fold b in B1, B2, B3, B4, B5, B6, B7.
    unfold LIMIT in *.
    unfold trackBookingCompleted, onlyTimeBooking.
    expect_true (sender e =? timeBooking s). cbn [mbind result_bind require].
    fold k.
    rewrite (checked_add_in_range (totalBookingsCompleted k))
      by (unfold MAX_UINT256; lia).
    cbn [mbind result_bind].
    rewrite (checked_add_in_range (totalRatingSum k))
      by (unfold MAX_UINT256; lia).
    cbn [mbind result_bind].
    rewrite (checked_add_in_range (totalRatingCount k))
      by (unfold MAX_UINT256; lia).
    cbn [mbind result_bind].
    rewrite activityOf_setActivity_ne by exact Hne. fold b.
    rewrite (checked_add_in_range (totalBookingsCompleted b))
      by (unfold MAX_UINT256; lia).
    cbn [mbind result_bind].
    match goal with
    | |- context [_updateUserReputation e ?st kol] => set (s2 := st)
    end.
    assert (Hpts : exists p,
      (if 45 <=? rating
       then checked_add (bookingCompletedPoints (pointConfig s2))
              (highRatingBonus (pointConfig s2))
       else mret (bookingCompletedPoints (pointConfig s2))) = Ok p).
    { destruct (45 <=? rating); [|eauto].
      rewrite checked_add_in_range; [eauto|].
      subst s2. simpl. unfold MAX_UINT256. lia. }
    destruct Hpts as [p ->]. cbn [mbind result_bind].
    assert (Hw2 : forall u, u = kol \/ u = buyer ->
              within (2 * LIMIT) s2 u).
    { intros u Hu. unfold within.
      change (socialOf s2 u) with (socialOf s u).
      change (holdingsOf s2 u) with (holdingsOf s u).
      change (pointConfig s2) with (pointConfig s).
      assert (Ha : activityWithin (2 * LIMIT) (activityOf s2 u)).
      { destruct Hu as [-> | ->]; subst s2.
        - rewrite activityOf_setActivity_ne by congruence.
          rewrite activityOf_setActivity. unfold activityWithin, LIMIT.
          simpl. repeat split; lia.
        - rewrite activityOf_setActivity. unfold activityWithin, LIMIT.
          simpl. repeat split; lia. }
      split; [exact Ha|].
      unfold configWithin, socialWithin, LIMIT.
      destruct Hu as [-> | ->].
      - destruct HmK as (?&?&?&?). repeat split; lia.
      - destruct HmB as (?&?&?&?). repeat split; lia. }
    destruct (_updateUserReputation_succeeds e s2 kol "booking_completed" p)
      as [s3 H3]; [apply Hw2; by left | apply Htok; by left |].
    rewrite H3. cbn [mbind result_bind].
    pose proof (_updateUserReputation_ledger _ _ _ _ _ _ H3)
      as (Hu3 & Ho3 & Ha3).
    destruct (_updateUserReputation_frame _ _ _ _ _ _ H3) as [n3 E3].
    assert (Hw3 : forall u, u = kol \/ u = buyer ->
              within (2 * LIMIT) s3 u).
    { intros u Hu. rewrite E3. apply within_setNFT. by apply Hw2. }
    destruct (_updateUserReputation_succeeds e s3 buyer "booking_participated"
                (bookingCompletedPoints (pointConfig s3) / 2))
      as [s4 H4]; [apply Hw3; by right | |].
    { unfold tokenOf. rewrite Hu3, Ho3, Ha3.
      apply (Htok buyer). by right. }
    replace (bookingCompletedPoints (pointConfig s2) / 2)
      with (bookingCompletedPoints (pointConfig s3) / 2)
      by (by rewrite E3).
    rewrite H4. cbn [mbind result_bind].
    destruct (_updateUserReputation_frame _ _ _ _ _ _ H4) as [n4 E4].
    unfold emitActivityTracked.
    destruct (_calculateTotalScore_succeeds s4 kol) as [t1 ->].
    { rewrite E4. apply within_setNFT. apply Hw3. by left. }
    cbn [mbind result_bind].
    destruct (_calculateTotalScore_succeeds s4 buyer) as [t2 ->].
    { rewrite E4. apply within_setNFT. apply Hw3. by right. }
    cbn [mbind result_bind]. eauto.
Qed.

Lemma trackBookingCompleted_counts_witness :
  exists s',
    trackBookingCompleted (as_ 60 500) registered 20 10 1 50 = Ok s'
    /\ totalRatingSum (activityOf s' 20) = 50
    /\ totalBookingsCompleted (activityOf s' 10) = 1.
Proof.
  destruct (trackBookingCompleted_counts (as_ 60 500) registered 20 10 1 50)
    as (Heff & Hok); [crunch|].
  destruct Hok as (s' & Hs').
  { crunch. }
  { repeat split; crunch. }
  { repeat split; crunch. }
  { crunch. }
  { intros u [-> | ->]; [right; split; crunch | left; crunch]. }
  exists s'. split; [exact Hs'|].
  destruct (Heff s' Hs') as (_ & Hk & Hb & _).
  unfold counters in Hk, Hb.
  split; [by injection Hk as _ _ _ _ _ -> _ _
         |by injection Hb as _ _ _ _ -> _ _ _].
Defined.

End ReputationLedger.

(** * Booking and reputation together *)

Section PlatformProofs.

(** X16.  The two contracts together: while the booking contract has the
    tracker set, with the hook answering as the tracker does, a KOL who
    holds no reputation token and is not yet marked in [isRegisteredKOL]
    cannot accept any booking: [acceptBooking] reverts. *)
Theorem unregistered_kol_cannot_accept (e : TimeBooking.Env)
  (s : TimeBooking.State) (tracker : Reputation.State)
  (bookingContract : address) (id : N) :
  TimeBooking.reputationTracker s <> 0 ->
  TimeBooking.trackerOk e
  = Platform.trackerHook tracker bookingContract (TimeBooking.timestamp e)
      (TimeBooking.receivesToken e) ->
  Reputation.tokenOf (Reputation.reputationNFT tracker) (TimeBooking.sender e)
  = 0 ->
  default false (Reputation.isRegisteredKOL tracker !! TimeBooking.sender e)
  = false ->
  exists msg, TimeBooking.acceptBooking e s id = Revert msg.
Proof.
  intros Hset Hhook Htok Hkol.
  destruct (TimeBooking.acceptBooking e s id) as [[s' paid]|msg] eqn:H;
    [exfalso|by eexists].
  unfold TimeBooking.acceptBooking in H. peel H.
  unfold TimeBooking.notifyTracker in E3. simpl in E3.
  replace (TimeBooking.reputationTracker s =? 0) with false in E3
    by (symmetry; by apply N.eqb_neq).
  apply require_ok in E3. rewrite Hhook in E3. simpl in E3.
  rewrite (trackBookingAccepted_unregistered _ _ _ _ Htok Hkol) in E3.
  repeat match type of E3 with
  | context [if ?c then _ else _] => destruct c; simpl in E3
  end; discriminate E3.
Qed.

Lemma unregistered_kol_cannot_accept_witness :
  exists msg,
    TimeBooking.acceptBooking
      (TimeBooking.mkEnv 20 2000 (fun _ => true) (fun _ => true)
         (Platform.trackerHook Reputation.deployed 60 2000 (fun _ => true)))
      TimeBooking.trackedPending 1 = Revert msg.
Proof.
  apply (unregistered_kol_cannot_accept
           (TimeBooking.mkEnv 20 2000 (fun _ => true) (fun _ => true)
              (Platform.trackerHook Reputation.deployed 60 2000 (fun _ => true)))
           TimeBooking.trackedPending Reputation.deployed 60 1);
    [crunch | reflexivity | crunch | crunch].
Defined.

End PlatformProofs.

(** * Ticket metadata *)

Section TicketProofs.
Import BookingTicketNFT.

Lemma countDigits_round (rounds : nat) (temp digits : N) :
  countDigits (S rounds) temp digits
  = if temp =? 0 then Ok digits
    else digits ← checked_add digits 1;
         countDigits rounds (temp / 10) digits.
Proof. reflexivity. Qed.

Lemma writeDigits_round (rounds : nat) (value digits : N)
  (buffer : list Ascii.ascii) :
  writeDigits (S rounds) value digits buffer
  = if value =? 0 then Ok buffer
    else
      digits ← checked_sub digits 1;
      code ← checked_add 48 (value mod 10);
      buffer ← store buffer digits (Ascii.ascii_of_N (code mod 256));
      writeDigits rounds (value / 10) digits buffer.
Proof. reflexivity. Qed.

Lemma digitsOf_round (rounds : nat) (value : N) :
  digitsOf (S rounds) value
  = if value =? 0 then []
    else digitsOf rounds (value / 10) ++ [value mod 10].
Proof. reflexivity. Qed.

Lemma countDigits_digitsOf (rounds : nat) :
  forall value digits : N,
  value < 10 ^ N.of_nat rounds ->
  digits + N.of_nat rounds <= MAX_UINT256 ->
  countDigits (S rounds) value digits
  = Ok (digits + N.of_nat (length (digitsOf rounds value))).
Proof.
  induction rounds as [|rounds IH]; intros value digits Hv Hd.
  - simpl in *. assert (value = 0) as -> by lia. simpl. f_equal. lia.
  - rewrite countDigits_round, digitsOf_round.
    destruct (N.eqb_spec value 0) as [->|Hne].
    + simpl. f_equal. lia.
    + rewrite checked_add_in_range by lia. cbn [mbind result_bind].
      rewrite IH.
      * rewrite length_app. simpl. f_equal. lia.
      * rewrite Nat2N.inj_succ, N.pow_succ_r' in Hv.
        apply N.Div0.div_lt_upper_bound. lia.
      * lia.
Qed.

Lemma writeDigits_digitsOf (rounds : nat) :
  forall (value : N) (buffer : list Ascii.ascii),
  value < 10 ^ N.of_nat rounds ->
  (length (digitsOf rounds value) <= length buffer)%nat ->
  writeDigits (S rounds) value
    (N.of_nat (length (digitsOf rounds value))) buffer
  = Ok (map digitChar (digitsOf rounds value)
        ++ drop (length (digitsOf rounds value)) buffer).
Proof.
  induction rounds as [|rounds IH]; intros value buffer Hv Hlen.
  - simpl in *. assert (value = 0) as -> by lia. simpl. by rewrite drop_0.
  - rewrite writeDigits_round, digitsOf_round. rewrite digitsOf_round in Hlen.
    destruct (N.eqb_spec value 0) as [->|Hne].
    + simpl. by rewrite drop_0.
    + 
      rewrite length_app in *. cbn [length] in Hlen |- *.
      set (k := length (digitsOf rounds (value / 10))) in *.
      rewrite checked_sub_in_range by lia. cbn [mbind result_bind].
      assert (Hmod : value mod 10 < 10) by (apply N.mod_lt; lia).
      rewrite checked_add_in_range
        by (apply (N.le_trans _ 57); [lia | by vm_compute]).
      cbn [mbind result_bind].
      replace (N.of_nat (k + 1) - 1) with (N.of_nat k) by lia.
      unfold store.
      replace (N.of_nat k <? N.of_nat (length buffer)) with true
        by (symmetry; apply N.ltb_lt; lia).
      cbn [mbind result_bind]. rewrite Nat2N.id.
      rewrite IH.
      * fold k. rewrite map_app. cbn [map]. rewrite <- app_assoc.
        cbn [app]. do 2 f_equal.
        rewrite insert_take_drop by lia.
        rewrite drop_app_length' by (rewrite length_take_le; lia).
        by replace (k + 1)%nat with (S k) by lia.
      * rewrite Nat2N.inj_succ, N.pow_succ_r' in Hv.
        apply N.Div0.div_lt_upper_bound. lia.
      * fold k. rewrite length_insert. lia.
Qed.

Lemma digitsOf_range (rounds : nat) :
  forall value d, d ∈ digitsOf rounds value -> d < 10.
Proof.
  induction rounds as [|rounds IH]; intros value d Hd.
  - by apply elem_of_nil in Hd.
  - rewrite digitsOf_round in Hd. destruct (value =? 0).
    + by apply elem_of_nil in Hd.
    + apply elem_of_app in Hd as [Hd|Hd]; [by eapply IH|].
      apply list_elem_of_singleton in Hd as ->. apply N.mod_lt. lia.
Qed.

Lemma digitValue_digitChar (d : N) : d < 10 -> digitValue (digitChar d) = d.
Proof.
  intros Hd. unfold digitValue, digitChar.
  rewrite N.mod_small by lia. rewrite Ascii.N_ascii_embedding by lia. lia.
Qed.

Lemma isDigit_digitChar (d : N) : d < 10 -> isDigit (digitChar d).
Proof.
  intros Hd. unfold isDigit, digitChar.
  rewrite N.mod_small by lia. rewrite Ascii.N_ascii_embedding by lia. lia.
Qed.

Lemma parse_digitsOf (rounds : nat) :
  forall value,
  value < 10 ^ N.of_nat rounds ->
  foldl (fun acc c => acc * 10 + digitValue c) 0
    (map digitChar (digitsOf rounds value)) = value.
Proof.
  induction rounds as [|rounds IH]; intros value Hv.
  - simpl in *. lia.
  - rewrite digitsOf_round. destruct (N.eqb_spec value 0) as [->|Hne];
      [reflexivity|].
    rewrite map_app, foldl_app. simpl. rewrite IH.
    + rewrite digitValue_digitChar by (apply N.mod_lt; lia).
      pose proof (N.div_mod' value 10). lia.
    + rewrite Nat2N.inj_succ, N.pow_succ_r' in Hv.
      apply N.Div0.div_lt_upper_bound. lia.
Qed.

Lemma digitsOf_head (rounds : nat) :
  forall value d rest,
  value < 10 ^ N.of_nat rounds ->
  digitsOf rounds value = d :: rest -> d <> 0.
Proof.
  induction rounds as [|rounds IH]; intros value d rest Hv Hd.
  - discriminate Hd.
  - rewrite digitsOf_round in Hd. destruct (N.eqb_spec value 0) as [->|Hne];
      [discriminate Hd|].
    assert (Hv' : value / 10 < 10 ^ N.of_nat rounds).
    { rewrite Nat2N.inj_succ, N.pow_succ_r' in Hv.
      apply N.Div0.div_lt_upper_bound. lia. }
    destruct (digitsOf rounds (value / 10)) as [|d' rest'] eqn:Hq.
    + simpl in Hd. injection Hd as <- <-.
      assert (value / 10 = 0).
      { pose proof (parse_digitsOf rounds (value / 10) Hv') as Hp.
        rewrite Hq in Hp. simpl in Hp. lia. }
      pose proof (N.div_mod' value 10). lia.
    + simpl in Hd. injection Hd as <- <-. by eapply IH.
Qed.

Lemma _toString_digits (value : N) :
  value <> 0 -> value <= MAX_UINT256 ->
  _toString value
  = Ok (String.string_of_list_ascii (map digitChar (digitsOf 79 value))).
Proof.
  intros Hne Hv.
  assert (Hlt : value < 10 ^ N.of_nat 79).
  { apply (N.le_lt_trans _ MAX_UINT256); [exact Hv | by vm_compute]. }
  unfold _toString, ROUNDS.
  replace (value =? 0) with false by (symmetry; by apply N.eqb_neq).
  rewrite (countDigits_digitsOf 79 value 0 Hlt) by (by vm_compute).
  cbn [mbind result_bind]. rewrite N.add_0_l, Nat2N.id.
  rewrite (writeDigits_digitsOf 79 value _ Hlt)
    by (by rewrite length_replicate).
  cbn [mbind result_bind].
  rewrite drop_ge by (by rewrite length_replicate).
  by rewrite app_nil_r.
Qed.

(** X25.  [_toString] writes a [uint256] in decimal: it returns, without
    running out of its buffer, a non-empty string of digits that reads back
    as the number, and that starts with the digit 0 only when the number is
    0 and the string is "0". *)
Theorem _toString_round_trip (value : N) :
  value <= MAX_UINT256 ->
  exists str,
    _toString value = Ok str
    /\ parseDecimal str = value
    /\ Forall isDigit (String.list_ascii_of_string str)
    /\ str <> ""
    /\ (forall rest, str = String (digitChar 0) rest -> value = 0 /\ rest = "").
Proof.
  intros Hv. destruct (N.eqb_spec value 0) as [->|Hne].
  - exists "0". repeat split.
    + repeat constructor; unfold isDigit; simpl; lia.
    + discriminate.
    + by injection H.
  - assert (Hlt : value < 10 ^ N.of_nat 79).
    { apply (N.le_lt_trans _ MAX_UINT256); [exact Hv | by vm_compute]. }
    eexists. split; [by apply _toString_digits|].
    unfold parseDecimal.
    rewrite String.list_ascii_of_string_of_list_ascii.
    split; [by apply parse_digitsOf|]. split; [|split].
    + apply Forall_forall. intros c Hc.
      apply list_elem_of_fmap in Hc as (d & -> & Hd).
      apply isDigit_digitChar. by eapply digitsOf_range.
    + destruct (digitsOf 79 value) as [|d rest] eqn:Hd; [|discriminate].
      pose proof (parse_digitsOf 79 value Hlt) as Hp.
      rewrite Hd in Hp. simpl in Hp. congruence.
    + intros rest Hstr.
      destruct (digitsOf 79 value) as [|d ds] eqn:Hd; [discriminate Hstr|].
      simpl in Hstr. injection Hstr as Hc _.
      pose proof (digitsOf_head 79 value d ds Hlt Hd) as Hnz.
      assert (Hd10 : d < 10)
        by (apply (digitsOf_range 79 value); rewrite Hd; left).
      exfalso. apply Hnz.
      rewrite <- (digitValue_digitChar d Hd10), Hc. reflexivity.
Qed.

(** X26.  [getStatusText] names the seven values of [BookingStatus]: it
    returns "Unknown" exactly for the codes that are no status, in
    particular for every code above 6, and different statuses get
    different names. *)
Theorem getStatusText_names_the_status (c : N) :
  (getStatusText c <> "Unknown" <-> exists st, c = statusCode st)
  /\ (forall st st',
        getStatusText (statusCode st) = getStatusText (statusCode st') ->
        st = st')
  /\ (6 < c -> getStatusText c = "Unknown").
Proof.
  split; [|split].
  - split.
    + intros Hn. unfold getStatusText in Hn.
      destruct (N.eqb_spec c 0) as [Hc|?];
        [exists TimeBooking.Pending; exact Hc|].
      destruct (N.eqb_spec c 1) as [Hc|?];
        [exists TimeBooking.Accepted; exact Hc|].
      destruct (N.eqb_spec c 2) as [Hc|?];
        [exists TimeBooking.Rejected; exact Hc|].
      destruct (N.eqb_spec c 3) as [Hc|?];
        [exists TimeBooking.Completed; exact Hc|].
      destruct (N.eqb_spec c 4) as [Hc|?];
        [exists TimeBooking.Cancelled; exact Hc|].
      destruct (N.eqb_spec c 5) as [Hc|?];
        [exists TimeBooking.Disputed; exact Hc|].
      destruct (N.eqb_spec c 6) as [Hc|?];
        [exists TimeBooking.Expired; exact Hc|].
      contradiction.
    + intros [st ->]. by destruct st.
  - intros st st'. by destruct st, st'.
  - intros Hc. unfold getStatusText.
    repeat match goal with
    | |- context [c =? ?k] =>
        replace (c =? k) with false by (symmetry; apply N.eqb_neq; lia)
    end.
    reflexivity.
Qed.

Lemma _toString_parse (value : N) :
  value <= MAX_UINT256 ->
  exists str, _toString value = Ok str /\ parseDecimal str = value.
Proof.
  intros Hv. destruct (N.eqb_spec value 0) as [->|Hne].
  - by exists "0".
  - assert (Hlt : value < 10 ^ N.of_nat 79).
    { apply (N.le_lt_trans _ MAX_UINT256); [exact Hv | by vm_compute]. }
    eexists. split; [by apply _toString_digits|].
    unfold parseDecimal.
    rewrite String.list_ascii_of_string_of_list_ascii.
    by apply parse_digitsOf.
Qed.

(** X27.  [generateTicketMetadata] succeeds for every [uint256] start
    time and returns its arguments unchanged in the metadata; the name of
    the ticket is "SoRe Booking Ticket #" followed by the start time in
    decimal, so two tickets have the same name exactly when their sessions
    start at the same time. *)
Theorem ticket_name_is_the_start_time (b k b' k' : address)
  (from to amount from' to' amount' : N) (r r' : string) (st st' : N) :
  from <= MAX_UINT256 -> from' <= MAX_UINT256 ->
  exists m m',
    generateTicketMetadata b k from to amount r st = Ok m
    /\ generateTicketMetadata b' k' from' to' amount' r' st' = Ok m'
    /\ (buyer m, kol m, fromTime m, toTime m, totalAmount m, reason m,
        status m) = (b, k, from, to, amount, r, st)
    /\ (exists number,
          name m = "SoRe Booking Ticket #" +:+ number
          /\ parseDecimal number = from)
    /\ (name m = name m' <-> from = from').
Proof.
  intros Hf Hf'.
  destruct (_toString_parse from Hf) as (str & Hs & Hp).
  destruct (_toString_parse from' Hf') as (str' & Hs' & Hp').
  unfold generateTicketMetadata. rewrite Hs, Hs'. cbn [mbind result_bind].
  eexists _, _. split; [reflexivity|]. split; [reflexivity|].
  split; [reflexivity|]. split; [by exists str|].
  cbn [name]. split.
  - intros Hn. injection Hn as Hn. change (str = str') in Hn. congruence.
  - intros <-. rewrite Hs in Hs'. by injection Hs' as <-.
Qed.

Lemma _toString_round_trip_witness :
  exists str, _toString 1756203893 = Ok str /\ parseDecimal str = 1756203893.
Proof.
  destruct (_toString_round_trip 1756203893) as (str & H1 & H2 & _);
    [crunch|].
  exists str. split; [exact H1 | exact H2].
Defined.

Lemma getStatusText_names_the_status_witness :
  getStatusText 7 = "Unknown".
Proof.
  destruct (getStatusText_names_the_status 7) as (_ & _ & H).
  apply H. crunch.
Defined.

Lemma ticket_name_is_the_start_time_witness :
  exists m,
    generateTicketMetadata 10 20 4600 8200 200 "consultation" 0 = Ok m
    /\ fromTime m = 4600.
Proof.
  destruct (ticket_name_is_the_start_time 10 20 10 20 4600 8200 200 4600
              8200 200 "consultation" "consultation" 0 0)
    as (m & m' & H & _ & Hf & _); [crunch | crunch |].
  exists m. split; [exact H|]. by injection Hf.
Defined.

End TicketProofs.
